(** * The scheduler and session orchestrator of the account bot

    A shallow embedding of the manager module (the file that [bot.js] and
    the entry point import as [manager.js]): the scheduler tick
    [checkAndRun], the orchestrator [executeSession] and the reporter
    [generateDailyReport], together with the part of [src/db.js] they call
    ([getAccounts], [getAccountDecrypted], [updateAccountStatus],
    [getSchedule]) and [sendLog] of [src/bot.js].

    The JavaScript module state (the [isRunning] flag, [db.data]) is threaded
    explicitly through a state-and-exception monad, one call at a time: an
    [await] is a sequence point, and no other handler runs in between.  What
    the code obtains from outside (the wall clock, the decryption routine,
    the session runner [runSession] of [runner.js]) is a variable of the
    section.  Console output is left out.

    The first part takes the process without a log channel, where [sendLog]
    returns before it builds anything, and a runner that throws nothing but
    [Error]s.  The module [Full] drops both restrictions and lets other
    handlers run during a session; the lemmas [executeSession_agrees] and
    [checkAndRun_agrees] say how the two parts fit. *)

From Stdlib Require Import ZArith List String Ascii Bool Lia Arith Permutation DecimalString.
From Stdlib Require DecimalPos DecimalZ.
Import ListNotations.
Local Open Scope string_scope.
Local Open Scope Z_scope.

(** ** Dates

    A JavaScript [Date] is its time value: milliseconds since the epoch, UTC. *)

Definition Date := Z.

Definition msPerDay : Z := 86400000.
Definition msPerHour : Z := 3600000.

(** The calendar date printed by [toISOString().split('T')[0]], that is the
    text [YYYY-MM-DD], kept as its three numbers. *)
Record CalendarDate := mkCalendarDate { year : Z; month : Z; day : Z }.

Definition CalendarDate_eqb (a b : CalendarDate) : bool :=
  (year a =? year b) && (month a =? month b) && (day a =? day b).

(** Proleptic Gregorian date of a day number counted from 1970-01-01. *)
Definition civilFromDays (z : Z) : CalendarDate :=
  let z := z + 719468 in
  let era := z / 146097 in
  let doe := z - era * 146097 in
  let yoe := (doe - doe / 1460 + doe / 36524 - doe / 146096) / 365 in
  let y := yoe + era * 400 in
  let doy := doe - (365 * yoe + yoe / 4 - yoe / 100) in
  let mp := (5 * doy + 2) / 153 in
  let d := doy - (153 * mp + 2) / 5 + 1 in
  let m := if mp <? 10 then mp + 3 else mp - 9 in
  mkCalendarDate (if m <=? 2 then y + 1 else y) m d.

(** [d.toISOString().split('T')[0]]: the calendar date of [d] in UTC. *)
Definition toISODate (d : Date) : CalendarDate := civilFromDays (d / msPerDay).

(** [d.getHours()]: the hour of [d] on the local clock, [tzOffset] being the
    number of milliseconds local time is ahead of UTC. *)
Definition getHours (tzOffset : Z) (d : Date) : Z :=
  ((d + tzOffset) / msPerHour) mod 24.

(** The calendar date of [d] on the local clock.  The program never computes
    it; it is what the specification's words "in local time" denote. *)
Definition localDate (tzOffset : Z) (d : Date) : CalendarDate :=
  civilFromDays ((d + tzOffset) / msPerDay).

(** ** The account store *)

Inductive Status := idle | running | error.

Definition Status_eqb (a b : Status) : bool :=
  match a, b with
  | idle, idle | running, running | error, error => true
  | _, _ => false
  end.

(** An account record of [db.data.accounts].  [lastRun] is [null] or the
    text written by [new Date().toISOString()]; the model keeps the instant
    that text denotes. *)
Record Account := mkAccount {
  id : string;
  name : string;
  encryptedCode : string;
  targetServer : string;
  lastRun : option Date;
  status : Status
}.

(** The object [{...account, code}] built by [getAccountDecrypted]. *)
Record DecryptedAccount := mkDecrypted { account : Account; code : string }.

(** [db.data.settings].  The stored texts are ["HH:00"], as [set_schedule]
    writes them; the scheduler reads back the hour [HH] with
    [parseInt(s.split(':')[0])], and the model keeps that hour. *)
Record Schedule := mkSchedule { scheduleStart : Z; scheduleEnd : Z }.

Definition defaultSchedule : Schedule := mkSchedule 10 20.

(** ** Results *)

(** How an evaluation ends: with a value, or with a thrown [Error] of which
    only [err.message] is kept. *)
Inductive Completion (A : Type) : Type :=
| Normal (a : A)
| Throw (message : string).
Arguments Normal {A} a.
Arguments Throw {A} message.

Module Session.
(** What [runSession] resolves to: [{ success, reason }]. *)
Record result := mk { success : bool; reason : option string }.
End Session.

(** What [executeSession] resolves to: [{ success, message }]. *)
Record Result := mkResult { success : bool; message : option string }.

(** ** The world *)

Inductive Event :=
| DbRead                                   (* await db.read() *)
| DbWrite (snapshot : list Account)        (* await db.write() *)
| SendLog (text : string) (type : string)  (* sendLog(message, type) *)
| RunSession (a : DecryptedAccount).       (* runSession(account) *)

(** The mutable state the three functions share, and a log of what they did,
    most recent event first. *)
Record World := mkWorld {
  accounts : list Account;
  settings : option Schedule;
  isRunning : bool;
  events : list Event;
  clockReads : nat;
  sessions : nat
}.

Definition M (A : Type) : Type := World -> Completion A * World.

Definition ret {A} (a : A) : M A := fun w => (Normal a, w).

Definition bind {A B} (c : M A) (k : A -> M B) : M B :=
  fun w =>
    match c w with
    | (Normal a, w') => k a w'
    | (Throw m, w') => (Throw m, w')
    end.

Definition throw {A} (m : string) : M A := fun w => (Throw m, w).

(** [try { body } catch (err) { handler(err.message) } finally { fin }],
    where [fin] neither returns nor throws. *)
Definition tryCatchFinally {A} (body : M A) (handler : string -> M A)
    (fin : World -> World) : M A :=
  fun w =>
    match body w with
    | (Normal a, w') => (Normal a, fin w')
    | (Throw m, w') => let (r, w'') := handler m w' in (r, fin w'')
    end.

Declare Scope monad_scope.
Delimit Scope monad_scope with monad.
Notation "x <- c ;; k" := (bind c (fun x => k))
  (at level 61, c at next level, right associativity) : monad_scope.
Notation "c ;; k" := (bind c (fun _ => k))
  (at level 61, right associativity) : monad_scope.
Local Open Scope monad_scope.

Definition emit (e : Event) : M unit :=
  fun w => (Normal tt,
            mkWorld (accounts w) (settings w) (isRunning w) (e :: events w)
                    (clockReads w) (sessions w)).

Definition setAccounts (l : list Account) (w : World) : World :=
  mkWorld l (settings w) (isRunning w) (events w) (clockReads w) (sessions w).

Definition setIsRunning (b : bool) (w : World) : World :=
  mkWorld (accounts w) (settings w) b (events w) (clockReads w) (sessions w).

Definition getIsRunning : M bool := fun w => (Normal (isRunning w), w).

(** [sendLog(message, type)] of [bot.js] in a process without a log
    channel: the call is logged and returns.  [Full.sendLog] is the function
    with a channel, where a text that is too long makes it throw. *)
Definition sendLog (text type : string) : M unit := emit (SendLog text type).

(** *** db.js *)

Definition hasId (i : string) (a : Account) : bool := String.eqb (id a) i.
Arguments hasId : simpl never.

(** [getAccounts]. *)
Definition getAccounts : M (list Account) :=
  emit DbRead ;; fun w => (Normal (accounts w), w).

(** [getSchedule]: [db.data.settings || { scheduleStart: '10:00', scheduleEnd: '20:00' }]. *)
Definition getSchedule : M Schedule :=
  emit DbRead ;;
  fun w => (Normal (match settings w with Some s => s | None => defaultSchedule end), w).

(** The assignments [account.status = status; if (lastRun) account.lastRun = lastRun]. *)
Definition assign (st : Status) (lr : option Date) (a : Account) : Account :=
  mkAccount (id a) (name a) (encryptedCode a) (targetServer a)
            (match lr with Some d => Some d | None => lastRun a end) st.

(** The effect on [db.data.accounts] of mutating the record that
    [accounts.find(a => a.id === id)] returns: the first one with that id. *)
Fixpoint assignFirst (i : string) (st : Status) (lr : option Date)
    (l : list Account) : list Account :=
  match l with
  | [] => []
  | a :: l' =>
      if hasId i a then assign st lr a :: l'
      else a :: assignFirst i st lr l'
  end.

(** [updateAccountStatus(id, status, lastRun = null)]. *)
Definition updateAccountStatus (i : string) (st : Status) (lr : option Date) : M unit :=
  emit DbRead ;;
  fun w =>
    match find (hasId i) (accounts w) with
    | Some _ =>
        let l := assignFirst i st lr (accounts w) in
        emit (DbWrite l) (setAccounts l w)
    | None => (Normal tt, w)
    end.

Section Program.

(** Milliseconds by which the local clock is ahead of UTC. *)
Variable tzOffset : Z.
(** The value of the [n]-th [new Date()] the process evaluates. *)
Variable clock : nat -> Date.
(** [decrypt] of [db.js]; CryptoJS throws on bytes that are not UTF-8. *)
Variable decrypt : string -> Completion string.
(** The [n]-th call of [runSession] (runner.js), on the given account. *)
Variable runSession : nat -> DecryptedAccount -> Completion Session.result.

(** [new Date()]. *)
Definition newDate : M Date :=
  fun w => (Normal (clock (clockReads w)),
            mkWorld (accounts w) (settings w) (isRunning w) (events w)
                    (S (clockReads w)) (sessions w)).

(** [await runSession(account)]. *)
Definition callRunSession (a : DecryptedAccount) : M Session.result :=
  emit (RunSession a) ;;
  fun w =>
    (runSession (sessions w) a,
     mkWorld (accounts w) (settings w) (isRunning w) (events w)
             (clockReads w) (S (sessions w))).

(** [getAccountDecrypted(id)]; [None] is [null]. *)
Definition getAccountDecrypted (i : string) : M (option DecryptedAccount) :=
  emit DbRead ;;
  fun w =>
    match find (hasId i) (accounts w) with
    | None => (Normal None, w)
    | Some a =>
        match decrypt (encryptedCode a) with
        | Normal c => (Normal (Some (mkDecrypted a c)), w)
        | Throw m => (Throw m, w)
        end
    end.

(** *** manager.js: the orchestrator *)

(** [err.message] of the [TypeError] that [result.reason.includes(...)]
    raises when [result.reason] is [undefined]. *)
Definition includesOfUndefined : string :=
  "Cannot read properties of undefined (reading 'includes')".

(** [`${result.reason}`]. *)
Definition reasonText (r : option string) : string :=
  match r with Some s => s | None => "undefined" end.

(** [executeSession(accountId)], when what is thrown is an [Error] and
    [sendLog] returns; [Full.executeSession] is the function without these
    restrictions. *)
Definition executeSession (accountId : string) : M Result :=
  locked <- getIsRunning ;;
  if locked then
    ret (mkResult false (Some "Bot is already running a session."))
  else
    (fun w => (Normal tt, setIsRunning true w)) ;;
    tryCatchFinally
      (found <- getAccountDecrypted accountId ;;
       match found with
       | None => ret (mkResult false (Some "Account not found"))
       | Some acct =>
           sendLog ("▶️ Starting session for **" ++ name (account acct) ++ "**...")
                   "start" ;;
           updateAccountStatus (id (account acct)) running None ;;
           result <- callRunSession acct ;;
           if Session.success result then
             sendLog ("✅ Session for **" ++ name (account acct)
                        ++ "** completed successfully!") "success" ;;
             now <- newDate ;;
             updateAccountStatus (id (account acct)) idle (Some now) ;;
             ret (mkResult true None)
           else
             sendLog ("❌ Session for **" ++ name (account acct) ++ "** failed: "
                        ++ reasonText (Session.reason result)) "error" ;;
             updateAccountStatus (id (account acct)) error None ;;
             match Session.reason result with
             | Some r =>
                 if String.eqb r "BUSY" then ret (mkResult false (Some "BUSY"))
                 else
                   (* result.reason.includes('Invalid restore code') only logs *)
                   ret (mkResult false (Some r))
             | None => throw includesOfUndefined
             end
       end)
      (fun m => ret (mkResult false (Some m)))
      (setIsRunning false).

(** *** manager.js: the batch scheduler *)

(** The time window check of [checkAndRun]. *)
Definition isActiveTime (startHour endHour currentHour : Z) : bool :=
  if startHour <? endHour then
    (currentHour >=? startHour) && (currentHour <? endHour)
  else
    (currentHour >=? startHour) || (currentHour <? endHour).

(** The filter of [checkAndRun]: [!a.lastRun], or the date of [a.lastRun]
    is not [today]. *)
Definition isPending (today : CalendarDate) (a : Account) : bool :=
  match lastRun a with
  | None => true
  | Some d => negb (CalendarDate_eqb (toISODate d) today)
  end.

Definition pendingAccounts (today : CalendarDate) (l : list Account) : list Account :=
  filter (isPending today) l.

(** [!result.success && result.message === 'BUSY']. *)
Definition isBusy (r : Result) : bool :=
  negb (success r) &&
  match message r with Some m => String.eqb m "BUSY" | None => false end.

(** The [for (const account of pendingAccounts)] loop.  It yields the
    results of its [executeSession] calls in order; the source drops them
    after the test on each.  The five second pause between two accounts
    only lets the clock advance. *)
Fixpoint runBatch (endHour : Z) (pending : list Account) : M (list Result) :=
  match pending with
  | [] => ret []
  | acct :: rest =>
      now <- newDate ;;
      if getHours tzOffset now >=? endHour then ret []
      else
        result <- executeSession (id acct) ;;
        if isBusy result then ret [result]
        else
          more <- runBatch endHour rest ;;
          ret (result :: more)
  end.

(** [checkAndRun()], yielding the results that its loop saw. *)
Definition checkAndRun : M (list Result) :=
  locked <- getIsRunning ;;
  if locked then ret []
  else
    now <- newDate ;;
    let currentHour := getHours tzOffset now in
    schedule <- getSchedule ;;
    let startHour := scheduleStart schedule in
    let endHour := scheduleEnd schedule in
    if negb (isActiveTime startHour endHour currentHour) then ret []
    else
      accts <- getAccounts ;;
      now' <- newDate ;;
      let today := toISODate now' in
      let pending := pendingAccounts today accts in
      match pending with
      | [] => ret []
      | _ => runBatch endHour pending
      end.

(** The hour a tick compares with the schedule, and the date it takes as
    today. *)
Definition tickHour (w : World) : Z := getHours tzOffset (clock (clockReads w)).
Definition tickToday (w : World) : CalendarDate := toISODate (clock (S (clockReads w))).

(** The world after one more [new Date()]. *)
Definition afterClockRead (w : World) : World :=
  mkWorld (accounts w) (settings w) (isRunning w) (events w)
          (S (clockReads w)) (sessions w).

(** *** manager.js: the reporter *)

(** The three arrays of [generateDailyReport]. *)
Record Report := mkReport {
  successful : list string;
  failed : list string;
  pending : list string
}.

(** [account.lastRun && account.lastRun.startsWith(today)]. *)
Definition ranOn (today : CalendarDate) (a : Account) : bool :=
  match lastRun a with
  | None => false
  | Some d => CalendarDate_eqb (toISODate d) today
  end.

(** One turn of the [for (const account of accounts)] loop. *)
Definition classify (today : CalendarDate) (r : Report) (a : Account) : Report :=
  if ranOn today a && negb (Status_eqb (status a) error) then
    mkReport (successful r ++ [name a]) (failed r) (pending r)
  else if Status_eqb (status a) error then
    mkReport (successful r) (failed r ++ [name a]) (pending r)
  else
    mkReport (successful r) (failed r) (pending r ++ [name a]).

Definition categorize (today : CalendarDate) (l : list Account) : Report :=
  fold_left (classify today) l (mkReport [] [] []).

(** [n.toString()] of a count. *)
Definition natText (n : nat) : string := NilZero.string_of_uint (Nat.to_uint n).

(** [s.padStart(k, '0')]. *)
Definition padStart0 (k : nat) (s : string) : string :=
  String.concat EmptyString (repeat "0" (k - String.length s)) ++ s.

(** The text [YYYY-MM-DD] of a calendar date (years 0 to 9999). *)
Definition dateText (d : CalendarDate) : string :=
  padStart0 4 (natText (Z.to_nat (year d))) ++ "-"
  ++ padStart0 2 (natText (Z.to_nat (month d))) ++ "-"
  ++ padStart0 2 (natText (Z.to_nat (day d))).

Definition newline : string := String (ascii_of_nat 10) EmptyString.

(** [l.join(', ') || 'None']. *)
Definition joinOrNone (l : list string) : string :=
  let s := String.concat ", " l in
  if String.eqb s EmptyString then "None" else s.

(** The text of the daily report. *)
Definition reportMessage (today : CalendarDate) (total : nat) (r : Report) : string :=
  ("**Daily Report (" ++ dateText today ++ ")**" ++ newline ++ newline)
  ++ ("✅ **Completed (" ++ natText (List.length (successful r)) ++ "/"
        ++ natText total ++ ")**: " ++ joinOrNone (successful r) ++ newline)
  ++ (if (0 <? List.length (failed r))%nat
      then "❌ **Failed**: " ++ String.concat ", " (failed r) ++ newline
      else EmptyString)
  ++ (if (0 <? List.length (pending r))%nat
      then "⚠️ **Not Run**: " ++ String.concat ", " (pending r) ++ newline
      else EmptyString).

(** [generateDailyReport()]. *)
Definition generateDailyReport : M unit :=
  accts <- getAccounts ;;
  now <- newDate ;;
  let today := toISODate now in
  let r := categorize today accts in
  sendLog (reportMessage today (List.length accts) r) "info".

End Program.

(** The events up to the call of the runner, most recent first. *)
Definition startEvents (i : string) (acct : DecryptedAccount) (w : World) : list Event :=
  [RunSession acct;
   DbWrite (assignFirst i running None (accounts w));
   DbRead;
   SendLog ("▶️ Starting session for **" ++ name (account acct) ++ "**...")
           "start";
   DbRead].

(** The message of a failure that the runner returns. *)
Definition failureMessage (reason : option string) : string :=
  match reason with
  | Some r => r
  | None => includesOfUndefined
  end.

(** The world in which a tick that finds the lock free starts its batch, or
    stops for want of a pending account: the clock was read twice (the hour,
    then the date) and the store twice (the schedule, then the accounts). *)
Definition atBatchStart (w : World) : World :=
  mkWorld (accounts w) (settings w) (isRunning w) (DbRead :: DbRead :: events w)
          (S (S (clockReads w))) (sessions w).

(** The world in which a tick outside the active hours ends. *)
Definition atWindowCheck (w : World) : World :=
  mkWorld (accounts w) (settings w) (isRunning w) (DbRead :: events w)
          (S (clockReads w)) (sessions w).

(** The schedule that [getSchedule] returns in a world. *)
Definition scheduleOf (w : World) : Schedule :=
  match settings w with Some s => s | None => defaultSchedule end.

(** What an update leaves as it was in every record. *)
Definition sameIdentity (a b : Account) : Prop :=
  id b = id a /\ name b = name a /\ encryptedCode b = encryptedCode a
  /\ targetServer b = targetServer a.

(** Two records that differ at most in their status. *)
Definition sameButStatus (a b : Account) : Prop :=
  id b = id a /\ name b = name a /\ encryptedCode b = encryptedCode a
  /\ targetServer b = targetServer a /\ lastRun b = lastRun a.

(** ** The specification's vocabulary *)

(** The three categories of the daily report, as the specification words
    them. *)
Definition isCompleted (today : CalendarDate) (a : Account) : bool :=
  match lastRun a with
  | Some d => CalendarDate_eqb (toISODate d) today
  | None => false
  end
  && negb (Status_eqb (status a) error).

Definition isFailed (a : Account) : bool := Status_eqb (status a) error.

Definition isNotRun (today : CalendarDate) (a : Account) : bool :=
  negb (isCompleted today a) && negb (isFailed a).

(** The pending test as the specification words it: by calendar date in
    local time. *)
Definition pendingLocal (tzOffset : Z) (now : Date) (a : Account) : bool :=
  match lastRun a with
  | None => true
  | Some d => negb (CalendarDate_eqb (localDate tzOffset d) (localDate tzOffset now))
  end.

(** The number of records of a store with status [running]. *)
Definition runningCount (l : list Account) : nat :=
  List.length (filter (fun a => Status_eqb (status a) running) l).

(** The store snapshots that the writes logged in a world made. *)
Fixpoint snapshots (evs : list Event) : list (list Account) :=
  match evs with
  | [] => []
  | DbWrite l :: evs' => l :: snapshots evs'
  | _ :: evs' => snapshots evs'
  end.

(** The number of calls of the runner logged in a world. *)
Fixpoint runnerCalls (evs : list Event) : nat :=
  match evs with
  | [] => O
  | RunSession _ :: evs' => S (runnerCalls evs')
  | _ :: evs' => runnerCalls evs'
  end.

(** ** Sample data for the scenarios *)

(** The day number of a proleptic Gregorian date, and the instant of a
    wall-clock time in UTC. *)
Definition daysFromCivil (y m d : Z) : Z :=
  let y := if m <=? 2 then y - 1 else y in
  let era := y / 400 in
  let yoe := y - era * 400 in
  let doy := (153 * (if m >? 2 then m - 3 else m + 9) + 2) / 5 + d - 1 in
  let doe := yoe * 365 + yoe / 4 - yoe / 100 + doy in
  era * 146097 + doe - 719468.

Definition instant (y m d hh mm : Z) : Date :=
  daysFromCivil y m d * msPerDay + hh * msPerHour + mm * 60000.

(** India Standard Time: five and a half hours ahead of UTC. *)
Definition IST : Z := 19800000.

Definition newAccount (i n : string) : Account :=
  mkAccount i n ("enc-" ++ n) "E-15" None idle.

Definition alice : Account := newAccount "1" "alice".
Definition bob : Account := newAccount "2" "bob".
Definition carol : Account := newAccount "3" "carol".

(** A process that has just started: the lock free, nothing logged. *)
Definition freshWorld (l : list Account) (s : option Schedule) : World :=
  mkWorld l s false [] 0 0.

Definition plainDecrypt (s : string) : Completion string := Normal s.

Definition succeeds : Completion Session.result := Normal (Session.mk true None).
Definition fails (reason : string) : Completion Session.result :=
  Normal (Session.mk false (Some reason)).

(** A runner that always succeeds. *)
Definition alwaysSucceeds (n : nat) (a : DecryptedAccount) : Completion Session.result :=
  succeeds.

(** A runner whose first call throws and whose later calls succeed. *)
Definition faultThenSuccess (n : nat) (a : DecryptedAccount) : Completion Session.result :=
  match n with
  | O => Throw "Navigation timeout of 30000 ms exceeded"
  | S _ => succeeds
  end.

(** A runner whose first call succeeds and whose later calls report BUSY. *)
Definition successThenBusy (n : nat) (a : DecryptedAccount) : Completion Session.result :=
  match n with
  | O => succeeds
  | S _ => fails "BUSY"
  end.

(** A runner that always fails with the given reason. *)
Definition alwaysFails (reason : string) (n : nat) (a : DecryptedAccount)
    : Completion Session.result :=
  fails reason.

(** * The rest of the store and the command surface *)

(** ** db.js: accounts and schedule *)

(** [n.toString()] of an integer. *)
Definition intText (z : Z) : string := NilZero.string_of_int (Z.to_int z).

Definition hasName (n : string) (a : Account) : bool := String.eqb (name a) n.
Arguments hasName : simpl never.

(** The world after [db.data.accounts] became [l] and [db.write()] ran. *)
Definition written (l : list Account) (w : World) : World :=
  mkWorld l (settings w) (isRunning w) (DbWrite l :: events w)
          (clockReads w) (sessions w).

(** [removeAccount(name)]: every record with that name goes; the result
    tells whether the store got shorter. *)
Definition removeAccount (n : string) : M bool :=
  emit DbRead ;;
  fun w =>
    let initialLength := List.length (accounts w) in
    let l := filter (fun a => negb (hasName n a)) (accounts w) in
    (Normal (List.length l <? initialLength)%nat, written l w).

(** [setSchedule(start, end)].  The command passes the texts
    [hourText start] and [hourText end]; the store of the model keeps the
    hours they denote, and the result is the new setting. *)
Definition setSchedule (startHour endHour : Z) : M Schedule :=
  emit DbRead ;;
  fun w =>
    let s := mkSchedule startHour endHour in
    (Normal s,
     mkWorld (accounts w) (Some s) (isRunning w) (DbWrite (accounts w) :: events w)
             (clockReads w) (sessions w)).

(** ** The schedule texts *)

(** [`${h.toString().padStart(2, '0')}:00`] of the [set_schedule] command. *)
Definition hourText (h : Z) : string :=
  String.concat EmptyString (repeat "0" (2 - String.length (intText h))) ++ intText h
  ++ ":00".

(** [s.split(':')[0]]. *)
Fixpoint beforeColon (s : string) : string :=
  match s with
  | EmptyString => EmptyString
  | String c s' => if Ascii.eqb c ":" then EmptyString else String c (beforeColon s')
  end.

(** The white space that [parseInt] skips, as far as one byte can tell. *)
Definition isWhiteSpace (c : ascii) : bool :=
  let n := nat_of_ascii c in
  ((9 <=? n) && (n <=? 13))%nat || (n =? 32)%nat.

Fixpoint trimStart (s : string) : string :=
  match s with
  | String c s' => if isWhiteSpace c then trimStart s' else s
  | EmptyString => EmptyString
  end.

(** The value of a digit in a radix, if it is one. *)
Definition digitValue (radix : Z) (c : ascii) : option Z :=
  let n := Z.of_nat (nat_of_ascii c) in
  let v := if (48 <=? n) && (n <=? 57) then Some (n - 48)
           else if (97 <=? n) && (n <=? 122) then Some (n - 87)
           else if (65 <=? n) && (n <=? 90) then Some (n - 55)
           else None in
  match v with
  | Some d => if d <? radix then Some d else None
  | None => None
  end.

(** The longest run of digits at the start of [s]; [None] when there is
    none. *)
Fixpoint parseDigits (radix : Z) (s : string) (acc : option Z) : option Z :=
  match s with
  | EmptyString => acc
  | String c s' =>
      match digitValue radix c with
      | Some d =>
          parseDigits radix s'
            (Some (match acc with Some a => a * radix + d | None => d end))
      | None => acc
      end
  end.

(** [parseInt(s)] with no radix given; [None] is [NaN].  Exact for texts
    in ASCII and values that a JavaScript number holds exactly. *)
Definition parseInt (s : string) : option Z :=
  let s := trimStart s in
  let signed :=
    match s with
    | String "-" s' => (-1, s')
    | String "+" s' => (1, s')
    | _ => (1, s)
    end in
  let based :=
    match snd signed with
    | String "0" (String "x" s') => (16, s')
    | String "0" (String "X" s') => (16, s')
    | s' => (10, s')
    end in
  option_map (Z.mul (fst signed)) (parseDigits (fst based) (snd based) None).

(** [parseInt(text.split(':')[0])] of [checkAndRun]. *)
Definition parseHour (text : string) : option Z := parseInt (beforeColon text).

(** ** More sample data *)

(** A cipher that stands for AES in the scenarios: it puts a marker and a
    colon before the text, whatever the salt, and decrypts what has that
    form; other texts decrypt to the empty text. *)
Definition toyEncrypt (salt : nat) (text : string) : string :=
  "U2FsdGVk:" ++ text.

Fixpoint afterColon (s : string) : option string :=
  match s with
  | EmptyString => None
  | String c s' => if Ascii.eqb c ":" then Some s' else afterColon s'
  end.

Definition toyDecrypt (text : string) : Completion string :=
  if String.prefix "U2FsdGVk" text then
    match afterColon text with
    | Some plain => Normal plain
    | None => Throw "Malformed UTF-8 data"
    end
  else Normal EmptyString.

(** Two records that differ at most in their stored code. *)
Definition sameButCode (a b : Account) : Prop :=
  id b = id a /\ name b = name a /\ targetServer b = targetServer a
  /\ lastRun b = lastRun a /\ status b = status a.

Section Commands.

(** The value of the [n]-th [new Date()] or [Date.now()]. *)
Variable clock : nat -> Date.
(** [encrypt n text]: the [n]-th call of [encrypt] that the function being
    run makes; CryptoJS draws a fresh salt at each call. *)
Variable encrypt : nat -> string -> string.
Variable decrypt : string -> Completion string.
Variable runSession : nat -> DecryptedAccount -> Completion Session.result.

(** [addAccount(name, encryptedCode, targetServer)]: the id is the text of
    [Date.now()]. *)
Definition addAccount (n c s : string) : M string :=
  emit DbRead ;;
  now <- newDate clock ;;
  let i := intText now in
  (fun w =>
     (Normal tt, written (accounts w ++ [mkAccount i n c s None idle])%list w)) ;;
  ret i.

(** [isEncrypted(text)]. *)
Definition isEncrypted (text : string) : bool :=
  match decrypt text with
  | Normal decrypted =>
      (0 <? String.length decrypted)%nat && negb (String.eqb text decrypted)
  | Throw _ => false
  end.

(** The loop of [migrateUnencryptedCodes], from a count of [migratedCount]
    on: the records after it, and the count. *)
Fixpoint migrateFrom (migratedCount : nat) (l : list Account) : list Account * nat :=
  match l with
  | [] => ([], migratedCount)
  | a :: l' =>
      if negb (isEncrypted (encryptedCode a)) then
        let a' := mkAccount (id a) (name a) (encrypt migratedCount (encryptedCode a))
                            (targetServer a) (lastRun a) (status a) in
        let (rest, k) := migrateFrom (S migratedCount) l' in
        (a' :: rest, k)
      else
        let (rest, k) := migrateFrom migratedCount l' in
        (a :: rest, k)
  end.

(** [migrateUnencryptedCodes()]. *)
Definition migrateUnencryptedCodes : M nat :=
  emit DbRead ;;
  fun w =>
    let (l, migratedCount) := migrateFrom 0 (accounts w) in
    if (0 <? migratedCount)%nat then (Normal migratedCount, written l w)
    else (Normal migratedCount, w).

(** *** bot.js: the commands *)

(** What a command answers: [interaction.reply] or [interaction.followUp]. *)
Inductive Answer :=
| Reply (content : string) (ephemeral : bool)
| FollowUp (content : string).

(** The [add_account] command. *)
Definition addAccountCommand (code server n : string) : M (list Answer) :=
  let encryptedCode := encrypt 0 code in
  addAccount n encryptedCode server ;;
  ret [Reply ("Account **" ++ n ++ "** added successfully!") true].

(** [`${result.message}`]. *)
Definition messageText (m : option string) : string :=
  match m with Some s => s | None => "undefined" end.

(** The [force_run] command; the session it starts is run to its end. *)
Definition forceRunCommand (n : string) : M (list Answer) :=
  accts <- getAccounts ;;
  match find (hasName n) accts with
  | None => ret [Reply ("Account **" ++ n ++ "** not found.") true]
  | Some a =>
      result <- executeSession clock decrypt runSession (id a) ;;
      ret [Reply ("Starting session for **" ++ n
                    ++ "**... Check console/logs for progress.") false;
           if success result then
             FollowUp ("Session for **" ++ n ++ "** finished successfully.")
           else
             FollowUp ("Session for **" ++ n ++ "** failed: "
                         ++ messageText (message result))]
  end.

(** The [remove_account] command. *)
Definition removeAccountCommand (n : string) : M (list Answer) :=
  removed <- removeAccount n ;;
  if removed then ret [Reply ("Account **" ++ n ++ "** removed successfully.") true]
  else ret [Reply ("Account **" ++ n ++ "** not found.") true].

(** The [set_schedule] command. *)
Definition setScheduleCommand (startHour endHour : Z) : M (list Answer) :=
  if (startHour <? 0) || (startHour >? 23) || (endHour <? 0) || (endHour >? 23) then
    ret [Reply "Hours must be between 0 and 23." true]
  else
    let startStr := hourText startHour in
    let endStr := hourText endHour in
    setSchedule startHour endHour ;;
    ret [Reply ("âœ… Schedule updated! Active hours: **" ++ startStr ++ "** to **"
                  ++ endStr ++ "**") false].

End Commands.

(** * The orchestrator in full

    The definitions so far describe the process when no log channel is
    found, so that [sendLog] returns before it builds its embed, and when
    whatever is thrown is an [Error], of which the handler reads the
    message.  This part lifts both restrictions, and lets calls of
    [executeSession] overlap:
    - [sendLog] builds its embed outside its two [catch]es, and
      [setDescription] throws on a text over 4096 UTF-16 code units;
    - a [throw] can carry any value: [err.message] is [undefined] on a
      value that has none, and reading it throws on [null] and [undefined];
    - while [await runSession(account)] is pending, other handlers run. *)

Module Full.

(** What a [throw] carries, as far as [err.message] can tell. *)
Inductive Fault :=
| ErrorWith (message : string)  (* an [Error] *)
| NotAnError                    (* a value without a [message]: a string, a number *)
| ThrownNull                    (* [null] *)
| ThrownUndefined.              (* [undefined] *)

(** How an evaluation ends. *)
Inductive Outcome (A : Type) : Type :=
| Returned (a : A)
| Thrown (f : Fault).
Arguments Returned {A} a.
Arguments Thrown {A} f.

Definition F (A : Type) : Type := World -> Outcome A * World.

Definition ret {A} (a : A) : F A := fun w => (Returned a, w).

Definition bind {A B} (c : F A) (k : A -> F B) : F B :=
  fun w =>
    match c w with
    | (Returned a, w') => k a w'
    | (Thrown f, w') => (Thrown f, w')
    end.

Definition throw {A} (f : Fault) : F A := fun w => (Thrown f, w).

(** The functions of [db.js] and [new Date()] throw nothing but [Error]s. *)
Definition ofCompletion {A} (c : Completion A) : Outcome A :=
  match c with
  | Normal a => Returned a
  | Throw m => Thrown (ErrorWith m)
  end.

Definition lift {A} (c : M A) : F A :=
  fun w => (ofCompletion (fst (c w)), snd (c w)).

(** [try { body } catch (err) { handler(err) } finally { fin }], where
    [fin] neither returns nor throws: what the handler returns or throws is
    how the statement ends. *)
Definition tryCatchFinally {A} (body : F A) (handler : Fault -> F A)
    (fin : World -> World) : F A :=
  fun w =>
    match body w with
    | (Returned a, w') => (Returned a, fin w')
    | (Thrown f, w') => (fst (handler f w'), fin (snd (handler f w')))
    end.

Declare Scope fault_scope.
Delimit Scope fault_scope with fault.
Notation "x <- c ;; k" := (bind c (fun x => k))
  (at level 61, c at next level, right associativity) : fault_scope.
Notation "c ;; k" := (bind c (fun _ => k))
  (at level 61, right associativity) : fault_scope.
Local Open Scope fault_scope.

(** [s.length]: the UTF-16 code units of a text held as UTF-8 bytes.  A
    byte that starts a sequence of four stands for two units, another
    leading byte for one, a continuation byte for none. *)
Definition utf16Units (c : ascii) : Z :=
  let n := Z.of_nat (nat_of_ascii c) in
  if n <? 128 then 1 else if n <? 192 then 0 else if n <? 240 then 1 else 2.

Fixpoint jsLength (s : string) : Z :=
  match s with
  | EmptyString => 0
  | String c s' => utf16Units c + jsLength s'
  end.

(** The longest description that [setDescription] accepts; it accepts no
    empty one either. *)
Definition descriptionLimit : Z := 4096.

(** The three notifications of [executeSession]. *)
Definition startText (n : string) : string :=
  "▶️ Starting session for **" ++ n ++ "**...".

Definition successText (n : string) : string :=
  "✅ Session for **" ++ n ++ "** completed successfully!".

Definition failureText (n : string) (reason : option string) : string :=
  "❌ Session for **" ++ n ++ "** failed: " ++ reasonText reason.

(** The number of calls of [sendLog] logged in a world. *)
Fixpoint sendLogCalls (evs : list Event) : nat :=
  match evs with
  | [] => O
  | SendLog _ _ :: evs' => S (sendLogCalls evs')
  | _ :: evs' => sendLogCalls evs'
  end.

(** The accounts handed to the runner as logged in a world, the last one
    first. *)
Fixpoint handedOver (evs : list Event) : list DecryptedAccount :=
  match evs with
  | [] => []
  | RunSession a :: evs' => a :: handedOver evs'
  | _ :: evs' => handedOver evs'
  end.

Section Program.

Variable tzOffset : Z.
(** Whether the [k]-th call of [sendLog] gets the log channel:
    [LOG_CHANNEL_ID] is set and [client.channels.fetch] resolves to it. *)
Variable channel : nat -> bool.
(** [err.message] of what [setDescription] throws on a text that is too
    long. *)
Variable embedError : string.
Variable clock : nat -> Date.
Variable decrypt : string -> Completion string.
(** The [n]-th call of [runSession] (runner.js): what it resolves to, or the
    value it rejects with.  A call that resolves to [null] or [undefined]
    counts as one that rejects with the [TypeError] that reading
    [result.success] raises. *)
Variable runSession : nat -> DecryptedAccount -> Outcome Session.result.
(** What the other handlers of the process do to the world while the [n]-th
    call of [runSession] is awaited. *)
Variable during : nat -> World -> World.

(** Whether the [k]-th call of [sendLog] throws on a text: the channel is
    there and [setDescription] does not take the text. *)
Definition refused (k : nat) (text : string) : bool :=
  channel k && ((jsLength text <? 1) || (descriptionLimit <? jsLength text)).

(** [sendLog(message, type)] of [bot.js]. *)
Definition sendLog (text type : string) : F unit :=
  fun w =>
    let w' := mkWorld (accounts w) (settings w) (isRunning w)
                      (SendLog text type :: events w) (clockReads w) (sessions w) in
    if refused (sendLogCalls (events w)) text
    then (Thrown (ErrorWith embedError), w')
    else (Returned tt, w').

(** [await runSession(account)]. *)
Definition callRunSession (a : DecryptedAccount) : F Session.result :=
  fun w =>
    (runSession (sessions w) a,
     during (sessions w)
            (mkWorld (accounts w) (settings w) (isRunning w)
                     (RunSession a :: events w) (clockReads w) (S (sessions w)))).

(** [catch (err) { ...; return { success: false, message: err.message } }]. *)
Definition caught (err : Fault) : F Result :=
  match err with
  | ErrorWith m => ret (mkResult false (Some m))
  | NotAnError => ret (mkResult false None)
  | ThrownNull =>
      throw (ErrorWith "Cannot read properties of null (reading 'message')")
  | ThrownUndefined =>
      throw (ErrorWith "Cannot read properties of undefined (reading 'message')")
  end.

(** [executeSession(accountId)]. *)
Definition executeSession (accountId : string) : F Result :=
  locked <- lift getIsRunning ;;
  if locked then
    ret (mkResult false (Some "Bot is already running a session."))
  else
    lift (fun w => (Normal tt, setIsRunning true w)) ;;
    tryCatchFinally
      (found <- lift (getAccountDecrypted decrypt accountId) ;;
       match found with
       | None => ret (mkResult false (Some "Account not found"))
       | Some acct =>
           sendLog (startText (name (account acct))) "start" ;;
           lift (updateAccountStatus (id (account acct)) running None) ;;
           result <- callRunSession acct ;;
           if Session.success result then
             sendLog (successText (name (account acct))) "success" ;;
             now <- lift (newDate clock) ;;
             lift (updateAccountStatus (id (account acct)) idle (Some now)) ;;
             ret (mkResult true None)
           else
             sendLog (failureText (name (account acct)) (Session.reason result))
                     "error" ;;
             lift (updateAccountStatus (id (account acct)) error None) ;;
             match Session.reason result with
             | Some r =>
                 if String.eqb r "BUSY" then ret (mkResult false (Some "BUSY"))
                 else ret (mkResult false (Some r))
             | None => throw (ErrorWith includesOfUndefined)
             end
       end)
      caught
      (setIsRunning false).

(** The loop of [checkAndRun]; a call of [executeSession] that throws ends
    it, and the tick with it. *)
Fixpoint runBatch (endHour : Z) (pending : list Account) : F (list Result) :=
  match pending with
  | [] => ret []
  | acct :: rest =>
      now <- lift (newDate clock) ;;
      if getHours tzOffset now >=? endHour then ret []
      else
        result <- executeSession (id acct) ;;
        if isBusy result then ret [result]
        else
          more <- runBatch endHour rest ;;
          ret (result :: more)
  end.

(** [checkAndRun()], yielding the results that its loop saw. *)
Definition checkAndRun : F (list Result) :=
  locked <- lift getIsRunning ;;
  if locked then ret []
  else
    now <- lift (newDate clock) ;;
    let currentHour := getHours tzOffset now in
    schedule <- lift getSchedule ;;
    let startHour := scheduleStart schedule in
    let endHour := scheduleEnd schedule in
    if negb (isActiveTime startHour endHour currentHour) then ret []
    else
      accts <- lift getAccounts ;;
      now' <- lift (newDate clock) ;;
      let today := toISODate now' in
      let pending := pendingAccounts today accts in
      match pending with
      | [] => ret []
      | _ => runBatch endHour pending
      end.

(** The [force_run] command; the session it starts is run to its end, and
    when that session throws nothing follows the first answer. *)
Definition forceRunCommand (n : string) : F (list Answer) :=
  accts <- lift getAccounts ;;
  match find (hasName n) accts with
  | None => ret [Reply ("Account **" ++ n ++ "** not found.") true]
  | Some a =>
      let starting :=
        Reply ("Starting session for **" ++ n
                 ++ "**... Check console/logs for progress.") false in
      fun w =>
        match executeSession (id a) w with
        | (Returned result, w') =>
            (Returned
               [starting;
                if success result then
                  FollowUp ("Session for **" ++ n ++ "** finished successfully.")
                else
                  FollowUp ("Session for **" ++ n ++ "** failed: "
                              ++ messageText (message result))],
             w')
        | (Thrown _, w') => (Returned [starting], w')
        end
  end.

End Program.

(** No other handler runs during a session. *)
Definition alone (n : nat) (w : World) : World := w.

(** During the [n]-th session other triggers call [executeSession] for the
    ids [calls n], one after the other, and nothing else runs. *)
Definition overlapping (channel : nat -> bool) (embedError : string)
    (clock : nat -> Date) (decrypt : string -> Completion string)
    (runSession : nat -> DecryptedAccount -> Outcome Session.result)
    (calls : nat -> list string) (n : nat) (w : World) : World :=
  fold_left
    (fun w' i => snd (executeSession channel embedError clock decrypt runSession alone i w'))
    (calls n) w.

(** The results of those calls. *)
Fixpoint overlappingResults (channel : nat -> bool) (embedError : string)
    (clock : nat -> Date) (decrypt : string -> Completion string)
    (runSession : nat -> DecryptedAccount -> Outcome Session.result)
    (ids : list string) (w : World) : list (Outcome Result) :=
  match ids with
  | [] => []
  | i :: ids' =>
      let out := executeSession channel embedError clock decrypt runSession alone i w in
      fst out :: overlappingResults channel embedError clock decrypt runSession ids' (snd out)
  end.

(** A runner of the first model as one of this: what it throws is an
    [Error]. *)
Definition ofRunner (runSession : nat -> DecryptedAccount -> Completion Session.result)
    (n : nat) (a : DecryptedAccount) : Outcome Session.result :=
  ofCompletion (runSession n a).

(** A process without a log channel. *)
Definition noChannel (k : nat) : bool := false.

(** A process whose log channel is always found. *)
Definition withChannel (k : nat) : bool := true.

End Full.

(** * Properties *)

Local Open Scope list_scope.

(** ** The store *)

Lemma hasId_eq (i : string) (a : Account) : hasId i a = true <-> id a = i.
Proof. unfold hasId. apply String.eqb_eq. Qed.

Lemma find_hasId_id (i : string) (l : list Account) (a : Account) :
  find (hasId i) l = Some a -> id a = i.
Proof. intros H. apply find_some in H. now apply hasId_eq. Qed.

Lemma assign_id st lr a : id (assign st lr a) = id a.
Proof. reflexivity. Qed.

Lemma hasId_assign i st lr a : hasId i (assign st lr a) = hasId i a.
Proof. reflexivity. Qed.

Lemma find_assignFirst i st lr l a :
  find (hasId i) l = Some a ->
  find (hasId i) (assignFirst i st lr l) = Some (assign st lr a).
Proof.
  induction l as [|b l IH]; simpl; [discriminate|].
  destruct (hasId i b) eqn:E; simpl.
  - intros [= ->]. now rewrite hasId_assign, E.
  - now rewrite E.
Qed.

Lemma assignFirst_absent i st lr l :
  find (hasId i) l = None -> assignFirst i st lr l = l.
Proof.
  induction l as [|b l IH]; simpl; [reflexivity|].
  destruct (hasId i b); [discriminate|].
  intros H. now rewrite IH.
Qed.

(** Two updates of the same id amount to one. *)
Lemma assignFirst_twice i st1 lr1 st2 lr2 l :
  assignFirst i st2 lr2 (assignFirst i st1 lr1 l)
  = assignFirst i st2 (match lr2 with Some d => Some d | None => lr1 end) l.
Proof.
  induction l as [|b l IH]; simpl; [reflexivity|].
  destruct (hasId i b) eqn:E; simpl.
  - rewrite hasId_assign, E. unfold assign; simpl.
    destruct lr2, lr1; reflexivity.
  - now rewrite E, IH.
Qed.

Lemma assignFirst_length i st lr l :
  List.length (assignFirst i st lr l) = List.length l.
Proof.
  induction l as [|b l IH]; simpl; [reflexivity|].
  destruct (hasId i b); simpl; congruence.
Qed.

(** An update whose id occurs in the front part of the store leaves the rest
    of the store alone. *)
Lemma assignFirst_app_front i st lr l1 l2 :
  existsb (hasId i) l1 = true ->
  assignFirst i st lr (l1 ++ l2) = assignFirst i st lr l1 ++ l2.
Proof.
  induction l1 as [|b l1 IH]; simpl; [discriminate|].
  destruct (hasId i b); simpl; [reflexivity|].
  intros H. now rewrite IH.
Qed.

(** An update that does not set [lastRun] keeps every [lastRun]. *)
Lemma assignFirst_lastRun i st l :
  map lastRun (assignFirst i st None l) = map lastRun l.
Proof.
  induction l as [|b l IH]; simpl; [reflexivity|].
  destruct (hasId i b); simpl; congruence.
Qed.

Lemma sameIdentity_refl a : sameIdentity a a.
Proof. repeat split. Qed.

Lemma assignFirst_sameIdentity i st lr l :
  Forall2 sameIdentity l (assignFirst i st lr l).
Proof.
  induction l as [|b l IH]; simpl; [constructor|].
  destruct (hasId i b).
  - constructor; [repeat split|]. clear. induction l; constructor; auto using sameIdentity_refl.
  - constructor; auto using sameIdentity_refl.
Qed.

Lemma updateAccountStatus_found i st lr w a :
  find (hasId i) (accounts w) = Some a ->
  updateAccountStatus i st lr w
  = (Normal tt,
     mkWorld (assignFirst i st lr (accounts w)) (settings w) (isRunning w)
             (DbWrite (assignFirst i st lr (accounts w)) :: DbRead :: events w)
             (clockReads w) (sessions w)).
Proof.
  intros H. unfold updateAccountStatus, bind, emit, setAccounts. simpl.
  now rewrite H.
Qed.

Lemma updateAccountStatus_absent i st lr w :
  find (hasId i) (accounts w) = None ->
  updateAccountStatus i st lr w
  = (Normal tt,
     mkWorld (accounts w) (settings w) (isRunning w) (DbRead :: events w)
             (clockReads w) (sessions w)).
Proof.
  intros H. unfold updateAccountStatus, bind, emit. simpl. now rewrite H.
Qed.

(** ** The orchestrator *)

(** Opens [executeSession] down to the store updates, which stay folded. *)
Ltac unfold_session :=
  unfold executeSession, getIsRunning, ret, tryCatchFinally,
    getAccountDecrypted, sendLog, callRunSession, newDate, emit, setIsRunning, bind.

Section Orchestrator.

Variable clock : nat -> Date.
Variable decrypt : string -> Completion string.
Variable runSession : nat -> DecryptedAccount -> Completion Session.result.

Local Abbreviation exec := (executeSession clock decrypt runSession).

(** Local contention: the call returns at once and touches nothing. *)
Lemma executeSession_locked i w :
  isRunning w = true ->
  exec i w
  = (Normal (mkResult false (Some "Bot is already running a session."%string)), w).
Proof.
  intros H. unfold_session. now rewrite H.
Qed.

Lemma executeSession_not_found i w :
  isRunning w = false ->
  find (hasId i) (accounts w) = None ->
  exec i w
  = (Normal (mkResult false (Some "Account not found"%string)),
     mkWorld (accounts w) (settings w) false (DbRead :: events w)
             (clockReads w) (sessions w)).
Proof.
  intros H F.
  unfold_session.
  rewrite H. simpl. now rewrite F.
Qed.

Lemma executeSession_decrypt_throws i w a m :
  isRunning w = false ->
  find (hasId i) (accounts w) = Some a ->
  decrypt (encryptedCode a) = Throw m ->
  exec i w
  = (Normal (mkResult false (Some m)),
     mkWorld (accounts w) (settings w) false (DbRead :: events w)
             (clockReads w) (sessions w)).
Proof.
  intros H F D.
  unfold_session.
  rewrite H. simpl. now rewrite F, D.
Qed.

Section Resolved.

Variables (i : string) (w : World) (a : Account) (c : string).
Hypothesis Hfree : isRunning w = false.
Hypothesis Hfind : find (hasId i) (accounts w) = Some a.
Hypothesis Hcode : decrypt (encryptedCode a) = Normal c.

Local Abbreviation acct := (mkDecrypted a c).

(** An unexpected fault of the runner: the record stays [running]. *)
Lemma executeSession_runner_throws m :
  runSession (sessions w) acct = Throw m ->
  exec i w
  = (Normal (mkResult false (Some m)),
     mkWorld (assignFirst i running None (accounts w)) (settings w) false
             (startEvents i acct w ++ events w)
             (clockReads w) (S (sessions w))).
Proof.
  intros R. pose proof (find_hasId_id _ _ _ Hfind) as Hid.
  unfold_session.
  rewrite Hfree. simpl. rewrite Hfind, Hcode. simpl. rewrite Hid.
  erewrite updateAccountStatus_found by (simpl; exact Hfind).
  simpl. now rewrite R.
Qed.

Lemma executeSession_success r :
  runSession (sessions w) acct = Normal r ->
  Session.success r = true ->
  exec i w
  = (Normal (mkResult true None),
     let l := assignFirst i idle (Some (clock (clockReads w))) (accounts w) in
     mkWorld l (settings w) false
             (DbWrite l :: DbRead
              :: SendLog ("✅ Session for **" ++ name a
                            ++ "** completed successfully!")%string "success"%string
              :: startEvents i acct w ++ events w)
             (S (clockReads w)) (S (sessions w))).
Proof.
  intros R S. pose proof (find_hasId_id _ _ _ Hfind) as Hid.
  unfold_session.
  rewrite Hfree. simpl. rewrite Hfind, Hcode. simpl. rewrite Hid.
  erewrite updateAccountStatus_found by (simpl; exact Hfind).
  simpl. rewrite R, S. simpl.
  erewrite updateAccountStatus_found
    by (simpl; apply find_assignFirst; exact Hfind).
  simpl. now rewrite assignFirst_twice.
Qed.

Lemma executeSession_failure r :
  runSession (sessions w) acct = Normal r ->
  Session.success r = false ->
  exec i w
  = (Normal (mkResult false (Some (failureMessage (Session.reason r)))),
     let l := assignFirst i error None (accounts w) in
     mkWorld l (settings w) false
             (DbWrite l :: DbRead
              :: SendLog ("❌ Session for **" ++ name a ++ "** failed: "
                            ++ reasonText (Session.reason r))%string "error"%string
              :: startEvents i acct w ++ events w)
             (clockReads w) (S (sessions w))).
Proof.
  intros R S. pose proof (find_hasId_id _ _ _ Hfind) as Hid.
  unfold_session.
  rewrite Hfree. simpl. rewrite Hfind, Hcode. simpl. rewrite Hid.
  erewrite updateAccountStatus_found by (simpl; exact Hfind).
  simpl. rewrite R, S. simpl.
  erewrite updateAccountStatus_found
    by (simpl; apply find_assignFirst; exact Hfind).
  simpl. rewrite assignFirst_twice.
  destruct (Session.reason r) as [s|]; simpl; [|reflexivity].
  destruct (String.eqb_spec s "BUSY"); [subst s|]; reflexivity.
Qed.

End Resolved.

End Orchestrator.

Section OrchestratorLaws.

Variable clock : nat -> Date.
Variable decrypt : string -> Completion string.
Variable runSession : nat -> DecryptedAccount -> Completion Session.result.

Local Abbreviation exec := (executeSession clock decrypt runSession).

(** Every call that finds the lock free returns a result, leaves the lock
    free, and changes the store by at most one update of the first record
    with the given id; a call that does not succeed sets no [lastRun]. *)
Lemma executeSession_effect i w :
  isRunning w = false ->
  exists r l evs c s,
    exec i w
    = (Normal r,
       mkWorld l (settings w) false (evs ++ events w)
               (c + clockReads w) (s + sessions w))
    /\ (s <= 1)%nat
    /\ (l = accounts w
        \/ exists st lr, l = assignFirst i st lr (accounts w)
                         /\ (success r = false -> lr = None)).
Proof.
  intros Hfree.
  destruct (find (hasId i) (accounts w)) as [a|] eqn:Hfind.
  2:{ rewrite executeSession_not_found by assumption.
      exists (mkResult false (Some "Account not found"%string)),
        (accounts w), [DbRead], 0%nat, 0%nat.
      split; [reflexivity | split; [lia | now left]]. }
  destruct (decrypt (encryptedCode a)) as [c|m] eqn:Hcode.
  2:{ erewrite executeSession_decrypt_throws by eassumption.
      exists (mkResult false (Some m)), (accounts w), [DbRead], 0%nat, 0%nat.
      split; [reflexivity | split; [lia | now left]]. }
  destruct (runSession (sessions w) (mkDecrypted a c)) as [r|m] eqn:Hrun.
  2:{ erewrite executeSession_runner_throws by eassumption.
      exists (mkResult false (Some m)), (assignFirst i running None (accounts w)),
        (startEvents i (mkDecrypted a c) w), 0%nat, 1%nat.
      split; [reflexivity | split; [lia | right; eauto]]. }
  destruct (Session.success r) eqn:Hs.
  - erewrite executeSession_success by eassumption.
    eexists (mkResult true None), _, (_ :: _ :: _ :: startEvents i _ w), 1%nat, 1%nat.
    split; [reflexivity | split; [lia | right]].
    do 2 eexists; split; [reflexivity | discriminate].
  - erewrite executeSession_failure by eassumption.
    eexists (mkResult false _), _, (_ :: _ :: _ :: startEvents i _ w), 0%nat, 1%nat.
    split; [reflexivity | split; [lia | right]]. eauto.
Qed.

(** C9.  When the lock is held, [executeSession] returns a failure whose
    message is not ["BUSY"] and leaves the whole world as it found it: the
    lock is still held, the store is neither read nor written, and nothing
    is sent to the notifier. *)
Theorem executeSession_contention i w :
  isRunning w = true ->
  exists r,
    executeSession clock decrypt runSession i w = (Normal r, w)
    /\ success r = false
    /\ message r <> Some "BUSY"%string.
Proof.
  intros H. rewrite executeSession_locked by exact H.
  eexists; split; [reflexivity|]. split; [reflexivity|]. discriminate.
Qed.


End OrchestratorLaws.

(** ** The batch scheduler *)

Lemma CalendarDate_eqb_eq (a b : CalendarDate) :
  CalendarDate_eqb a b = true <-> a = b.
Proof.
  destruct a as [y m d], b as [y' m' d']; unfold CalendarDate_eqb; simpl.
  rewrite !andb_true_iff, !Z.eqb_eq. split.
  - intros [[-> ->] ->]. reflexivity.
  - intros [= -> -> ->]. auto.
Qed.

Lemma isPending_iff today a :
  isPending today a = true
  <-> lastRun a = None \/ exists d, lastRun a = Some d /\ toISODate d <> today.
Proof.
  unfold isPending. destruct (lastRun a) as [d|].
  - rewrite negb_true_iff. split.
    + intros H. right. exists d. split; [reflexivity|].
      intros E. apply CalendarDate_eqb_eq in E. congruence.
    + intros [H|(d' & [= <-] & N)]; [discriminate|].
      destruct (CalendarDate_eqb (toISODate d) today) eqn:E; [|reflexivity].
      apply CalendarDate_eqb_eq in E. contradiction.
  - split; auto.
Qed.

Lemma isActiveTime_cases (startHour endHour currentHour : Z) :
  (startHour < endHour ->
     (isActiveTime startHour endHour currentHour = true
      <-> startHour <= currentHour < endHour)
     /\ isActiveTime startHour endHour endHour = false)
  /\ (startHour >= endHour ->
      (isActiveTime startHour endHour currentHour = true
       <-> currentHour >= startHour \/ currentHour < endHour)).
Proof.
  unfold isActiveTime. split; intros H.
  - destruct (Z.ltb_spec startHour endHour); [|lia].
    rewrite !andb_true_iff, andb_false_iff, Z.geb_le, !Z.ltb_lt, Z.ltb_ge. lia.
  - destruct (Z.ltb_spec startHour endHour); [lia|].
    rewrite orb_true_iff, Z.geb_le, Z.ltb_lt. lia.
Qed.

Section Scheduler.

Variable tzOffset : Z.
Variable clock : nat -> Date.
Variable decrypt : string -> Completion string.
Variable runSession : nat -> DecryptedAccount -> Completion Session.result.

Local Abbreviation exec := (executeSession clock decrypt runSession).
Local Abbreviation batch := (runBatch tzOffset clock decrypt runSession).
Local Abbreviation tick := (checkAndRun tzOffset clock decrypt runSession).

(** A tick that finds the lock held does nothing. *)
Lemma checkAndRun_locked w :
  isRunning w = true -> tick w = (Normal [], w).
Proof.
  intros H. unfold checkAndRun, getIsRunning, ret, bind. now rewrite H.
Qed.

(** A tick that finds the lock free: outside the window it stops after
    reading the schedule; inside, it runs the batch over the pending
    accounts of the store. *)
Lemma checkAndRun_free w :
  isRunning w = false ->
  tick w
  = if isActiveTime (scheduleStart (scheduleOf w)) (scheduleEnd (scheduleOf w))
                    (tickHour tzOffset clock w)
    then match pendingAccounts (tickToday clock w) (accounts w) with
         | [] => (Normal [], atBatchStart w)
         | p => batch (scheduleEnd (scheduleOf w)) p (atBatchStart w)
         end
    else (Normal [], atWindowCheck w).
Proof.
  intros H.
  unfold checkAndRun, getIsRunning, getSchedule, getAccounts, newDate, emit, ret, bind.
  rewrite H. simpl. fold (scheduleOf w). fold (tickHour tzOffset clock w).
  destruct (isActiveTime _ _ _); simpl; [|reflexivity].
  fold (tickToday clock w).
  destruct (pendingAccounts (tickToday clock w) (accounts w)); reflexivity.
Qed.

(** One turn of the loop. *)
Lemma runBatch_cons e c rest w :
  batch e (c :: rest) w
  = if getHours tzOffset (clock (clockReads w)) >=? e
    then (Normal [], afterClockRead w)
    else match exec (id c) (afterClockRead w) with
         | (Normal r, w1) =>
             if isBusy r then (Normal [r], w1)
             else match batch e rest w1 with
                  | (Normal more, w2) => (Normal (r :: more), w2)
                  | (Throw m, w2) => (Throw m, w2)
                  end
         | (Throw m, w1) => (Throw m, w1)
         end.
Proof.
  simpl. unfold bind at 1. unfold newDate, afterClockRead.
  destruct (getHours tzOffset (clock (clockReads w)) >=? e); [reflexivity|].
  unfold bind at 1.
  destruct (executeSession _ _ _ _ _) as [[r|m] w1]; [|reflexivity].
  destruct (isBusy r); [reflexivity|].
  unfold bind, ret. reflexivity.
Qed.

(** The loop never throws and hands the lock back free. *)
Lemma runBatch_total e cands :
  forall w, isRunning w = false ->
  exists rs w', batch e cands w = (Normal rs, w') /\ isRunning w' = false.
Proof.
  induction cands as [|c cands IH]; intros w Hfree.
  - exists [], w. split; [reflexivity | assumption].
  - rewrite runBatch_cons.
    destruct (_ >=? e); [eexists _, _; split; [reflexivity | exact Hfree]|].
    destruct (executeSession_effect clock decrypt runSession (id c)
                (afterClockRead w) Hfree)
      as (r & l & evs & n & s & E & _).
    rewrite E. destruct (isBusy r); [eexists _, _; split; reflexivity|].
    destruct (IH (mkWorld l (settings (afterClockRead w)) false
                    (evs ++ events (afterClockRead w))
                    (n + clockReads (afterClockRead w))
                    (s + sessions (afterClockRead w)))) as (rs & w' & E' & F');
      [reflexivity|].
    rewrite E'. eexists _, _; split; [reflexivity | exact F'].
Qed.

(** A tick never throws. *)
Lemma checkAndRun_total w : exists rs w', tick w = (Normal rs, w').
Proof.
  destruct (isRunning w) eqn:L.
  - rewrite checkAndRun_locked by assumption. now eexists _, _.
  - rewrite checkAndRun_free by assumption.
    destruct (isActiveTime _ _ _); [|now eexists _, _].
    destruct (pendingAccounts _ _) eqn:P; [now eexists _, _|].
    destruct (runBatch_total (scheduleEnd (scheduleOf w)) (a :: l) (atBatchStart w) L)
      as (rs & w' & E & _).
    rewrite E. now eexists _, _.
Qed.

(** In the evening part of a window that crosses midnight, that is with
    [start >= end] and the hour at or after [start], the tick passes the
    window test, and its loop stops at the test against [end] before the
    first candidate: the runner is not called and the store is not written. *)
Lemma checkAndRun_evening_stops w :
  isRunning w = false ->
  scheduleStart (scheduleOf w) >= scheduleEnd (scheduleOf w) ->
  tickHour tzOffset clock w >= scheduleStart (scheduleOf w) ->
  getHours tzOffset (clock (S (S (clockReads w)))) >= scheduleStart (scheduleOf w) ->
  isActiveTime (scheduleStart (scheduleOf w)) (scheduleEnd (scheduleOf w))
               (tickHour tzOffset clock w) = true
  /\ tick w
     = (Normal [],
        match pendingAccounts (tickToday clock w) (accounts w) with
        | [] => atBatchStart w
        | _ => afterClockRead (atBatchStart w)
        end).
Proof.
  intros Hfree Hse Hh Hh'.
  assert (A : isActiveTime (scheduleStart (scheduleOf w)) (scheduleEnd (scheduleOf w))
                (tickHour tzOffset clock w) = true).
  { apply (proj2 (isActiveTime_cases _ _ _) Hse). now left. }
  split; [exact A|].
  rewrite checkAndRun_free by assumption. rewrite A.
  destruct (pendingAccounts _ _) as [|c rest]; [reflexivity|].
  rewrite runBatch_cons. simpl clockReads.
  destruct (Z.geb_spec (getHours tzOffset (clock (S (S (clockReads w)))))
              (scheduleEnd (scheduleOf w))); [reflexivity | lia].
Qed.

End Scheduler.

(** ** The BUSY law *)

Lemma sameButStatus_refl a : sameButStatus a a.
Proof. repeat split. Qed.

Lemma Forall2_sameButStatus_refl l : Forall2 sameButStatus l l.
Proof. induction l; constructor; auto using sameButStatus_refl. Qed.

Lemma assignFirst_sameButStatus i st l :
  Forall2 sameButStatus l (assignFirst i st None l).
Proof.
  induction l as [|b l IH]; simpl; [constructor|].
  destruct (hasId i b); constructor;
    auto using sameButStatus_refl, Forall2_sameButStatus_refl.
  repeat split.
Qed.

Lemma existsb_hasId_assignFirst i j st lr l :
  existsb (hasId i) (assignFirst j st lr l) = existsb (hasId i) l.
Proof.
  induction l as [|b l IH]; simpl; [reflexivity|].
  destruct (hasId j b); simpl; [reflexivity | now rewrite IH].
Qed.

Lemma assignFirst_app_back i st lr l1 l2 :
  existsb (hasId i) l1 = false ->
  assignFirst i st lr (l1 ++ l2) = l1 ++ assignFirst i st lr l2.
Proof.
  induction l1 as [|b l1 IH]; simpl; [reflexivity|].
  destruct (hasId i b); simpl; [discriminate|].
  intros H. now rewrite IH.
Qed.

(** An update that sets no [lastRun] splits along any cut of the store, and
    changes at most a status behind the cut. *)
Lemma assignFirst_cut i st front rest :
  exists front' rest',
    assignFirst i st None (front ++ rest) = front' ++ rest'
    /\ List.length front' = List.length front
    /\ Forall2 sameButStatus rest rest'.
Proof.
  destruct (existsb (hasId i) front) eqn:E.
  - exists (assignFirst i st None front), rest.
    rewrite assignFirst_app_front by assumption.
    auto using assignFirst_length, Forall2_sameButStatus_refl.
  - exists front, (assignFirst i st None rest).
    rewrite assignFirst_app_back by assumption.
    auto using assignFirst_sameButStatus.
Qed.

Lemma isPending_sameButStatus today a b :
  sameButStatus a b -> isPending today b = isPending today a.
Proof. intros (_ & _ & _ & _ & H). unfold isPending. now rewrite H. Qed.

Lemma pendingAccounts_sameButStatus today l l' :
  Forall2 sameButStatus l l' ->
  Forall2 sameButStatus (pendingAccounts today l) (pendingAccounts today l').
Proof.
  induction 1 as [|a b l l' Hab _ IH]; simpl; [constructor|].
  rewrite (isPending_sameButStatus today a b Hab).
  destruct (isPending today a); [constructor|]; assumption.
Qed.

(** A filtered list can be cut where its [k]-th kept element stands. *)
Lemma filter_cut {A} (p : A -> bool) (l : list A) :
  forall k, (k <= List.length (filter p l))%nat ->
  exists l1 l2,
    l = l1 ++ l2
    /\ filter p l1 = firstn k (filter p l)
    /\ filter p l2 = skipn k (filter p l).
Proof.
  induction l as [|a l IH]; intros k Hk.
  - exists [], []. simpl in *. now destruct k.
  - destruct k as [|k].
    + exists [], (a :: l). auto.
    + simpl in *. destruct (p a) eqn:Pa.
      * destruct (IH k) as (l1 & l2 & El & E1 & E2); [simpl in Hk; lia|].
        exists (a :: l1), l2. simpl. rewrite Pa, E1, E2, El at 1. auto.
      * destruct (IH (S k) Hk) as (l1 & l2 & El & E1 & E2).
        exists (a :: l1), l2. simpl. rewrite Pa, El at 1. auto.
Qed.

Lemma isBusy_failure r : isBusy r = true -> success r = false.
Proof.
  unfold isBusy. rewrite andb_true_iff, negb_true_iff. tauto.
Qed.

Section BusyLaw.

Variable tzOffset : Z.
Variable clock : nat -> Date.
Variable decrypt : string -> Completion string.
Variable runSession : nat -> DecryptedAccount -> Completion Session.result.

Local Abbreviation batch := (runBatch tzOffset clock decrypt runSession).
Local Abbreviation tick := (checkAndRun tzOffset clock decrypt runSession).

(** The loop, with the store cut in two so that every candidate before the
    [k]-th has its id in the front part: if the [k]-th result is BUSY, it is
    the last, and behind the cut only statuses may have changed. *)
Lemma runBatch_busy e cands :
  forall w front rest k rs w' r,
    isRunning w = false ->
    accounts w = front ++ rest ->
    (forall j c, (j < k)%nat -> nth_error cands j = Some c ->
                 existsb (hasId (id c)) front = true) ->
    batch e cands w = (Normal rs, w') ->
    nth_error rs k = Some r ->
    isBusy r = true ->
    List.length rs = S k
    /\ (sessions w' <= sessions w + S k)%nat
    /\ exists front' rest',
         accounts w' = front' ++ rest'
         /\ List.length front' = List.length front
         /\ Forall2 sameButStatus rest rest'.
Proof.
  induction cands as [|c cands IH]; intros w front rest k rs w' r Hfree Hcut Hids Hrun Hk Hbusy.
  - injection Hrun as <- <-. destruct k; discriminate.
  - rewrite runBatch_cons in Hrun.
    destruct (_ >=? e).
    { injection Hrun as <- <-. destruct k; discriminate. }
    destruct (executeSession_effect clock decrypt runSession (id c)
                (afterClockRead w) Hfree)
      as (r0 & l & evs & n & s & E & Hs & Hl).
    rewrite E in Hrun. simpl in Hrun, Hl. rewrite Hcut in Hl.
    destruct (isBusy r0) eqn:B0.
    + injection Hrun as <- <-.
      destruct k as [|k]; [|destruct k; discriminate].
      split; [reflexivity|]. split; [simpl; lia|]. simpl accounts.
      destruct Hl as [->|(st & lr & -> & Hlr)].
      * exists front, rest. auto using Forall2_sameButStatus_refl.
      * rewrite (Hlr (isBusy_failure _ B0)). apply assignFirst_cut.
    + destruct (runBatch _ _ _ _ e cands _) as [[more|m] w2] eqn:EB; [|discriminate].
      injection Hrun as <- <-.
      destruct k as [|k].
      { simpl in Hk. injection Hk as <-. congruence. }
      simpl in Hk.
      assert (Hc : existsb (hasId (id c)) front = true)
        by (apply (Hids 0%nat c); [lia | reflexivity]).
      assert (Hl' : exists front1, l = front1 ++ rest
                                   /\ List.length front1 = List.length front
                                   /\ forall i, existsb (hasId i) front1
                                                = existsb (hasId i) front).
      { destruct Hl as [->|(st & lr & -> & _)].
        - exists front. auto.
        - exists (assignFirst (id c) st lr front).
          rewrite assignFirst_app_front by assumption.
          split; [reflexivity|]. split; [apply assignFirst_length|].
          intros i. apply existsb_hasId_assignFirst. }
      destruct Hl' as (front1 & -> & Hlen & Hex).
      pose proof (fun H1 H2 H3 => IH _ front1 rest k more w2 r H1 H2 H3 EB Hk Hbusy)
        as IH'.
      destruct IH' as (L & S' & front' & rest' & A & Lf & F);
        [reflexivity | reflexivity | |].
      { intros j c' Hj Hn. rewrite Hex. apply (Hids (S j) c'); [lia | exact Hn]. }
      split; [simpl; congruence|]. split; [simpl in S' |- *; lia|].
      exists front', rest'. split; [exact A|]. split; [congruence | exact F].
Qed.

Lemma runBatch_length e cands :
  forall w rs w',
    batch e cands w = (Normal rs, w') ->
    (List.length rs <= List.length cands)%nat.
Proof.
  induction cands as [|c cands IH]; intros w rs w' Hrun.
  - injection Hrun as <- <-. simpl. lia.
  - rewrite runBatch_cons in Hrun.
    destruct (_ >=? e); [injection Hrun as <- <-; simpl; lia|].
    destruct (executeSession _ _ _ _ _) as [[r0|m] w1]; [|discriminate].
    destruct (isBusy r0); [injection Hrun as <- <-; simpl; lia|].
    destruct (runBatch _ _ _ _ e cands w1) as [[more|m] w2] eqn:EB; [|discriminate].
    injection Hrun as <- <-. simpl. apply IH in EB. lia.
Qed.

(** C3.  If the [k]-th result that a tick's loop sees is BUSY, then it is
    the last one: the loop made [k + 1] calls of [executeSession] and so at
    most [k + 1] calls of the runner.  And the accounts pending for the
    tick's date in the store the tick leaves end with the candidates from the
    [k]-th on, in order, each with its [lastRun] and everything but its
    status as before. *)
Theorem checkAndRun_busy_law w k rs w' r :
  checkAndRun tzOffset clock decrypt runSession w = (Normal rs, w') ->
  nth_error rs k = Some r ->
  isBusy r = true ->
  let today := tickToday clock w in
  let candidates := pendingAccounts today (accounts w) in
  List.length rs = S k
  /\ (S k <= List.length candidates)%nat
  /\ (sessions w' <= sessions w + S k)%nat
  /\ exists front tail,
       pendingAccounts today (accounts w') = front ++ tail
       /\ Forall2 sameButStatus (skipn k candidates) tail.
Proof.
  intros Htick Hk Hbusy today candidates.
  assert (Hnil : forall w0, (Normal (@nil Result), w0) = (Normal rs, w') -> False).
  { intros w0 [= <- _]. destruct k; discriminate. }
  destruct (isRunning w) eqn:L.
  { rewrite checkAndRun_locked in Htick by assumption. now apply Hnil in Htick. }
  rewrite checkAndRun_free in Htick by assumption.
  destruct (isActiveTime _ _ _); [|now apply Hnil in Htick].
  fold today candidates in Htick.
  assert (Hrun : batch (scheduleEnd (scheduleOf w)) candidates (atBatchStart w)
                 = (Normal rs, w')).
  { destruct candidates; [now apply Hnil in Htick | exact Htick]. }
  clear Htick Hnil.
  pose proof (runBatch_length _ _ _ _ _ Hrun) as Hlen.
  assert (Hkr : (k < List.length rs)%nat)
    by (apply nth_error_Some; congruence).
  destruct (filter_cut (isPending today) (accounts w) k) as (l1 & l2 & Hcut & E1 & E2);
    [fold (pendingAccounts today (accounts w)); fold candidates; lia|].
  fold (pendingAccounts today (accounts w)) in E1, E2. fold candidates in E1, E2.
  destruct (runBatch_busy (scheduleEnd (scheduleOf w)) candidates (atBatchStart w)
              l1 l2 k rs w' r L Hcut)
    as (Lrs & Hs & front' & rest' & A & _ & F); try assumption.
  { intros j c Hj Hn.
    assert (Hin : In c (firstn k candidates)).
    { apply nth_error_In with j. rewrite nth_error_firstn.
      destruct (Nat.ltb_spec j k); [exact Hn | lia]. }
    rewrite <- E1 in Hin. apply filter_In in Hin as [Hin _].
    apply existsb_exists. exists c. split; [exact Hin|].
    now apply hasId_eq. }
  split; [exact Lrs|]. split; [lia|]. split; [exact Hs|].
  exists (pendingAccounts today front'), (pendingAccounts today rest').
  split.
  - rewrite A. apply filter_app.
  - rewrite <- E2. now apply pendingAccounts_sameButStatus.
Qed.

End BusyLaw.

(** C5.  The window test of a tick holds exactly when either [start < end]
    and the hour lies in [start, end), or [start >= end] and the hour is at
    or after [start] or before [end].  The hour [end] itself is active only
    when [start = end], so never for a schedule with [start < end]. *)
Theorem isActiveTime_exactly (startHour endHour currentHour : Z) :
  (isActiveTime startHour endHour currentHour = true
   <-> (startHour < endHour /\ startHour <= currentHour < endHour)
       \/ (startHour >= endHour
           /\ (currentHour >= startHour \/ currentHour < endHour)))
  /\ (isActiveTime startHour endHour endHour = true <-> startHour = endHour).
Proof.
  unfold isActiveTime.
  destruct (Z.ltb_spec startHour endHour).
  - rewrite !andb_true_iff, !Z.geb_le, !Z.ltb_lt. lia.
  - rewrite !orb_true_iff, !Z.geb_le, !Z.ltb_lt. lia.
Qed.

(** ** The pending set *)

Section PendingSet.

Variable tzOffset : Z.
Variable clock : nat -> Date.
Variable decrypt : string -> Completion string.
Variable runSession : nat -> DecryptedAccount -> Completion Session.result.

Local Abbreviation batch := (runBatch tzOffset clock decrypt runSession).
Local Abbreviation tick := (checkAndRun tzOffset clock decrypt runSession).

(** C7, amended.  A tick that finds the lock free inside the active hours
    runs its batch over the pending accounts of the store, in store order,
    and an account is pending exactly when its [lastRun] is [null] or falls
    on a calendar date that, in UTC, differs from the current date in UTC. *)
Theorem checkAndRun_pending_set w :
  isRunning w = false ->
  isActiveTime (scheduleStart (scheduleOf w)) (scheduleEnd (scheduleOf w))
               (tickHour tzOffset clock w) = true ->
  let today := toISODate (clock (S (clockReads w))) in
  checkAndRun tzOffset clock decrypt runSession w
  = runBatch tzOffset clock decrypt runSession (scheduleEnd (scheduleOf w))
             (pendingAccounts today (accounts w)) (atBatchStart w)
  /\ forall a,
       In a (pendingAccounts today (accounts w))
       <-> In a (accounts w)
           /\ (lastRun a = None
               \/ exists d, lastRun a = Some d /\ toISODate d <> today).
Proof.
  intros Hfree Hact today. split.
  - rewrite checkAndRun_free by assumption. rewrite Hact.
    fold today. unfold tickToday. fold today.
    destruct (pendingAccounts today (accounts w)); reflexivity.
  - intros a. unfold pendingAccounts. rewrite filter_In, isPending_iff. tauto.
Qed.

End PendingSet.

(** ** The reporter *)

Lemma isCompleted_iff today a :
  isCompleted today a = true
  <-> (exists d, lastRun a = Some d /\ toISODate d = today) /\ status a <> error.
Proof.
  unfold isCompleted. rewrite andb_true_iff, negb_true_iff.
  assert (S : Status_eqb (status a) error = false <-> status a <> error)
    by (destruct (status a); simpl; split; congruence).
  rewrite S. destruct (lastRun a) as [d|].
  - rewrite CalendarDate_eqb_eq. split.
    + intros [H1 H2]. eauto.
    + intros [(d' & [= <-] & H1) H2]. auto.
  - split; [intros [? _]; discriminate | intros [(d & ? & _) _]; discriminate].
Qed.

Lemma isFailed_iff a : isFailed a = true <-> status a = error.
Proof. unfold isFailed. destruct (status a); simpl; split; congruence. Qed.

(** The loop of the reporter appends to its three arrays the names of the
    three categories. *)
Lemma categorize_from today l :
  forall r,
    fold_left (classify today) l r
    = mkReport (successful r ++ map name (filter (isCompleted today) l))
               (failed r ++ map name (filter isFailed l))
               (pending r ++ map name (filter (isNotRun today) l)).
Proof.
  induction l as [|a l IH]; intros r; simpl.
  - rewrite !app_nil_r. now destruct r.
  - rewrite IH. unfold classify, isNotRun, isCompleted, isFailed, ranOn.
    destruct (lastRun a) as [d|]; simpl;
      try destruct (CalendarDate_eqb (toISODate d) today); simpl;
      destruct (Status_eqb (status a) error); simpl;
      rewrite <- ?app_assoc; reflexivity.
Qed.

(** C8.  The reporter reads the store once, sends one notification and
    writes nothing: the world it leaves differs from the one it found only by
    the log and the clock.  Its three lists are the names, in store order, of
    the accounts that are completed (last run today and status not [error]),
    failed (status [error]) and not run (the others), and every account is in
    exactly one of the three categories. *)
Theorem generateDailyReport_partition (clock : nat -> Date) (w : World) :
  let today := toISODate (clock (clockReads w)) in
  let l := accounts w in
  let r := categorize today l in
  generateDailyReport clock w
  = (Normal tt,
     mkWorld l (settings w) (isRunning w)
             (SendLog (reportMessage today (List.length l) r) "info"%string
              :: DbRead :: events w)
             (S (clockReads w)) (sessions w))
  /\ successful r = map name (filter (isCompleted today) l)
  /\ failed r = map name (filter isFailed l)
  /\ pending r = map name (filter (isNotRun today) l)
  /\ (forall a,
        (isCompleted today a = true /\ isFailed a = false /\ isNotRun today a = false)
        \/ (isCompleted today a = false /\ isFailed a = true /\ isNotRun today a = false)
        \/ (isCompleted today a = false /\ isFailed a = false /\ isNotRun today a = true))
  /\ Permutation (successful r ++ failed r ++ pending r) (map name l).
Proof.
  intros today l r.
  assert (R : r = mkReport (map name (filter (isCompleted today) l))
                           (map name (filter isFailed l))
                           (map name (filter (isNotRun today) l)))
    by (unfold r, categorize; now rewrite categorize_from).
  assert (X : forall a,
        (isCompleted today a = true /\ isFailed a = false /\ isNotRun today a = false)
        \/ (isCompleted today a = false /\ isFailed a = true /\ isNotRun today a = false)
        \/ (isCompleted today a = false /\ isFailed a = false /\ isNotRun today a = true)).
  { intros a. unfold isNotRun, isCompleted, isFailed.
    destruct (match lastRun a with Some d => _ | None => _ end);
      destruct (Status_eqb (status a) error); simpl; auto. }
  split; [reflexivity|].
  rewrite R; simpl. do 3 (split; [reflexivity|]). split; [exact X|].
  clear R r. induction l as [|a l IH]; simpl; [constructor|].
  destruct (X a) as [(-> & -> & ->)|[(-> & -> & ->)|(-> & -> & ->)]]; simpl.
  - now constructor.
  - apply Permutation_sym, Permutation_cons_app, Permutation_sym, IH.
  - apply Permutation_sym.
    rewrite app_assoc. apply Permutation_cons_app.
    rewrite <- app_assoc. apply Permutation_sym, IH.
Qed.

(** * Scenarios *)

Example toISODate_sample :
  toISODate (instant 2024 1 1 23 0) = mkCalendarDate 2024 1 1
  /\ dateText (toISODate (instant 2024 2 29 0 0)) = "2024-02-29"%string
  /\ getHours 0 (instant 2024 1 1 23 0) = 23
  /\ getHours IST (instant 2024 1 2 10 0) = 15
  /\ localDate IST (instant 2024 1 1 20 0) = mkCalendarDate 2024 1 2.
Proof. repeat split. Qed.

(** Schedule 10 to 20 at hour 9: the tick reads the schedule and stops. *)
Example checkAndRun_before_window :
  checkAndRun 0 (fun _ => instant 2024 1 2 9 0) plainDecrypt alwaysSucceeds
              (freshWorld [alice] (Some (mkSchedule 10 20)))
  = (Normal [], mkWorld [alice] (Some (mkSchedule 10 20)) false [DbRead] 1 0).
Proof. reflexivity. Qed.

(** Schedule 22 to 8: hour 23 is active, hour 9 is not. *)
Example isActiveTime_22_8 :
  isActiveTime 22 8 23 = true /\ isActiveTime 22 8 9 = false
  /\ isActiveTime 22 8 7 = true /\ isActiveTime 10 20 20 = false.
Proof. repeat split. Qed.

(** C1, which the code does not meet.  Schedule 22 to 8, hour 23, the lock
    free and one account pending: the tick passes the window test, and then
    its loop compares the hour with [end] alone, 23 >= 8, and stops before
    the first candidate.  The runner is never called. *)
Theorem checkAndRun_evening_runs_nothing :
  let clock := fun _ : nat => instant 2024 1 1 23 0 in
  let w := freshWorld [alice] (Some (mkSchedule 22 8)) in
  tickHour 0 clock w = 23
  /\ isActiveTime 22 8 23 = true
  /\ pendingAccounts (tickToday clock w) (accounts w) = [alice]
  /\ checkAndRun 0 clock plainDecrypt alwaysSucceeds w
     = (Normal [],
        mkWorld [alice] (Some (mkSchedule 22 8)) false [DbRead; DbRead] 3 0).
Proof. repeat split. Qed.

(** C2, which the code does not meet.  The runner throws during the session
    of alice: the lock is released but her record stays [running].  The next
    call, for bob, then writes a store in which both records are [running]. *)
Theorem two_accounts_running_after_fault :
  let exec := executeSession (fun _ => instant 2024 1 2 12 0) plainDecrypt
                             faultThenSuccess in
  let w0 := freshWorld [alice; bob] None in
  let w1 := snd (exec "1"%string w0) in
  let w2 := snd (exec "2"%string w1) in
  runningCount (accounts w0) = 0%nat
  /\ fst (exec "1"%string w0)
     = Normal (mkResult false (Some "Navigation timeout of 30000 ms exceeded"%string))
  /\ isRunning w1 = false
  /\ map status (accounts w1) = [running; idle]
  /\ fst (exec "2"%string w1) = Normal (mkResult true None)
  /\ map (map status) (snapshots (events w2))
     = [[running; idle]; [running; running]; [running; idle]]
  /\ map runningCount (snapshots (events w2)) = [1; 2; 1]%nat.
Proof. repeat split. Qed.

(** C7 as stated fails.  Local time five and a half hours ahead of UTC; an
    account last ran at 20:00 UTC on 1 January, which is 01:30 on 2 January
    locally, and the tick comes at 10:00 UTC on 2 January, 15:30 locally.
    Both instants fall on the same local date, so the account is not pending
    by local dates; the tick compares UTC dates, finds it pending and runs
    it. *)
Lemma pending_set_not_by_local_date :
  let lastRan := instant 2024 1 1 20 0 in
  let now := instant 2024 1 2 10 0 in
  let a := mkAccount "1" "alice" "enc-alice" "E-15" (Some lastRan) idle in
  let w := freshWorld [a] None in
  localDate IST lastRan = localDate IST now
  /\ filter (pendingLocal IST now) (accounts w) = []
  /\ pendingAccounts (toISODate now) (accounts w) = [a]
  /\ pendingAccounts (toISODate now) (accounts w)
     <> filter (pendingLocal IST now) (accounts w)
  /\ runnerCalls (events (snd (checkAndRun IST (fun _ => now) plainDecrypt
                                           alwaysSucceeds w))) = 1%nat.
Proof. repeat split. vm_compute. discriminate. Qed.

(** ** The laws at sample inputs *)

(** A call for alice while a session holds the lock. *)
Lemma executeSession_contention_witness :
  let w := mkWorld [alice] None true [] 0 0 in
  isRunning w = true
  /\ exists r,
       executeSession (fun _ => instant 2024 1 2 12 0) plainDecrypt alwaysSucceeds
                      "1"%string w = (Normal r, w)
       /\ success r = false
       /\ message r <> Some "BUSY"%string.
Proof.
  split; [reflexivity|].
  apply (executeSession_contention (fun _ => instant 2024 1 2 12 0) plainDecrypt
           alwaysSucceeds "1"%string (mkWorld [alice] None true [] 0 0)).
  reflexivity.
Defined.


(** Three pending accounts at noon, schedule 10 to 20: alice succeeds, bob
    gets BUSY.  The runner was called for alice and bob only, and bob and
    carol are still pending. *)
Lemma checkAndRun_busy_law_witness :
  let clock := fun _ : nat => instant 2024 1 2 12 0 in
  let w := freshWorld [alice; bob; carol] None in
  exists w',
    checkAndRun 0 clock plainDecrypt successThenBusy w
    = (Normal [mkResult true None; mkResult false (Some "BUSY"%string)], w')
    /\ (sessions w' <= sessions w + 2)%nat
    /\ exists front tail,
         pendingAccounts (tickToday clock w) (accounts w') = front ++ tail
         /\ Forall2 sameButStatus [bob; carol] tail.
Proof.
  intros clock w. eexists. split; [vm_compute; reflexivity|].
  eapply (checkAndRun_busy_law 0 clock plainDecrypt successThenBusy w 1
            [mkResult true None; mkResult false (Some "BUSY"%string)] _
            (mkResult false (Some "BUSY"%string)));
    [vm_compute | ..]; reflexivity.
Defined.

(** The tick of the counterexample above, seen in UTC. *)
Lemma checkAndRun_pending_set_witness :
  let lastRan := instant 2024 1 1 20 0 in
  let now := instant 2024 1 2 10 0 in
  let a := mkAccount "1" "alice" "enc-alice" "E-15" (Some lastRan) idle in
  let w := freshWorld [a] None in
  toISODate lastRan <> toISODate now
  /\ In a (pendingAccounts (toISODate now) (accounts w)).
Proof.
  intros lastRan now a w.
  split; [vm_compute; discriminate|].
  pose proof (checkAndRun_pending_set IST (fun _ => now) plainDecrypt alwaysSucceeds w
                eq_refl) as H.
  destruct H as [_ H]; [vm_compute; reflexivity|].
  apply (proj2 (H a)). split; [now left|]. right. exists lastRan.
  split; [reflexivity | vm_compute; discriminate].
Defined.

(** ** One running account at a time, as long as the runner does not throw *)

Lemma runningCount_assignFirst_running i lr l :
  (runningCount (assignFirst i running lr l) <= S (runningCount l))%nat.
Proof.
  unfold runningCount. induction l as [|b l IH]; simpl; [lia|].
  destruct (hasId i b); simpl.
  - destruct (Status_eqb (status b) running); simpl; lia.
  - destruct (Status_eqb (status b) running); simpl; lia.
Qed.

Lemma runningCount_assignFirst_settled i st lr l :
  st <> running ->
  (runningCount (assignFirst i st lr l) <= runningCount l)%nat.
Proof.
  intros Hst. unfold runningCount. induction l as [|b l IH]; simpl; [lia|].
  destruct (hasId i b); simpl.
  - destruct st; try congruence; simpl;
      destruct (Status_eqb (status b) running); simpl; lia.
  - destruct (Status_eqb (status b) running); simpl; lia.
Qed.

Section NoFault.

Variable clock : nat -> Date.
Variable decrypt : string -> Completion string.
Variable runSession : nat -> DecryptedAccount -> Completion Session.result.

Local Abbreviation exec := (executeSession clock decrypt runSession).

(** If no record is [running] when a call finds the lock free, and the
    runner returns rather than throws, then no store that the call writes has
    more than one [running] record, and none is [running] when it returns. *)
Lemma executeSession_one_running i w :
  isRunning w = false ->
  runningCount (accounts w) = 0%nat ->
  (forall a m, runSession (sessions w) a <> Throw m) ->
  runningCount (accounts (snd (exec i w))) = 0%nat
  /\ exists evs,
       events (snd (exec i w)) = evs ++ events w
       /\ Forall (fun l => (runningCount l <= 1)%nat) (snapshots evs).
Proof.
  intros Hfree Hzero Hret.
  destruct (find (hasId i) (accounts w)) as [a|] eqn:Hfind.
  2:{ rewrite executeSession_not_found by assumption. simpl.
      split; [assumption|]. exists [DbRead]. split; [reflexivity | constructor]. }
  destruct (decrypt (encryptedCode a)) as [c|m] eqn:Hcode.
  2:{ erewrite executeSession_decrypt_throws by eassumption. simpl.
      split; [assumption|]. exists [DbRead]. split; [reflexivity | constructor]. }
  pose proof (runningCount_assignFirst_running i None (accounts w)) as Hrun1.
  destruct (runSession (sessions w) (mkDecrypted a c)) as [r|m] eqn:Hrun.
  2:{ now apply Hret in Hrun. }
  destruct (Session.success r) eqn:Hs.
  - erewrite executeSession_success by eassumption. cbn [snd accounts events].
    pose proof (runningCount_assignFirst_settled i idle
                  (Some (clock (clockReads w))) (accounts w)) as Hidle.
    split; [apply Nat.le_0_r; rewrite <- Hzero; apply Hidle; discriminate|].
    eexists (_ :: _ :: _ :: startEvents i _ w). split; [reflexivity|].
    unfold startEvents. cbn [snapshots].
    specialize (Hidle ltac:(discriminate)).
    apply Forall_cons; [lia | apply Forall_cons; [lia | apply Forall_nil]].
  - erewrite executeSession_failure by eassumption. cbn [snd accounts events].
    pose proof (runningCount_assignFirst_settled i error None (accounts w)) as Herr.
    split; [apply Nat.le_0_r; rewrite <- Hzero; apply Herr; discriminate|].
    eexists (_ :: _ :: _ :: startEvents i _ w). split; [reflexivity|].
    unfold startEvents. cbn [snapshots].
    specialize (Herr ltac:(discriminate)).
    apply Forall_cons; [lia | apply Forall_cons; [lia | apply Forall_nil]].
Qed.

End NoFault.

(** * The store and the commands *)

(** ** Texts of numbers *)

Lemma to_int_not_nil (z : Z) :
  Z.to_int z <> Decimal.Pos Decimal.Nil /\ Z.to_int z <> Decimal.Neg Decimal.Nil.
Proof.
  destruct z as [|p|p]; simpl; split; try discriminate;
    intros [= H]; now apply DecimalPos.Unsigned.to_uint_nonnil in H.
Qed.

(** Different integers have different texts. *)
Lemma intText_inj (a b : Z) : intText a = intText b -> a = b.
Proof.
  unfold intText. intros H.
  apply DecimalZ.to_int_inj.
  apply (f_equal NilZero.int_of_string) in H.
  rewrite !NilZero.isi in H by apply to_int_not_nil.
  now injection H.
Qed.

(** ** Adding and removing accounts *)

Lemma filter_shorter {A} (p : A -> bool) (l : list A) :
  (List.length (filter p l) <? List.length l)%nat
  = existsb (fun a => negb (p a)) l.
Proof.
  assert (L : forall l', (List.length (filter p l') <= List.length l')%nat)
    by (intros l'; apply filter_length_le).
  induction l as [|a l IH]; simpl; [reflexivity|].
  destruct (p a); simpl.
  - exact IH.
  - specialize (L l). apply Nat.ltb_lt. lia.
Qed.

Lemma filter_all {A} (p : A -> bool) (l : list A) :
  (forall a, In a l -> p a = true) -> filter p l = l.
Proof.
  induction l as [|a l IH]; simpl; intros H; [reflexivity|].
  rewrite (H a) by now left. f_equal. apply IH. intros b Hb. apply H. now right.
Qed.

Lemma hasName_eq n a : hasName n a = true <-> name a = n.
Proof. unfold hasName. apply String.eqb_eq. Qed.

Lemma hasName_neq n a : negb (hasName n a) = true <-> name a <> n.
Proof.
  unfold hasName. rewrite negb_true_iff. apply String.eqb_neq.
Qed.

(** A lookup by id passes over records that have another id. *)
Lemma find_app_fresh i l l' :
  (forall a, In a l -> id a <> i) ->
  find (hasId i) (l ++ l') = find (hasId i) l'.
Proof.
  induction l as [|b l IH]; simpl; intros H; [reflexivity|].
  destruct (hasId i b) eqn:E.
  - apply hasId_eq in E. exfalso. apply (H b); [now left | exact E].
  - apply IH. intros a Ha. apply H. now right.
Qed.

Section StoreLaws.

Variable clock : nat -> Date.

(** X1.  [addAccount] puts the new record last, with the text of the clock
    as id, no last run and status [idle].  So the record is pending for
    every date, it comes last in the next batch, the daily report counts it
    as not run, and the number of running records is as before. *)
Theorem addAccount_is_pending n c s w today :
  let out := addAccount clock n c s w in
  let a := mkAccount (intText (clock (clockReads w))) n c s None idle in
  fst out = Normal (id a)
  /\ accounts (snd out) = accounts w ++ [a]
  /\ pendingAccounts today (accounts (snd out))
     = pendingAccounts today (accounts w) ++ [a]
  /\ isNotRun today a = true
  /\ runningCount (accounts (snd out)) = runningCount (accounts w).
Proof.
  intros out a. subst out. unfold addAccount, bind, emit, newDate, ret, written.
  simpl. fold a. repeat split.
  - unfold pendingAccounts. now rewrite filter_app.
  - unfold runningCount. rewrite filter_app, length_app. simpl. lia.
Qed.

(** X2.  Two accounts added one after the other get the same id exactly
    when the clock shows the same millisecond at both calls. *)
Theorem addAccount_same_id_iff n1 c1 s1 n2 c2 s2 w :
  let out1 := addAccount clock n1 c1 s1 w in
  let out2 := addAccount clock n2 c2 s2 (snd out1) in
  fst out1 = fst out2 <-> clock (clockReads w) = clock (S (clockReads w)).
Proof.
  unfold addAccount, bind, emit, newDate, ret, written. simpl. split.
  - intros [= H]. now apply intText_inj.
  - intros ->. reflexivity.
Qed.

(** X3.  If two accounts are added in the same millisecond, and no older
    record has that id, then a lookup by the id that the second call
    returned finds the record of the first: the second record cannot be
    reached by its id. *)
Theorem addAccount_collision_hides_second n1 c1 s1 n2 c2 s2 w :
  clock (clockReads w) = clock (S (clockReads w)) ->
  (forall a, In a (accounts w) -> id a <> intText (clock (clockReads w))) ->
  let out1 := addAccount clock n1 c1 s1 w in
  let out2 := addAccount clock n2 c2 s2 (snd out1) in
  exists i,
    fst out2 = Normal i
    /\ List.length (accounts (snd out2)) = S (S (List.length (accounts w)))
    /\ find (hasId i) (accounts (snd out2))
       = Some (mkAccount i n1 c1 s1 None idle).
Proof.
  intros Hclock Hfresh out1 out2. subst out1 out2.
  unfold addAccount, bind, emit, newDate, ret, written. simpl.
  rewrite <- Hclock. eexists. split; [reflexivity|]. split.
  - rewrite !length_app. simpl. lia.
  - rewrite <- app_assoc, find_app_fresh by exact Hfresh. simpl.
    unfold hasId at 1. simpl. now rewrite String.eqb_refl.
Qed.

(** X4.  [removeAccount] answers whether some record had the name; it
    removes every record with that name and keeps the others in order, so
    removing the same name again answers [false] and changes no record. *)
Theorem removeAccount_removes n w :
  let out := removeAccount n w in
  let again := removeAccount n (snd out) in
  fst out = Normal (existsb (hasName n) (accounts w))
  /\ accounts (snd out) = filter (fun a => negb (hasName n a)) (accounts w)
  /\ (forall a, In a (accounts (snd out)) <-> In a (accounts w) /\ name a <> n)
  /\ fst again = Normal false
  /\ accounts (snd again) = accounts (snd out).
Proof.
  intros out again. subst again out.
  unfold removeAccount, bind, emit, written. simpl.
  rewrite filter_shorter.
  assert (E : existsb (fun a => negb (negb (hasName n a))) (accounts w)
              = existsb (hasName n) (accounts w)).
  { induction (accounts w) as [|b l IH]; simpl; [reflexivity|].
    now rewrite negb_involutive, IH. }
  rewrite E. split; [reflexivity|]. split; [reflexivity|]. split.
  - intros a. rewrite filter_In, hasName_neq. tauto.
  - assert (F : filter (fun a => negb (hasName n a))
                  (filter (fun a => negb (hasName n a)) (accounts w))
                = filter (fun a => negb (hasName n a)) (accounts w)).
    { apply filter_all. intros a Ha. now apply filter_In in Ha. }
    rewrite F. split; [|reflexivity].
    now rewrite Nat.ltb_irrefl.
Qed.

(** X5.  Adding an account under a name that no record has and then
    removing that name gives back the records there were. *)
Theorem add_then_remove n c s w :
  (forall a, In a (accounts w) -> name a <> n) ->
  let added := snd (addAccount clock n c s w) in
  let out := removeAccount n added in
  fst out = Normal true /\ accounts (snd out) = accounts w.
Proof.
  intros Hn added out. subst out added.
  unfold addAccount, removeAccount, bind, emit, newDate, ret, written. simpl.
  rewrite filter_app. simpl.
  assert (Hself : forall a, name a = n -> negb (hasName n a) = false).
  { intros a Ha. apply negb_false_iff. now apply hasName_eq. }
  rewrite Hself by reflexivity.
  rewrite filter_all by (intros a Ha; apply hasName_neq; auto).
  rewrite app_nil_r, length_app. simpl. split; [|reflexivity].
  f_equal. apply Nat.ltb_lt. lia.
Qed.

End StoreLaws.

(** ** The schedule *)

Example parseInt_samples :
  parseInt "10" = Some 10 /\ parseInt "08" = Some 8 /\ parseInt "  -7px" = Some (-7)
  /\ parseInt "0x1f" = Some 31 /\ parseInt "" = None /\ parseInt "abc" = None
  /\ parseHour "10:00" = Some 10 /\ parseHour "20:00" = Some 20
  /\ hourText 8 = "08:00"%string /\ hourText 22 = "22:00"%string.
Proof. repeat split. Qed.

(** X6.  The text that [set_schedule] stores for an hour from 0 to 23 has
    five characters, and the scheduler reads the same hour back from it. *)
Theorem parseHour_hourText (h : Z) :
  0 <= h <= 23 ->
  parseHour (hourText h) = Some h /\ String.length (hourText h) = 5%nat.
Proof.
  intros H.
  assert (E : h = Z.of_nat (Z.to_nat h)) by lia.
  assert (L : (Z.to_nat h < 24)%nat) by lia.
  rewrite E. clear E H. generalize dependent (Z.to_nat h). intros n L.
  do 24 (destruct n as [|n]; [split; reflexivity|]). lia.
Qed.

Section ScheduleLaws.

Variable tzOffset : Z.
Variable clock : nat -> Date.
Variable decrypt : string -> Completion string.
Variable runSession : nat -> DecryptedAccount -> Completion Session.result.

(** X7.  [set_schedule] with both hours from 0 to 23 stores them: the next
    [getSchedule] returns them, whatever was stored before, and neither the
    accounts nor the lock change. *)
Theorem setScheduleCommand_stores startHour endHour w :
  0 <= startHour <= 23 ->
  0 <= endHour <= 23 ->
  let out := setScheduleCommand startHour endHour w in
  fst out
  = Normal [Reply ("âœ… Schedule updated! Active hours: **" ++ hourText startHour
                     ++ "** to **" ++ hourText endHour ++ "**")%string false]
  /\ fst (getSchedule (snd out)) = Normal (mkSchedule startHour endHour)
  /\ accounts (snd out) = accounts w
  /\ isRunning (snd out) = isRunning w.
Proof.
  intros Hs He out. subst out. unfold setScheduleCommand.
  destruct (Z.ltb_spec startHour 0); [lia|].
  destruct (Z.gtb_spec startHour 23); [lia|].
  destruct (Z.ltb_spec endHour 0); [lia|].
  destruct (Z.gtb_spec endHour 23); [lia|].
  repeat split.
Qed.

(** X8.  [set_schedule] with an hour below 0 or above 23 answers with the
    error text and leaves the world as it was: nothing is read or written. *)
Theorem setScheduleCommand_rejects startHour endHour w :
  startHour < 0 \/ startHour > 23 \/ endHour < 0 \/ endHour > 23 ->
  setScheduleCommand startHour endHour w
  = (Normal [Reply "Hours must be between 0 and 23."%string true], w).
Proof.
  intros H. unfold setScheduleCommand.
  destruct (Z.ltb_spec startHour 0); [reflexivity|].
  destruct (Z.gtb_spec startHour 23); [reflexivity|].
  destruct (Z.ltb_spec endHour 0); [reflexivity|].
  destruct (Z.gtb_spec endHour 23); [reflexivity|].
  lia.
Qed.

(** X9.  A tick reads the schedule afresh: the first tick after a
    [set_schedule] that finds the lock free goes on to the accounts exactly
    when its hour is active for the new hours, and otherwise stops without
    calling the runner. *)
Theorem checkAndRun_after_setSchedule startHour endHour w :
  0 <= startHour <= 23 ->
  0 <= endHour <= 23 ->
  isRunning w = false ->
  let w' := snd (setScheduleCommand startHour endHour w) in
  checkAndRun tzOffset clock decrypt runSession w'
  = if isActiveTime startHour endHour (tickHour tzOffset clock w)
    then runBatch tzOffset clock decrypt runSession endHour
                  (pendingAccounts (tickToday clock w) (accounts w))
                  (atBatchStart w')
    else (Normal [], atWindowCheck w').
Proof.
  intros Hs He Hfree w'.
  assert (E : w' = mkWorld (accounts w) (Some (mkSchedule startHour endHour))
                           (isRunning w) (DbWrite (accounts w) :: DbRead :: events w)
                           (clockReads w) (sessions w)).
  { subst w'. unfold setScheduleCommand.
    destruct (Z.ltb_spec startHour 0); [lia|].
    destruct (Z.gtb_spec startHour 23); [lia|].
    destruct (Z.ltb_spec endHour 0); [lia|].
    destruct (Z.gtb_spec endHour 23); [lia|].
    reflexivity. }
  clearbody w'. subst w'.
  rewrite checkAndRun_free by exact Hfree.
  unfold scheduleOf, tickHour, tickToday. simpl.
  destruct (isActiveTime _ _ _); [|reflexivity].
  destruct (pendingAccounts _ _); reflexivity.
Qed.

End ScheduleLaws.

(** ** The migration of plain codes *)

Example toyCipher_samples :
  toyDecrypt (toyEncrypt 0 "code-a") = Normal "code-a"%string
  /\ toyDecrypt "code-a" = Normal EmptyString
  /\ isEncrypted toyDecrypt "code-a" = false
  /\ isEncrypted toyDecrypt (toyEncrypt 3 "code-a") = true
  /\ isEncrypted toyDecrypt (toyEncrypt 3 EmptyString) = false.
Proof. repeat split. Qed.

Section Migration.

Variable encrypt : nat -> string -> string.
Variable decrypt : string -> Completion string.

Local Abbreviation plain := (fun a => negb (isEncrypted decrypt (encryptedCode a))).
Local Abbreviation migrated := (migrateFrom encrypt decrypt).
Local Abbreviation migrate := (migrateUnencryptedCodes encrypt decrypt).

Lemma migrateFrom_count l :
  forall k, snd (migrated k l) = (k + List.length (filter plain l))%nat.
Proof.
  induction l as [|a l IH]; intros k; simpl; [lia|].
  destruct (isEncrypted decrypt (encryptedCode a)); simpl.
  - specialize (IH k). destruct (migrated k l). simpl in *. exact IH.
  - specialize (IH (S k)). destruct (migrated (S k) l). simpl in *. lia.
Qed.

(** What the loop does to each record: nothing when its code is recognised
    as encrypted, and otherwise only the code changes, to a cipher text of
    the old one. *)
Definition migratedRecord (a a' : Account) : Prop :=
  sameButCode a a'
  /\ (isEncrypted decrypt (encryptedCode a) = true -> a' = a)
  /\ (isEncrypted decrypt (encryptedCode a) = false ->
      exists n, encryptedCode a' = encrypt n (encryptedCode a)).

Lemma migrateFrom_records l :
  forall k, Forall2 migratedRecord l (fst (migrated k l)).
Proof.
  induction l as [|a l IH]; intros k; simpl; [constructor|].
  destruct (isEncrypted decrypt (encryptedCode a)) eqn:E; simpl.
  - specialize (IH k). destruct (migrated k l). simpl in *.
    constructor; [|exact IH].
    split; [repeat split|]. split; [reflexivity|]. congruence.
  - specialize (IH (S k)). destruct (migrated (S k) l). simpl in *.
    constructor; [|exact IH].
    split; [repeat split|]. split; [congruence|]. intros _. now exists k.
Qed.

Lemma migrateFrom_nothing l :
  forall k, filter plain l = [] -> migrated k l = (l, k).
Proof.
  induction l as [|a l IH]; intros k; simpl; [reflexivity|].
  destruct (isEncrypted decrypt (encryptedCode a)); simpl; [|discriminate].
  intros H. now rewrite IH.
Qed.

(** The migration, by what the loop returns. *)
Lemma migrate_run w :
  migrate w
  = let n := List.length (filter plain (accounts w)) in
    let read := mkWorld (accounts w) (settings w) (isRunning w) (DbRead :: events w)
                        (clockReads w) (sessions w) in
    (Normal n,
     if (0 <? n)%nat then written (fst (migrated 0 (accounts w))) read else read).
Proof.
  unfold migrateUnencryptedCodes, bind, emit. simpl.
  pose proof (migrateFrom_count (accounts w) 0) as C.
  destruct (migrated 0 (accounts w)) as [l k]. simpl in *. subst k.
  destruct (0 <? _)%nat; reflexivity.
Qed.

Lemma migrate_records w :
  Forall2 migratedRecord (accounts w) (accounts (snd (migrate w))).
Proof.
  rewrite migrate_run. cbv zeta.
  destruct (0 <? _)%nat eqn:E; simpl; [apply migrateFrom_records|].
  apply Nat.ltb_ge in E.
  assert (Z : filter plain (accounts w) = []) by (apply length_zero_iff_nil; lia).
  clear E. induction (accounts w) as [|a l IH]; [constructor|].
  simpl in Z. destruct (isEncrypted decrypt (encryptedCode a)) eqn:Ea;
    [|discriminate].
  constructor; [|now apply IH].
  split; [repeat split|]. split; [reflexivity | congruence].
Qed.

(** X10.  The migration returns the number of records whose code is not
    recognised as encrypted.  It changes no id, name, server, last run or
    status, leaves a record with a recognised code as it is, and writes the
    store exactly when that number is not zero. *)
Theorem migrate_counts_plain_codes w :
  let out := migrateUnencryptedCodes encrypt decrypt w in
  let n := List.length (filter (fun a => negb (isEncrypted decrypt (encryptedCode a)))
                               (accounts w)) in
  fst out = Normal n
  /\ Forall2 migratedRecord (accounts w) (accounts (snd out))
  /\ snapshots (events (snd out))
     = if (0 <? n)%nat then accounts (snd out) :: snapshots (events w)
       else snapshots (events w).
Proof.
  intros out n. subst out. split; [|split].
  - rewrite migrate_run. reflexivity.
  - apply migrate_records.
  - rewrite migrate_run. subst n. cbv zeta.
    destruct (0 <? _)%nat; reflexivity.
Qed.

Section RoundTrip.

Hypothesis decrypt_encrypt : forall n text, decrypt (encrypt n text) = Normal text.

(** X11.  With a cipher that decrypts what it encrypted, the migration
    keeps every credential: a code that was stored in plain decrypts to
    itself afterwards, and a code that was recognised as encrypted decrypts
    as before. *)
Theorem migrate_keeps_credentials w :
  Forall2 (fun a a' =>
             decrypt (encryptedCode a')
             = if isEncrypted decrypt (encryptedCode a)
               then decrypt (encryptedCode a)
               else Normal (encryptedCode a))
          (accounts w) (accounts (snd (migrateUnencryptedCodes encrypt decrypt w))).
Proof.
  pose proof (migrate_records w) as R.
  induction R as [|a a' l l' (_ & Hsame & Hnew) _ IH]; constructor; [|exact IH].
  destruct (isEncrypted decrypt (encryptedCode a)).
  - now rewrite Hsame.
  - destruct (Hnew eq_refl) as (n & ->). apply decrypt_encrypt.
Qed.

Lemma isEncrypted_encrypt n text :
  isEncrypted decrypt (encrypt n text)
  = (0 <? String.length text)%nat && negb (String.eqb (encrypt n text) text).
Proof. unfold isEncrypted. now rewrite decrypt_encrypt. Qed.

Lemma Forall2_In_left {A B} (R : A -> B -> Prop) l l' a :
  Forall2 R l l' -> In a l -> exists b, In b l' /\ R a b.
Proof.
  induction 1 as [|x y l l' Hxy _ IH]; intros Hin; [destruct Hin|].
  destruct Hin as [->|Hin].
  - exists y. split; [now left | exact Hxy].
  - destruct (IH Hin) as (b & Hb & Rb). exists b. split; [now right | exact Rb].
Qed.

(** X12.  With a cipher that decrypts what it encrypted and never returns
    its input, and no empty code in the store, a second migration finds
    nothing to do: it returns 0 and does not write. *)
Theorem migrate_twice w :
  (forall n text, encrypt n text <> text) ->
  (forall a, In a (accounts w) -> encryptedCode a <> EmptyString) ->
  let w1 := snd (migrateUnencryptedCodes encrypt decrypt w) in
  migrateUnencryptedCodes encrypt decrypt w1
  = (Normal 0%nat,
     mkWorld (accounts w1) (settings w1) (isRunning w1) (DbRead :: events w1)
             (clockReads w1) (sessions w1)).
Proof.
  intros Hneq Hnonempty w1.
  assert (Z : filter plain (accounts w1) = []).
  { subst w1. pose proof (migrate_records w) as R.
    induction R as [|a a' l l' (_ & Hsame & Hnew) _ IH]; [reflexivity|].
    simpl.
    assert (E : isEncrypted decrypt (encryptedCode a') = true).
    { destruct (isEncrypted decrypt (encryptedCode a)) eqn:Ea.
      - now rewrite Hsame.
      - destruct (Hnew eq_refl) as (n & ->). rewrite isEncrypted_encrypt.
        apply andb_true_iff. split.
        + apply Nat.ltb_lt.
          assert (Hc : encryptedCode a <> EmptyString) by (apply Hnonempty; now left).
          destruct (encryptedCode a); [congruence | simpl; lia].
        + apply negb_true_iff, String.eqb_neq, Hneq. }
    rewrite E. simpl. apply IH. intros b Hb. apply Hnonempty. now right. }
  rewrite migrate_run, Z. reflexivity.
Qed.

(** X13.  The cipher text of an empty text is not recognised as encrypted.
    A record that holds one is therefore encrypted a second time by the
    migration, and its code then decrypts to that cipher text instead of the
    empty text. *)
Theorem migrate_encrypts_empty_code_again w a n :
  In a (accounts w) ->
  encryptedCode a = encrypt n EmptyString ->
  isEncrypted decrypt (encryptedCode a) = false
  /\ (exists k, fst (migrateUnencryptedCodes encrypt decrypt w) = Normal (S k))
  /\ exists a',
       In a' (accounts (snd (migrateUnencryptedCodes encrypt decrypt w)))
       /\ id a' = id a
       /\ decrypt (encryptedCode a') = Normal (encrypt n EmptyString).
Proof.
  intros Hin Hcode.
  assert (E : isEncrypted decrypt (encryptedCode a) = false)
    by (rewrite Hcode, isEncrypted_encrypt; reflexivity).
  split; [exact E|]. split.
  - rewrite migrate_run. cbv zeta.
    assert (Hf : In a (filter plain (accounts w)))
      by (apply filter_In; split; [exact Hin | now rewrite E]).
    destruct (filter plain (accounts w)); [destruct Hf|]. simpl. now eexists.
  - destruct (Forall2_In_left _ _ _ a (migrate_records w) Hin)
      as (a' & Hin' & (Hid & _) & _ & Hnew).
    exists a'. split; [exact Hin'|]. split; [exact Hid|].
    destruct (Hnew E) as (k & ->). rewrite Hcode. apply decrypt_encrypt.
Qed.

End RoundTrip.

End Migration.

(** * More on the orchestrator and the scheduler *)

(** ** What a session leaves alone *)

(** A record after a session for id [i]: its identity is kept, and it is
    untouched when its id is another. *)
Definition keptBy (i : string) (a a' : Account) : Prop :=
  sameIdentity a a' /\ (id a <> i -> a' = a).

Lemma keptBy_refl i l : Forall2 (keptBy i) l l.
Proof.
  induction l; constructor; auto. split; [apply sameIdentity_refl | reflexivity].
Qed.

Lemma assignFirst_keptBy i st lr l :
  Forall2 (keptBy i) l (assignFirst i st lr l).
Proof.
  induction l as [|b l IH]; simpl; [constructor|].
  destruct (hasId i b) eqn:E.
  - constructor; [|apply keptBy_refl].
    split; [repeat split|]. intros N. apply hasId_eq in E. contradiction.
  - constructor; [|exact IH]. split; [apply sameIdentity_refl | reflexivity].
Qed.

Lemma sameIdentity_trans a b c :
  sameIdentity a b -> sameIdentity b c -> sameIdentity a c.
Proof.
  intros (A1 & A2 & A3 & A4) (B1 & B2 & B3 & B4).
  repeat split; congruence.
Qed.

Lemma Forall2_trans {A} (R : A -> A -> Prop) :
  (forall a b c, R a b -> R b c -> R a c) ->
  forall l1 l2 l3, Forall2 R l1 l2 -> Forall2 R l2 l3 -> Forall2 R l1 l3.
Proof.
  intros T l1 l2 l3 H. revert l3.
  induction H as [|a b l1 l2 Hab _ IH]; intros l3 H3; inversion H3; subst;
    constructor; eauto.
Qed.

Lemma Forall2_weaken {A} (R S : A -> A -> Prop) l l' :
  (forall a b, R a b -> S a b) -> Forall2 R l l' -> Forall2 S l l'.
Proof. intros W H. induction H; constructor; auto. Qed.

Lemma sameButStatus_trans a b c :
  sameButStatus a b -> sameButStatus b c -> sameButStatus a c.
Proof.
  intros (A1 & A2 & A3 & A4 & A5) (B1 & B2 & B3 & B4 & B5).
  repeat split; congruence.
Qed.

Lemma CalendarDate_eqb_refl d : CalendarDate_eqb d d = true.
Proof. now apply CalendarDate_eqb_eq. Qed.

Lemma existsb_hasId_find i l :
  existsb (hasId i) l = true -> exists a, find (hasId i) l = Some a.
Proof.
  induction l as [|b l IH]; simpl; [discriminate|].
  destruct (hasId i b); [eauto | exact IH].
Qed.

Section SessionLaws.

Variable clock : nat -> Date.
Variable decrypt : string -> Completion string.
Variable runSession : nat -> DecryptedAccount -> Completion Session.result.

Local Abbreviation exec := (executeSession clock decrypt runSession).

(** X14.  Whatever the state of the lock and however the session ends,
    [executeSession] adds, removes and reorders no record, changes no id,
    name, code or server, touches no record with another id, and leaves the
    schedule alone. *)
Theorem executeSession_keeps_records i w :
  let out := executeSession clock decrypt runSession i w in
  Forall2 (keptBy i) (accounts w) (accounts (snd out))
  /\ List.length (accounts (snd out)) = List.length (accounts w)
  /\ settings (snd out) = settings w.
Proof.
  intros out. subst out.
  assert (K : Forall2 (keptBy i) (accounts w) (accounts (snd (exec i w)))
              /\ settings (snd (exec i w)) = settings w).
  { destruct (isRunning w) eqn:L.
    - rewrite executeSession_locked by exact L. split; [apply keptBy_refl | reflexivity].
    - destruct (executeSession_effect clock decrypt runSession i w L)
        as (r & l & evs & c & s & E & _ & Hl).
      rewrite E. simpl. split; [|reflexivity].
      destruct Hl as [->|(st & lr & -> & _)];
        [apply keptBy_refl | apply assignFirst_keptBy]. }
  destruct K as [K S]. split; [exact K|]. split; [|exact S].
  symmetry. eapply Forall2_length, K.
Qed.

End SessionLaws.

(** ** What a tick leaves alone *)

Lemma Forall2_sameIdentity_refl l : Forall2 sameIdentity l l.
Proof. induction l; constructor; auto using sameIdentity_refl. Qed.

Section TickLaws.

Variable tzOffset : Z.
Variable clock : nat -> Date.
Variable decrypt : string -> Completion string.
Variable runSession : nat -> DecryptedAccount -> Completion Session.result.

Local Abbreviation batch := (runBatch tzOffset clock decrypt runSession).
Local Abbreviation tick := (checkAndRun tzOffset clock decrypt runSession).

(** The loop keeps the records and the schedule, and when none of its
    sessions succeeds it changes nothing but statuses. *)
Lemma runBatch_frame e cands :
  forall w, isRunning w = false ->
  exists rs w',
    batch e cands w = (Normal rs, w')
    /\ isRunning w' = false
    /\ settings w' = settings w
    /\ Forall2 sameIdentity (accounts w) (accounts w')
    /\ (Forall (fun r => success r = false) rs ->
        Forall2 sameButStatus (accounts w) (accounts w')).
Proof.
  induction cands as [|c cands IH]; intros w Hfree.
  - exists [], w. repeat split; auto.
    + apply Forall2_sameIdentity_refl.
    + intros _. apply Forall2_sameButStatus_refl.
  - rewrite runBatch_cons.
    destruct (_ >=? e).
    { eexists _, _. split; [reflexivity|]. repeat split; auto.
      - apply Forall2_sameIdentity_refl.
      - intros _. apply Forall2_sameButStatus_refl. }
    destruct (executeSession_effect clock decrypt runSession (id c)
                (afterClockRead w) Hfree)
      as (r & l & evs & n & s & E & _ & Hl).
    rewrite E. simpl in Hl.
    assert (I : Forall2 sameIdentity (accounts w) l).
    { destruct Hl as [->|(st & lr & -> & _)].
      - apply Forall2_sameIdentity_refl.
      - apply assignFirst_sameIdentity. }
    assert (F : success r = false -> Forall2 sameButStatus (accounts w) l).
    { intros Hr. destruct Hl as [->|(st & lr & -> & Hlr)].
      - apply Forall2_sameButStatus_refl.
      - rewrite (Hlr Hr). apply assignFirst_sameButStatus. }
    destruct (isBusy r) eqn:B.
    { eexists _, _. split; [reflexivity|]. repeat split; auto.
      intros Hrs. apply F. now inversion Hrs. }
    destruct (IH (mkWorld l (settings (afterClockRead w)) false
                    (evs ++ events (afterClockRead w))
                    (n + clockReads (afterClockRead w))
                    (s + sessions (afterClockRead w))) eq_refl)
      as (rs & w' & E' & L' & S' & I' & F').
    rewrite E'. eexists _, _. split; [reflexivity|].
    split; [exact L'|]. split; [exact S'|]. split.
    + eapply Forall2_trans; [apply sameIdentity_trans | exact I | exact I'].
    + intros Hrs. inversion Hrs; subst.
      eapply Forall2_trans; [apply sameButStatus_trans | apply F | apply F']; auto.
Qed.

Lemma checkAndRun_frame_aux w :
  exists rs w',
    tick w = (Normal rs, w')
    /\ isRunning w' = isRunning w
    /\ settings w' = settings w
    /\ Forall2 sameIdentity (accounts w) (accounts w')
    /\ (Forall (fun r => success r = false) rs ->
        Forall2 sameButStatus (accounts w) (accounts w')).
Proof.
  pose proof (Forall2_sameIdentity_refl (accounts w)) as Rf.
  destruct (isRunning w) eqn:L.
  { rewrite checkAndRun_locked by exact L. eexists _, _.
    split; [reflexivity|]. repeat split; auto using Forall2_sameButStatus_refl. }
  rewrite checkAndRun_free by exact L.
  destruct (isActiveTime _ _ _).
  2:{ eexists _, _. split; [reflexivity|].
      repeat split; auto using Forall2_sameButStatus_refl. }
  destruct (pendingAccounts _ _) as [|c cands].
  { eexists _, _. split; [reflexivity|].
    repeat split; auto using Forall2_sameButStatus_refl. }
  destruct (runBatch_frame (scheduleEnd (scheduleOf w)) (c :: cands) (atBatchStart w) L)
    as (rs & w' & E & L' & S' & I' & F').
  rewrite E. eexists _, _. split; [reflexivity|].
  rewrite L'. repeat split; auto.
Qed.

(** X20.  A tick in which no session succeeds changes nothing but
    statuses: every [lastRun] is as before, so for every date the pending
    accounts after the tick are the pending accounts before it, in the same
    order. *)
Theorem checkAndRun_without_success w rs w' :
  checkAndRun tzOffset clock decrypt runSession w = (Normal rs, w') ->
  Forall (fun r => success r = false) rs ->
  Forall2 sameButStatus (accounts w) (accounts w')
  /\ forall today,
       Forall2 sameButStatus (pendingAccounts today (accounts w))
                             (pendingAccounts today (accounts w')).
Proof.
  intros Htick Hrs.
  destruct (checkAndRun_frame_aux w) as (rs0 & w0 & E & _ & _ & _ & F).
  rewrite E in Htick. injection Htick as -> ->.
  split; [now apply F|].
  intros today. apply pendingAccounts_sameButStatus. now apply F.
Qed.

End TickLaws.

(** ** Stores with distinct ids *)

Lemma assignFirst_at a st lr front rest :
  (forall b, In b front -> id b <> id a) ->
  assignFirst (id a) st lr (front ++ a :: rest) = front ++ assign st lr a :: rest.
Proof.
  intros H. rewrite assignFirst_app_back.
  - simpl. assert (E : hasId (id a) a = true) by now apply hasId_eq.
    now rewrite E.
  - induction front as [|b front IH]; simpl; [reflexivity|].
    destruct (hasId (id a) b) eqn:E.
    + apply hasId_eq in E. exfalso. apply (H b); [now left | exact E].
    + apply IH. intros b' Hb'. apply H. now right.
Qed.

Lemma find_at a front rest :
  (forall b, In b front -> id b <> id a) ->
  find (hasId (id a)) (front ++ a :: rest) = Some a.
Proof.
  intros H. rewrite find_app_fresh by exact H. simpl.
  assert (E : hasId (id a) a = true) by now apply hasId_eq.
  now rewrite E.
Qed.

Lemma NoDup_ids_front a front rest :
  NoDup (map id (front ++ a :: rest)) ->
  forall b, In b front -> id b <> id a.
Proof.
  rewrite map_app. simpl. intros H b Hb E.
  apply NoDup_remove_2 in H. apply H. apply in_or_app. left.
  rewrite <- E. now apply in_map.
Qed.

(** ** A day on which every session succeeds *)

(** A record after a tick on which every session succeeded: a record that
    was pending is [idle] with a last run on that date, another is
    untouched. *)
Definition ranToday (today : CalendarDate) (a a' : Account) : Prop :=
  sameIdentity a a'
  /\ if isPending today a
     then status a' = idle
          /\ exists t, lastRun a' = Some t /\ toISODate t = today
     else a' = a.

Lemma ranToday_not_pending today l l' :
  Forall2 (ranToday today) l l' -> pendingAccounts today l' = [].
Proof.
  induction 1 as [|a a' l l' (_ & H) _ IH]; simpl; [reflexivity|].
  destruct (isPending today a) eqn:P.
  - destruct H as (_ & t & Ht & Hd). unfold isPending at 1. rewrite Ht, Hd.
    rewrite CalendarDate_eqb_refl. exact IH.
  - subst a'. now rewrite P.
Qed.

Section GoodDayTick.

Variable tzOffset : Z.
Variable clock : nat -> Date.
Variable decrypt : string -> Completion string.
Variable runSession : nat -> DecryptedAccount -> Completion Session.result.

(** X23.  The loop cannot tell a thrown fault whose message is BUSY from
    the BUSY signal: when the runner throws it for a candidate, the batch
    stops there with one result, the later candidates are not attempted, and
    the record of that candidate is left [running]. *)
Theorem runBatch_thrown_busy_stops e c rest w a code :
  isRunning w = false ->
  getHours tzOffset (clock (clockReads w)) < e ->
  find (hasId (id c)) (accounts w) = Some a ->
  decrypt (encryptedCode a) = Normal code ->
  runSession (sessions w) (mkDecrypted a code) = Throw "BUSY"%string ->
  let out := runBatch tzOffset clock decrypt runSession e (c :: rest) w in
  fst out = Normal [mkResult false (Some "BUSY"%string)]
  /\ sessions (snd out) = S (sessions w)
  /\ isRunning (snd out) = false
  /\ option_map status (find (hasId (id c)) (accounts (snd out))) = Some running.
Proof.
  intros Hfree Hhour Hfind Hcode Hrun out. subst out.
  rewrite runBatch_cons.
  destruct (Z.geb_spec (getHours tzOffset (clock (clockReads w))) e); [lia|].
  erewrite executeSession_runner_throws by eassumption. simpl.
  repeat split. erewrite find_assignFirst by eassumption. reflexivity.
Qed.

(** X24.  When [db.data.settings] is missing, a tick that finds the lock
    free uses the hours 10 and 20: from hour 10 up to hour 19 it goes on to
    the accounts, and at any other hour it stops after reading the schedule,
    with no account read and no session run. *)
Theorem checkAndRun_default_schedule w :
  settings w = None ->
  isRunning w = false ->
  checkAndRun tzOffset clock decrypt runSession w
  = if (10 <=? tickHour tzOffset clock w) && (tickHour tzOffset clock w <? 20)
    then runBatch tzOffset clock decrypt runSession 20
                  (pendingAccounts (tickToday clock w) (accounts w)) (atBatchStart w)
    else (Normal [], atWindowCheck w).
Proof.
  intros Hnone Hfree. rewrite checkAndRun_free by exact Hfree.
  unfold scheduleOf. rewrite Hnone. simpl. unfold isActiveTime. simpl.
  rewrite Z.geb_leb.
  destruct ((10 <=? _) && (_ <? 20)); [|reflexivity].
  destruct (pendingAccounts _ _); reflexivity.
Qed.

End GoodDayTick.

(** ** The report and the scheduler *)

(** X25.  The report and the scheduler agree for every date: an account
    that the report counts as completed is not pending, and one that it
    counts as not run is pending.  An account counted as failed is pending
    unless its last run falls on that date: a failure that follows a success
    of the same day is reported but not retried that day. *)
Theorem report_agrees_with_scheduler today l :
  let r := categorize today l in
  successful r = map name (filter (fun a => isCompleted today a
                                            && negb (isPending today a)) l)
  /\ pending r = map name (filter (fun a => isNotRun today a && isPending today a) l)
  /\ failed r = map name (filter isFailed l)
  /\ forall a, isFailed a = true -> isPending today a = negb (ranOn today a).
Proof.
  intros r. unfold r, categorize. rewrite categorize_from. simpl.
  assert (C : forall a, isCompleted today a && negb (isPending today a)
                        = isCompleted today a).
  { intros a. unfold isCompleted, isPending.
    destruct (lastRun a); simpl; [|reflexivity].
    destruct (CalendarDate_eqb _ _); simpl; [|reflexivity].
    now rewrite andb_true_r. }
  assert (N : forall a, isNotRun today a && isPending today a = isNotRun today a).
  { intros a. unfold isNotRun, isCompleted, isFailed, isPending.
    destruct (lastRun a); simpl.
    - destruct (CalendarDate_eqb _ _); simpl;
        destruct (Status_eqb (status a) error); reflexivity.
    - now rewrite andb_true_r. }
  split; [|split; [|split]].
  - f_equal. apply filter_ext. intros a. now rewrite C.
  - f_equal. apply filter_ext. intros a. now rewrite N.
  - reflexivity.
  - intros a _. unfold isPending, ranOn. now destruct (lastRun a).
Qed.

(** X26.  Two reports in a row on the same UTC date send the same text,
    and the store is as it was before the first. *)
Theorem generateDailyReport_twice (clock : nat -> Date) (w : World) :
  toISODate (clock (clockReads w)) = toISODate (clock (S (clockReads w))) ->
  let w2 := snd (generateDailyReport clock (snd (generateDailyReport clock w))) in
  exists text,
    events w2
    = SendLog text "info"%string :: DbRead
      :: SendLog text "info"%string :: DbRead :: events w
    /\ accounts w2 = accounts w
    /\ snapshots (events w2) = snapshots (events w).
Proof.
  intros Hday w2. subst w2.
  unfold generateDailyReport, getAccounts, newDate, sendLog, emit, bind. simpl.
  rewrite <- Hday. eexists. repeat split.
Qed.

(** ** The commands *)

Section CommandLaws.

Variable clock : nat -> Date.
Variable encrypt : nat -> string -> string.
Variable decrypt : string -> Completion string.
Variable runSession : nat -> DecryptedAccount -> Completion Session.result.

Local Abbreviation exec := (executeSession clock decrypt runSession).

(** X28.  [force_run] for a name that no record has answers "not found"
    after one read of the store; no session starts. *)
Theorem forceRunCommand_unknown_name n w :
  (forall a, In a (accounts w) -> name a <> n) ->
  forceRunCommand clock decrypt runSession n w
  = (Normal [Reply ("Account **" ++ n ++ "** not found.")%string true],
     mkWorld (accounts w) (settings w) (isRunning w) (DbRead :: events w)
             (clockReads w) (sessions w)).
Proof.
  intros Hnone. unfold forceRunCommand, getAccounts, bind, emit, ret. simpl.
  destruct (find (hasName n) (accounts w)) as [a|] eqn:F; [|reflexivity].
  exfalso. apply (Hnone a); [eapply find_some; exact F|].
  apply find_some in F. now apply hasName_eq.
Qed.

(** X29.  [force_run] while a session holds the lock answers that the
    session starts and then that it failed because the bot is already
    running one; but for the read of the store the world is as before. *)
Theorem forceRunCommand_during_session n w a :
  isRunning w = true ->
  find (hasName n) (accounts w) = Some a ->
  forceRunCommand clock decrypt runSession n w
  = (Normal [Reply ("Starting session for **" ++ n
                      ++ "**... Check console/logs for progress.")%string false;
             FollowUp ("Session for **" ++ n
                         ++ "** failed: Bot is already running a session.")%string],
     mkWorld (accounts w) (settings w) true (DbRead :: events w)
             (clockReads w) (sessions w)).
Proof.
  intros Hlock Hfind. unfold forceRunCommand, getAccounts, bind, emit, ret. simpl.
  rewrite Hfind. rewrite executeSession_locked by exact Hlock.
  simpl. now rewrite Hlock.
Qed.

End CommandLaws.

(** ** Sessions that cannot start *)

Section CannotStart.

Variable tzOffset : Z.
Variable clock : nat -> Date.
Variable decrypt : string -> Completion string.
Variable runSession : nat -> DecryptedAccount -> Completion Session.result.

Local Abbreviation batch := (runBatch tzOffset clock decrypt runSession).

(** X17.  A removed account cannot be run any more: after
    [removeAccount], a session for the id of a removed record, when no
    record that stays has that id, fails with "Account not found"; it
    notifies nothing, writes nothing and does not call the runner. *)
Theorem executeSession_after_removeAccount n w a :
  isRunning w = false ->
  In a (accounts w) ->
  name a = n ->
  (forall b, In b (accounts w) -> id b = id a -> name b = n) ->
  let w1 := snd (removeAccount n w) in
  executeSession clock decrypt runSession (id a) w1
  = (Normal (mkResult false (Some "Account not found"%string)),
     mkWorld (accounts w1) (settings w1) false (DbRead :: events w1)
             (clockReads w1) (sessions w1)).
Proof.
  intros Hfree Hin Hname Hids w1.
  apply executeSession_not_found; [exact Hfree|].
  destruct (find (hasId (id a)) (accounts w1)) as [b|] eqn:F; [|reflexivity].
  exfalso. pose proof (find_hasId_id _ _ _ F) as Hb.
  apply find_some in F as [Hbin _].
  subst w1. unfold removeAccount, bind, emit, written in Hbin. simpl in Hbin.
  apply filter_In in Hbin as [Hbin Hbn]. apply hasName_neq in Hbn.
  apply Hbn. now apply Hids.
Qed.

Section WrongKey.

Variables (e : Z) (m : string).
Hypothesis before_end : forall n, getHours tzOffset (clock n) < e.
Hypothesis decrypt_throws : forall s, decrypt s = Throw m.
Hypothesis not_busy : m <> "BUSY"%string.

Lemma runBatch_wrong_key cands :
  forall w,
    isRunning w = false ->
    (forall c, In c cands -> existsb (hasId (id c)) (accounts w) = true) ->
    exists w',
      batch e cands w
      = (Normal (repeat (mkResult false (Some m)) (List.length cands)), w')
      /\ accounts w' = accounts w
      /\ isRunning w' = false
      /\ sessions w' = sessions w
      /\ snapshots (events w') = snapshots (events w)
      /\ runnerCalls (events w') = runnerCalls (events w).
Proof.
  induction cands as [|c cands IH]; intros w Hfree Hids.
  - exists w. repeat split; auto.
  - rewrite runBatch_cons.
    destruct (Z.geb_spec (getHours tzOffset (clock (clockReads w))) e) as [G|_];
      [specialize (before_end (clockReads w)); lia|].
    destruct (existsb_hasId_find (id c) (accounts w)) as (a & Hfind);
      [apply Hids; now left|].
    rewrite (executeSession_decrypt_throws clock decrypt runSession (id c)
               (afterClockRead w) a m Hfree Hfind (decrypt_throws _)).
    assert (B : isBusy (mkResult false (Some m)) = false)
      by (unfold isBusy; simpl; now apply String.eqb_neq).
    rewrite B.
    edestruct IH as (w' & E & A & L & S & W & R); [| |rewrite E].
    + reflexivity.
    + intros c' Hc'. simpl. apply Hids. now right.
    + exists w'. split; [reflexivity|]. simpl in *. repeat split; auto.
Qed.

End WrongKey.

(** X18.  With a key under which no stored code decrypts (every
    decryption throws, with a message other than BUSY), a tick inside the
    active hours goes through all pending accounts and fails each with that
    message: it never calls the runner, writes nothing, and leaves every
    record, status included, as it was. *)
Theorem checkAndRun_wrong_key w m :
  isRunning w = false ->
  isActiveTime (scheduleStart (scheduleOf w)) (scheduleEnd (scheduleOf w))
               (tickHour tzOffset clock w) = true ->
  (forall n, getHours tzOffset (clock n) < scheduleEnd (scheduleOf w)) ->
  (forall s, decrypt s = Throw m) ->
  m <> "BUSY"%string ->
  let candidates := pendingAccounts (tickToday clock w) (accounts w) in
  exists w',
    checkAndRun tzOffset clock decrypt runSession w
    = (Normal (repeat (mkResult false (Some m)) (List.length candidates)), w')
    /\ accounts w' = accounts w
    /\ sessions w' = sessions w
    /\ snapshots (events w') = snapshots (events w)
    /\ runnerCalls (events w') = runnerCalls (events w).
Proof.
  intros Hfree Hact Hhours Hdec Hm candidates.
  rewrite checkAndRun_free by exact Hfree. rewrite Hact. fold candidates.
  destruct (runBatch_wrong_key _ m Hhours Hdec Hm candidates (atBatchStart w) Hfree)
    as (w' & E & A & _ & S & W & R).
  { intros c Hc. apply filter_In in Hc as [Hc _].
    apply existsb_exists. exists c. split; [exact Hc | now apply hasId_eq]. }
  destruct candidates; [|exists w'; repeat split; auto].
  injection E as <-. exists (atBatchStart w). repeat split.
Qed.

End CannotStart.

(** * The further laws at sample inputs *)

Lemma toyCipher_round_trip n text : toyDecrypt (toyEncrypt n text) = Normal text.
Proof. reflexivity. Qed.

Lemma toyEncrypt_changes n text : toyEncrypt n text <> text.
Proof.
  intros H. apply (f_equal String.length) in H. unfold toyEncrypt in H.
  simpl in H. lia.
Qed.

Lemma noon_before_20 : forall n : nat, getHours 0 ((fun _ => instant 2024 1 2 12 0) n) < 20.
Proof. intros n. vm_compute. reflexivity. Qed.

Lemma noon_same_day :
  forall n : nat, toISODate ((fun _ => instant 2024 1 2 12 0) n) = mkCalendarDate 2024 1 2.
Proof. intros n. vm_compute. reflexivity. Qed.

Lemma plainDecrypt_total : forall s, exists c, plainDecrypt s = Normal c.
Proof. intros s. now exists s. Qed.

Lemma sample_ids_distinct : NoDup (map id [alice; bob; carol]).
Proof.
  repeat constructor; simpl; intros H;
    repeat (destruct H as [H|H]; [discriminate H|]); exact H.
Qed.

(** Two accounts added in the same millisecond. *)
Lemma addAccount_collision_hides_second_witness :
  let clock := fun _ : nat => instant 2024 1 2 12 0 in
  let out1 := addAccount clock "dave" "c1" "E-15" (freshWorld [alice] None) in
  let out2 := addAccount clock "erin" "c2" "E-16" (snd out1) in
  exists i,
    fst out2 = Normal i
    /\ List.length (accounts (snd out2)) = 3%nat
    /\ find (hasId i) (accounts (snd out2))
       = Some (mkAccount i "dave" "c1" "E-15" None idle).
Proof.
  intros clock out1 out2.
  apply (addAccount_collision_hides_second clock "dave" "c1" "E-15" "erin" "c2" "E-16"
           (freshWorld [alice] None)).
  - reflexivity.
  - intros a [<-|[]]. vm_compute. discriminate.
Defined.

(** Adding dave and removing him again. *)
Lemma add_then_remove_witness :
  let clock := fun _ : nat => instant 2024 1 2 12 0 in
  let added := snd (addAccount clock "dave" "c1" "E-15" (freshWorld [alice; bob] None)) in
  fst (removeAccount "dave" added) = Normal true
  /\ accounts (snd (removeAccount "dave" added)) = [alice; bob].
Proof.
  intros clock added.
  apply (add_then_remove clock "dave" "c1" "E-15" (freshWorld [alice; bob] None)).
  intros a [<-|[<-|[]]]; discriminate.
Defined.

Lemma parseHour_hourText_witness :
  0 <= 8 <= 23 /\ parseHour (hourText 8) = Some 8 /\ String.length (hourText 8) = 5%nat.
Proof. split; [lia | apply (parseHour_hourText 8); lia]. Defined.

Lemma setScheduleCommand_stores_witness :
  let out := setScheduleCommand 22 8 (freshWorld [alice] None) in
  fst (getSchedule (snd out)) = Normal (mkSchedule 22 8)
  /\ accounts (snd out) = [alice].
Proof.
  intros out.
  destruct (setScheduleCommand_stores 22 8 (freshWorld [alice] None)) as (_ & G & A & _);
    [lia | lia |].
  split; [exact G | exact A].
Defined.

Lemma setScheduleCommand_rejects_witness :
  setScheduleCommand 24 8 (freshWorld [alice] (Some (mkSchedule 10 20)))
  = (Normal [Reply "Hours must be between 0 and 23."%string true],
     freshWorld [alice] (Some (mkSchedule 10 20))).
Proof. apply setScheduleCommand_rejects. right. left. lia. Defined.

(** The schedule set to 10 and 20, then a tick at hour 9. *)
Lemma checkAndRun_after_setSchedule_witness :
  let clock := fun _ : nat => instant 2024 1 2 9 0 in
  let w' := snd (setScheduleCommand 10 20 (freshWorld [alice] (Some (mkSchedule 0 23)))) in
  checkAndRun 0 clock plainDecrypt alwaysSucceeds w' = (Normal [], atWindowCheck w').
Proof.
  intros clock w'.
  pose proof (checkAndRun_after_setSchedule 0 clock plainDecrypt alwaysSucceeds 10 20
                (freshWorld [alice] (Some (mkSchedule 0 23)))) as H.
  apply H; [lia | lia | reflexivity].
Defined.

(** A store with one plain code and one encrypted code. *)
Lemma migrate_keeps_credentials_witness :
  let a := mkAccount "1" "alice" "code-a" "E-15" None idle in
  let b := mkAccount "2" "bob" (toyEncrypt 7 "code-b") "E-15" None idle in
  let w := freshWorld [a; b] None in
  Forall2 (fun x x' =>
             toyDecrypt (encryptedCode x')
             = if isEncrypted toyDecrypt (encryptedCode x)
               then toyDecrypt (encryptedCode x)
               else Normal (encryptedCode x))
          (accounts w) (accounts (snd (migrateUnencryptedCodes toyEncrypt toyDecrypt w))).
Proof.
  intros a b w.
  apply (migrate_keeps_credentials toyEncrypt toyDecrypt toyCipher_round_trip w).
Defined.

Lemma migrate_twice_witness :
  let a := mkAccount "1" "alice" "code-a" "E-15" None idle in
  let b := mkAccount "2" "bob" (toyEncrypt 7 "code-b") "E-15" None idle in
  let w1 := snd (migrateUnencryptedCodes toyEncrypt toyDecrypt (freshWorld [a; b] None)) in
  fst (migrateUnencryptedCodes toyEncrypt toyDecrypt w1) = Normal 0%nat.
Proof.
  intros a b w1.
  assert (H : forall x, In x (accounts (freshWorld [a; b] None)) ->
                        encryptedCode x <> EmptyString)
    by (intros x [<-|[<-|[]]]; discriminate).
  pose proof (migrate_twice toyEncrypt toyDecrypt toyCipher_round_trip
                (freshWorld [a; b] None) toyEncrypt_changes H) as T.
  cbv zeta in T. subst w1. rewrite T. reflexivity.
Defined.

(** A record whose code is the cipher text of the empty text. *)
Lemma migrate_encrypts_empty_code_again_witness :
  let a := mkAccount "1" "alice" (toyEncrypt 0 EmptyString) "E-15" None idle in
  let w := freshWorld [a] None in
  isEncrypted toyDecrypt (encryptedCode a) = false
  /\ exists k, fst (migrateUnencryptedCodes toyEncrypt toyDecrypt w) = Normal (S k).
Proof.
  intros a w.
  destruct (migrate_encrypts_empty_code_again toyEncrypt toyDecrypt toyCipher_round_trip
              w a 0%nat) as (E & K & _).
  - now left.
  - reflexivity.
  - split; [exact E | exact K].
Defined.

(** Bob removed, then a session for his id. *)
Lemma executeSession_after_removeAccount_witness :
  let w1 := snd (removeAccount "bob" (freshWorld [alice; bob] None)) in
  accounts w1 = [alice]
  /\ fst (executeSession (fun _ => instant 2024 1 2 12 0) plainDecrypt alwaysSucceeds
                         "2"%string w1)
     = Normal (mkResult false (Some "Account not found"%string)).
Proof.
  intros w1. split; [reflexivity|].
  pose proof (executeSession_after_removeAccount (fun _ => instant 2024 1 2 12 0)
                plainDecrypt alwaysSucceeds "bob" (freshWorld [alice; bob] None) bob
                eq_refl) as H.
  cbv zeta in H. subst w1. change "2"%string with (id bob). rewrite H.
  - reflexivity.
  - right. now left.
  - reflexivity.
  - intros b [<-|[<-|[]]]; [discriminate | reflexivity].
Defined.

(** A tick at noon with a key that decrypts nothing. *)
Lemma checkAndRun_wrong_key_witness :
  let clock := fun _ : nat => instant 2024 1 2 12 0 in
  let w := freshWorld [alice; bob] None in
  exists w',
    checkAndRun 0 clock (fun _ => Throw "Malformed UTF-8 data"%string) alwaysSucceeds w
    = (Normal [mkResult false (Some "Malformed UTF-8 data"%string);
               mkResult false (Some "Malformed UTF-8 data"%string)], w')
    /\ accounts w' = [alice; bob]
    /\ sessions w' = 0%nat.
Proof.
  intros clock w.
  destruct (checkAndRun_wrong_key 0 clock (fun _ => Throw "Malformed UTF-8 data"%string)
              alwaysSucceeds w "Malformed UTF-8 data"%string)
    as (w' & E & A & S & _).
  - reflexivity.
  - vm_compute. reflexivity.
  - exact noon_before_20.
  - reflexivity.
  - discriminate.
  - exists w'. split; [exact E|]. split; [exact A | exact S].
Defined.

(** A tick at noon on which every session fails on the restore code. *)
Lemma checkAndRun_without_success_witness :
  let clock := fun _ : nat => instant 2024 1 2 12 0 in
  let w := freshWorld [alice; bob] None in
  let out := checkAndRun 0 clock plainDecrypt (alwaysFails "Invalid restore code") w in
  List.length (pendingAccounts (toISODate (clock 0%nat)) (accounts (snd out))) = 2%nat.
Proof.
  intros clock w out.
  assert (E : out = (fst out, snd out)) by (now destruct out).
  assert (R : fst out = Normal [mkResult false (Some "Invalid restore code"%string);
                                mkResult false (Some "Invalid restore code"%string)])
    by (vm_compute; reflexivity).
  rewrite R in E.
  destruct (checkAndRun_without_success 0 clock plainDecrypt
              (alwaysFails "Invalid restore code") w _ _ E) as (_ & P).
  - repeat constructor.
  - specialize (P (toISODate (clock 0%nat))).
    apply Forall2_length in P. rewrite <- P. vm_compute. reflexivity.
Defined.

(** A runner that throws an error whose message is BUSY. *)
Lemma runBatch_thrown_busy_stops_witness :
  let clock := fun _ : nat => instant 2024 1 2 12 0 in
  let out := runBatch 0 clock plainDecrypt (fun _ _ => Throw "BUSY"%string) 20
                      [alice; bob] (freshWorld [alice; bob] None) in
  fst out = Normal [mkResult false (Some "BUSY"%string)]
  /\ sessions (snd out) = 1%nat
  /\ map status (accounts (snd out)) = [running; idle].
Proof.
  intros clock out.
  destruct (runBatch_thrown_busy_stops 0 clock plainDecrypt
              (fun _ _ => Throw "BUSY"%string) 20 alice [bob]
              (freshWorld [alice; bob] None) alice "enc-alice"%string)
    as (R & S & _).
  - reflexivity.
  - vm_compute. reflexivity.
  - reflexivity.
  - reflexivity.
  - reflexivity.
  - split; [exact R|]. split; [exact S|]. vm_compute. reflexivity.
Defined.

(** No stored settings, a tick at hour 21. *)
Lemma checkAndRun_default_schedule_witness :
  let clock := fun _ : nat => instant 2024 1 2 21 0 in
  let w := freshWorld [alice] None in
  checkAndRun 0 clock plainDecrypt alwaysSucceeds w = (Normal [], atWindowCheck w).
Proof.
  intros clock w.
  rewrite (checkAndRun_default_schedule 0 clock plainDecrypt alwaysSucceeds w
             eq_refl eq_refl).
  vm_compute. reflexivity.
Defined.

Lemma generateDailyReport_twice_witness :
  let clock := fun _ : nat => instant 2024 1 2 14 30 in
  let w := freshWorld [alice; bob] None in
  let w2 := snd (generateDailyReport clock (snd (generateDailyReport clock w))) in
  exists text,
    events w2 = [SendLog text "info"%string; DbRead; SendLog text "info"%string; DbRead]
    /\ accounts w2 = [alice; bob]
    /\ snapshots (events w2) = [].
Proof.
  intros clock w w2.
  apply (generateDailyReport_twice clock w). reflexivity.
Defined.

Lemma forceRunCommand_unknown_name_witness :
  fst (forceRunCommand (fun _ => instant 2024 1 2 12 0) plainDecrypt alwaysSucceeds
                       "dave" (freshWorld [alice; bob] None))
  = Normal [Reply "Account **dave** not found."%string true].
Proof.
  rewrite (forceRunCommand_unknown_name (fun _ => instant 2024 1 2 12 0) plainDecrypt
             alwaysSucceeds "dave" (freshWorld [alice; bob] None)).
  - reflexivity.
  - intros a [<-|[<-|[]]]; discriminate.
Defined.

Lemma forceRunCommand_during_session_witness :
  let w := mkWorld [alice; bob] None true [] 0 0 in
  snd (forceRunCommand (fun _ => instant 2024 1 2 12 0) plainDecrypt alwaysSucceeds
                       "bob" w)
  = mkWorld [alice; bob] None true [DbRead] 0 0.
Proof.
  intros w.
  rewrite (forceRunCommand_during_session (fun _ => instant 2024 1 2 12 0) plainDecrypt
             alwaysSucceeds "bob" w bob eq_refl eq_refl).
  reflexivity.
Defined.

(** * The orchestrator in full: properties *)

(** ** The lengths of the notifications *)

Lemma utf16Units_nonneg c : 0 <= Full.utf16Units c.
Proof.
  unfold Full.utf16Units.
  repeat match goal with |- context [if ?b then _ else _] => destruct b end; lia.
Qed.

Lemma jsLength_nonneg s : 0 <= Full.jsLength s.
Proof.
  induction s as [|c s IH]; simpl; [lia|].
  pose proof (utf16Units_nonneg c). lia.
Qed.

Lemma jsLength_app s t :
  Full.jsLength (s ++ t)%string = Full.jsLength s + Full.jsLength t.
Proof. induction s as [|c s IH]; simpl; [reflexivity | rewrite IH; lia]. Qed.

(** The start notification is 31 code units longer than the name, the
    success notification 42, and a failure notification 27 longer than name
    and reason together. *)
Lemma jsLength_startText n :
  Full.jsLength (Full.startText n) = Full.jsLength n + 31.
Proof.
  unfold Full.startText. rewrite !jsLength_app.
  change (Full.jsLength "▶️ Starting session for **") with 26.
  change (Full.jsLength "**...") with 5. lia.
Qed.

Lemma jsLength_successText n :
  Full.jsLength (Full.successText n) = Full.jsLength n + 42.
Proof.
  unfold Full.successText. rewrite !jsLength_app.
  change (Full.jsLength "✅ Session for **") with 16.
  change (Full.jsLength "** completed successfully!") with 26. lia.
Qed.

Lemma jsLength_failureText n reason :
  Full.jsLength (Full.failureText n reason)
  = Full.jsLength n + 27 + Full.jsLength (reasonText reason).
Proof.
  unfold Full.failureText. rewrite !jsLength_app.
  change (Full.jsLength "❌ Session for **") with 16.
  change (Full.jsLength "** failed: ") with 11. lia.
Qed.

Lemma refused_short channel k text :
  1 <= Full.jsLength text <= Full.descriptionLimit ->
  Full.refused channel k text = false.
Proof.
  intros H. unfold Full.refused.
  destruct (Z.ltb_spec Full.descriptionLimit (Full.jsLength text)); [lia|].
  destruct (Z.ltb_spec (Full.jsLength text) 1); [lia|].
  apply andb_false_r.
Qed.

(** A name of at most 4065 code units: the start notification is sent.  At
    most 4054: the success notification too. *)
Lemma startText_sent channel k n :
  Full.jsLength n <= 4065 -> Full.refused channel k (Full.startText n) = false.
Proof.
  intros H. apply refused_short. rewrite jsLength_startText.
  pose proof (jsLength_nonneg n). unfold Full.descriptionLimit. lia.
Qed.

Lemma successText_sent channel k n :
  Full.jsLength n <= 4054 -> Full.refused channel k (Full.successText n) = false.
Proof.
  intros H. apply refused_short. rewrite jsLength_successText.
  pose proof (jsLength_nonneg n). unfold Full.descriptionLimit. lia.
Qed.

Lemma refused_noChannel k text : Full.refused Full.noChannel k text = false.
Proof. reflexivity. Qed.

Lemma refused_long k text :
  Full.descriptionLimit < Full.jsLength text ->
  Full.refused Full.withChannel k text = true.
Proof.
  intros H. unfold Full.refused, Full.withChannel. simpl.
  apply Z.ltb_lt in H. rewrite H. apply orb_true_r.
Qed.

(** ** The paths of a session *)

Ltac unfold_full :=
  unfold Full.executeSession, Full.tryCatchFinally, Full.sendLog, Full.callRunSession,
    Full.lift, Full.ret, Full.throw, Full.alone,
    getIsRunning, getAccountDecrypted, newDate, emit, setIsRunning, Full.bind, bind.

Section FullOrchestrator.

Variable channel : nat -> bool.
Variable embedError : string.
Variable clock : nat -> Date.
Variable decrypt : string -> Completion string.
Variable runSession : nat -> DecryptedAccount -> Full.Outcome Session.result.

Local Abbreviation run := (Full.executeSession channel embedError clock decrypt runSession).
Local Abbreviation nay := (Full.refused channel).

Lemma full_locked during i w :
  isRunning w = true ->
  run during i w
  = (Full.Returned (mkResult false (Some "Bot is already running a session."%string)), w).
Proof.
  intros H. unfold_full. simpl. now rewrite H.
Qed.

Lemma full_not_found during i w :
  isRunning w = false ->
  find (hasId i) (accounts w) = None ->
  run during i w
  = (Full.Returned (mkResult false (Some "Account not found"%string)),
     mkWorld (accounts w) (settings w) false (DbRead :: events w)
             (clockReads w) (sessions w)).
Proof.
  intros H F. unfold_full. simpl. rewrite H. simpl. now rewrite F.
Qed.

Lemma full_decrypt_throws during i w a m :
  isRunning w = false ->
  find (hasId i) (accounts w) = Some a ->
  decrypt (encryptedCode a) = Throw m ->
  run during i w
  = (Full.Returned (mkResult false (Some m)),
     mkWorld (accounts w) (settings w) false (DbRead :: events w)
             (clockReads w) (sessions w)).
Proof.
  intros H F D. unfold_full. simpl. rewrite H. simpl. now rewrite F, D.
Qed.

Section Resolved.

Variables (i : string) (w : World) (a : Account) (c : string).
Hypothesis Hfree : isRunning w = false.
Hypothesis Hfind : find (hasId i) (accounts w) = Some a.
Hypothesis Hcode : decrypt (encryptedCode a) = Normal c.

Local Abbreviation acct := (mkDecrypted a c).
Local Abbreviation k0 := (Full.sendLogCalls (events w)).

(** The start notification is refused: the session ends before the record
    is touched and before the runner is called. *)
Lemma full_start_refused during :
  nay k0 (Full.startText (name a)) = true ->
  run during i w
  = (Full.Returned (mkResult false (Some embedError)),
     mkWorld (accounts w) (settings w) false
             (SendLog (Full.startText (name a)) "start"%string :: DbRead :: events w)
             (clockReads w) (sessions w)).
Proof.
  intros N. unfold_full. simpl. rewrite Hfree. simpl. rewrite Hfind, Hcode. simpl.
  now rewrite N.
Qed.

Hypothesis Hstart : nay k0 (Full.startText (name a)) = false.

(** The runner throws: the record stays [running], and the handler settles
    how the call ends. *)
Lemma full_runner_throws f :
  runSession (sessions w) acct = Full.Thrown f ->
  run Full.alone i w
  = (fst (Full.caught f w),
     mkWorld (assignFirst i running None (accounts w)) (settings w) false
             (startEvents i acct w ++ events w)
             (clockReads w) (S (sessions w))).
Proof.
  intros R. pose proof (find_hasId_id _ _ _ Hfind) as Hid.
  unfold_full. simpl. rewrite Hfree. simpl. rewrite Hfind, Hcode. simpl.
  rewrite Hstart, Hid. simpl.
  erewrite updateAccountStatus_found by (simpl; exact Hfind).
  simpl. rewrite R. destruct f; reflexivity.
Qed.

Lemma full_success r :
  runSession (sessions w) acct = Full.Returned r ->
  Session.success r = true ->
  nay (S k0) (Full.successText (name a)) = false ->
  run Full.alone i w
  = (Full.Returned (mkResult true None),
     let l := assignFirst i idle (Some (clock (clockReads w))) (accounts w) in
     mkWorld l (settings w) false
             (DbWrite l :: DbRead
              :: SendLog (Full.successText (name a)) "success"%string
              :: startEvents i acct w ++ events w)
             (S (clockReads w)) (S (sessions w))).
Proof.
  intros R S N. pose proof (find_hasId_id _ _ _ Hfind) as Hid.
  unfold_full. simpl. rewrite Hfree. simpl. rewrite Hfind, Hcode. simpl.
  rewrite Hstart, Hid. simpl.
  erewrite updateAccountStatus_found by (simpl; exact Hfind).
  simpl. rewrite R, S. simpl. rewrite N. simpl.
  erewrite updateAccountStatus_found
    by (simpl; apply find_assignFirst; exact Hfind).
  simpl. now rewrite assignFirst_twice.
Qed.

(** The runner succeeds and the success notification is refused: the
    record stays [running] and the call reports a failure. *)
Lemma full_success_refused r :
  runSession (sessions w) acct = Full.Returned r ->
  Session.success r = true ->
  nay (S k0) (Full.successText (name a)) = true ->
  run Full.alone i w
  = (Full.Returned (mkResult false (Some embedError)),
     mkWorld (assignFirst i running None (accounts w)) (settings w) false
             (SendLog (Full.successText (name a)) "success"%string
              :: startEvents i acct w ++ events w)
             (clockReads w) (S (sessions w))).
Proof.
  intros R S N. pose proof (find_hasId_id _ _ _ Hfind) as Hid.
  unfold_full. simpl. rewrite Hfree. simpl. rewrite Hfind, Hcode. simpl.
  rewrite Hstart, Hid. simpl.
  erewrite updateAccountStatus_found by (simpl; exact Hfind).
  simpl. rewrite R, S. simpl. now rewrite N.
Qed.

Lemma full_failure r :
  runSession (sessions w) acct = Full.Returned r ->
  Session.success r = false ->
  nay (S k0) (Full.failureText (name a) (Session.reason r)) = false ->
  run Full.alone i w
  = (Full.Returned (mkResult false (Some (failureMessage (Session.reason r)))),
     let l := assignFirst i error None (accounts w) in
     mkWorld l (settings w) false
             (DbWrite l :: DbRead
              :: SendLog (Full.failureText (name a) (Session.reason r)) "error"%string
              :: startEvents i acct w ++ events w)
             (clockReads w) (S (sessions w))).
Proof.
  intros R S N. pose proof (find_hasId_id _ _ _ Hfind) as Hid.
  unfold_full. simpl. rewrite Hfree. simpl. rewrite Hfind, Hcode. simpl.
  rewrite Hstart, Hid. simpl.
  erewrite updateAccountStatus_found by (simpl; exact Hfind).
  simpl. rewrite R, S. simpl. rewrite N. simpl.
  erewrite updateAccountStatus_found
    by (simpl; apply find_assignFirst; exact Hfind).
  simpl. rewrite assignFirst_twice.
  destruct (Session.reason r) as [s|]; simpl; [|reflexivity].
  destruct (String.eqb_spec s "BUSY"); [subst s|]; reflexivity.
Qed.

(** The runner fails and the failure notification is refused: the record
    stays [running]. *)
Lemma full_failure_refused r :
  runSession (sessions w) acct = Full.Returned r ->
  Session.success r = false ->
  nay (S k0) (Full.failureText (name a) (Session.reason r)) = true ->
  run Full.alone i w
  = (Full.Returned (mkResult false (Some embedError)),
     mkWorld (assignFirst i running None (accounts w)) (settings w) false
             (SendLog (Full.failureText (name a) (Session.reason r)) "error"%string
              :: startEvents i acct w ++ events w)
             (clockReads w) (S (sessions w))).
Proof.
  intros R S N. pose proof (find_hasId_id _ _ _ Hfind) as Hid.
  unfold_full. simpl. rewrite Hfree. simpl. rewrite Hfind, Hcode. simpl.
  rewrite Hstart, Hid. simpl.
  erewrite updateAccountStatus_found by (simpl; exact Hfind).
  simpl. rewrite R, S. simpl. now rewrite N.
Qed.

End Resolved.

End FullOrchestrator.

(** ** What a session may change, and how it can end *)

Section FullOrchestratorLaws.

Variable channel : nat -> bool.
Variable embedError : string.
Variable clock : nat -> Date.
Variable decrypt : string -> Completion string.
Variable runSession : nat -> DecryptedAccount -> Full.Outcome Session.result.

Local Abbreviation run := (Full.executeSession channel embedError clock decrypt runSession).
Local Abbreviation nay := (Full.refused channel).

(** A call that finds the lock free leaves it free, whether it returns or
    throws; it changes the store by at most one update of the first record
    with the given id, which sets [lastRun] only on success; and it throws
    only when the runner threw [null] or [undefined]. *)
Lemma full_effect i w :
  isRunning w = false ->
  exists o l evs c s,
    run Full.alone i w
    = (o, mkWorld l (settings w) false (evs ++ events w)
                  (c + clockReads w) (s + sessions w))
    /\ (s <= 1)%nat
    /\ (l = accounts w
        \/ exists st lr, l = assignFirst i st lr (accounts w)
                         /\ (lr = None \/ o = Full.Returned (mkResult true None)))
    /\ (forall f, o = Full.Thrown f ->
        exists a, runSession (sessions w) a = Full.Thrown Full.ThrownNull
                  \/ runSession (sessions w) a = Full.Thrown Full.ThrownUndefined).
Proof.
  intros Hfree.
  destruct (find (hasId i) (accounts w)) as [a|] eqn:Hfind.
  2:{ rewrite full_not_found by assumption.
      eexists _, (accounts w), [DbRead], 0%nat, 0%nat.
      split; [reflexivity | split; [lia | split; [now left | discriminate]]]. }
  destruct (decrypt (encryptedCode a)) as [c|m] eqn:Hcode.
  2:{ erewrite full_decrypt_throws by eassumption.
      eexists _, (accounts w), [DbRead], 0%nat, 0%nat.
      split; [reflexivity | split; [lia | split; [now left | discriminate]]]. }
  destruct (nay (Full.sendLogCalls (events w)) (Full.startText (name a))) eqn:Hstart.
  { erewrite full_start_refused by eassumption.
    eexists _, (accounts w), [_; _], 0%nat, 0%nat.
    split; [reflexivity | split; [lia | split; [now left | discriminate]]]. }
  destruct (runSession (sessions w) (mkDecrypted a c)) as [r|f] eqn:Hrun.
  2:{ erewrite full_runner_throws by eassumption.
      eexists _, (assignFirst i running None (accounts w)),
        (startEvents i (mkDecrypted a c) w), 0%nat, 1%nat.
      split; [reflexivity | split; [lia | split; [right; eauto|]]].
      intros f' E. exists (mkDecrypted a c). rewrite Hrun.
      destruct f; simpl in E; try discriminate E; auto. }
  destruct (Session.success r) eqn:Hs.
  - destruct (nay (S (Full.sendLogCalls (events w))) (Full.successText (name a))) eqn:N.
    + erewrite full_success_refused by eassumption.
      eexists _, _, (_ :: startEvents i _ w), 0%nat, 1%nat.
      split; [reflexivity | split; [lia | split; [right; eauto | discriminate]]].
    + erewrite full_success by eassumption.
      eexists _, _, (_ :: _ :: _ :: startEvents i _ w), 1%nat, 1%nat.
      split; [reflexivity | split; [lia | split; [right; eauto | discriminate]]].
  - destruct (nay (S (Full.sendLogCalls (events w)))
                  (Full.failureText (name a) (Session.reason r))) eqn:N.
    + erewrite full_failure_refused by eassumption.
      eexists _, _, (_ :: startEvents i _ w), 0%nat, 1%nat.
      split; [reflexivity | split; [lia | split; [right; eauto | discriminate]]].
    + erewrite full_failure by eassumption.
      eexists _, _, (_ :: _ :: _ :: startEvents i _ w), 0%nat, 1%nat.
      split; [reflexivity | split; [lia | split; [right; eauto | discriminate]]].
Qed.

(** What the other handlers do during a session matters only on worlds in
    which the lock is held: that is where they run. *)
Lemma full_during_held during during' i w :
  (forall n w', isRunning w' = true -> during n w' = during' n w') ->
  isRunning w = false ->
  run during i w = run during' i w.
Proof.
  intros H Hfree.
  destruct (find (hasId i) (accounts w)) as [a|] eqn:Hfind.
  2:{ now rewrite !full_not_found by assumption. }
  destruct (decrypt (encryptedCode a)) as [c|m] eqn:Hcode.
  2:{ now erewrite !full_decrypt_throws by eassumption. }
  destruct (nay (Full.sendLogCalls (events w)) (Full.startText (name a))) eqn:Hstart.
  { now erewrite !full_start_refused by eassumption. }
  pose proof (find_hasId_id _ _ _ Hfind) as Hid.
  unfold Full.executeSession, Full.tryCatchFinally, Full.sendLog, Full.callRunSession,
    Full.lift, Full.ret, Full.throw,
    getIsRunning, getAccountDecrypted, newDate, emit, setIsRunning, Full.bind, bind.
  simpl. rewrite Hfree. simpl. rewrite Hfind, Hcode. simpl.
  rewrite Hstart, Hid. simpl.
  erewrite updateAccountStatus_found by (simpl; exact Hfind).
  simpl. rewrite H by reflexivity. reflexivity.
Qed.

(** Calls that come while the lock is held are turned away and leave no
    trace. *)
Lemma overlapping_held calls n w :
  isRunning w = true ->
  Full.overlapping channel embedError clock decrypt runSession calls n w = w.
Proof.
  intros Hheld. unfold Full.overlapping.
  induction (calls n) as [|j ids IH]; simpl; [reflexivity|].
  rewrite full_locked by exact Hheld. exact IH.
Qed.

Lemma overlappingResults_held ids w :
  isRunning w = true ->
  Full.overlappingResults channel embedError clock decrypt runSession ids w
  = repeat (Full.Returned (mkResult false (Some "Bot is already running a session."%string)))
           (List.length ids).
Proof.
  intros Hheld. induction ids as [|j ids IH]; simpl; [reflexivity|].
  rewrite full_locked by exact Hheld. simpl. now rewrite IH.
Qed.

(** C6, amended.  A call that finds the lock free leaves it free however it
    ends, by a result or by a throw.  In between the lock is held: calls of
    [executeSession] that other triggers make while the runner runs are
    turned away and change nothing, so the session ends as if they had not
    been made.  An [Error] thrown by the runner or by the decryption is
    turned into a failure with its message; the call throws only when the
    runner threw [null] or [undefined]. *)
Theorem executeSession_releases_lock i w :
  isRunning w = false ->
  let out := Full.executeSession channel embedError clock decrypt runSession
                                 Full.alone i w in
  isRunning (snd out) = false
  /\ (forall calls,
        Full.executeSession channel embedError clock decrypt runSession
          (Full.overlapping channel embedError clock decrypt runSession calls) i w
        = out)
  /\ (forall a c m,
        find (hasId i) (accounts w) = Some a ->
        decrypt (encryptedCode a) = Normal c ->
        Full.refused channel (Full.sendLogCalls (events w)) (Full.startText (name a))
        = false ->
        runSession (sessions w) (mkDecrypted a c) = Full.Thrown (Full.ErrorWith m) ->
        fst out = Full.Returned (mkResult false (Some m)))
  /\ (forall a m,
        find (hasId i) (accounts w) = Some a ->
        decrypt (encryptedCode a) = Throw m ->
        fst out = Full.Returned (mkResult false (Some m)))
  /\ (forall f,
        fst out = Full.Thrown f ->
        exists a, runSession (sessions w) a = Full.Thrown Full.ThrownNull
                  \/ runSession (sessions w) a = Full.Thrown Full.ThrownUndefined).
Proof.
  intros Hfree out. subst out.
  destruct (full_effect i w Hfree) as (o & l & evs & c & s & E & _ & _ & T).
  split; [now rewrite E|]. split; [|split; [|split]].
  - intros calls. apply full_during_held; [|exact Hfree].
    intros n w' Hheld. now apply overlapping_held.
  - intros a c' m Hfind Hcode Hstart Hrun.
    now erewrite full_runner_throws by eassumption.
  - intros a m Hfind Hcode.
    now erewrite full_decrypt_throws by eassumption.
  - rewrite E. exact T.
Qed.

Section ResolvedAccount.

Variables (i : string) (w : World) (a : Account) (c : string).
Hypothesis Hfree : isRunning w = false.
Hypothesis Hfind : find (hasId i) (accounts w) = Some a.
Hypothesis Hcode : decrypt (encryptedCode a) = Normal c.

(** X15.  After a session in which the runner succeeds and neither the
    start nor the success notification is refused, the record is [idle] with
    the instant read from the clock as last run, and everything else as
    before.  For the UTC date of that instant it is no longer pending, and
    the daily report counts it as completed. *)
Theorem executeSession_success_marks_done r :
  runSession (sessions w) (mkDecrypted a c) = Full.Returned r ->
  Session.success r = true ->
  Full.refused channel (Full.sendLogCalls (events w)) (Full.startText (name a)) = false ->
  Full.refused channel (S (Full.sendLogCalls (events w))) (Full.successText (name a))
  = false ->
  let now := clock (clockReads w) in
  let a' := mkAccount (id a) (name a) (encryptedCode a) (targetServer a)
                      (Some now) idle in
  let out := Full.executeSession channel embedError clock decrypt runSession
                                 Full.alone i w in
  fst out = Full.Returned (mkResult true None)
  /\ isRunning (snd out) = false
  /\ accounts (snd out) = assignFirst i idle (Some now) (accounts w)
  /\ find (hasId i) (accounts (snd out)) = Some a'
  /\ isPending (toISODate now) a' = false
  /\ isCompleted (toISODate now) a' = true.
Proof.
  intros Hrun Hs Hstart Hdone now a' out. subst out.
  erewrite full_success by eassumption. simpl.
  repeat split.
  - now apply find_assignFirst.
  - unfold isPending. simpl. fold now. now rewrite CalendarDate_eqb_refl.
  - unfold isCompleted. simpl. fold now. now rewrite CalendarDate_eqb_refl.
Qed.

(** X16.  A failure that carries no reason, when neither notification is
    refused: the record gets status [error], the notification reads
    "failed: undefined", and the result carries the message of the
    [TypeError] that reading the missing reason raises.  That message is not
    BUSY, so a batch goes on. *)
Theorem executeSession_failure_without_reason :
  runSession (sessions w) (mkDecrypted a c)
  = Full.Returned (Session.mk false None) ->
  Full.refused channel (Full.sendLogCalls (events w)) (Full.startText (name a)) = false ->
  Full.refused channel (S (Full.sendLogCalls (events w)))
               (Full.failureText (name a) None) = false ->
  let out := Full.executeSession channel embedError clock decrypt runSession
                                 Full.alone i w in
  fst out
  = Full.Returned
      (mkResult false
         (Some "Cannot read properties of undefined (reading 'includes')"%string))
  /\ option_map status (find (hasId i) (accounts (snd out))) = Some error
  /\ In (SendLog ("❌ Session for **" ++ name a ++ "** failed: undefined")%string
                 "error"%string)
        (events (snd out))
  /\ (forall r, fst out = Full.Returned r -> isBusy r = false).
Proof.
  intros Hrun Hstart Hfail out. subst out.
  erewrite full_failure by (eassumption || reflexivity). simpl.
  split; [reflexivity|]. split; [|split].
  - erewrite find_assignFirst by eassumption. reflexivity.
  - right. right. now left.
  - intros r [= <-]. reflexivity.
Qed.

(** When the runner returns an unsuccessful result, whatever its reason,
    and no notification is refused, the stored record gets status [error]
    and keeps every other field, [lastRun] included; no [lastRun] of the
    store changes, and a record that was pending for a date is still pending
    for it. *)
Lemma executeSession_failure_recorded r :
  runSession (sessions w) (mkDecrypted a c) = Full.Returned r ->
  Session.success r = false ->
  nay (Full.sendLogCalls (events w)) (Full.startText (name a)) = false ->
  nay (S (Full.sendLogCalls (events w))) (Full.failureText (name a) (Session.reason r))
  = false ->
  let a' := mkAccount (id a) (name a) (encryptedCode a) (targetServer a)
                      (lastRun a) error in
  let out := run Full.alone i w in
  fst out = Full.Returned (mkResult false (Some (failureMessage (Session.reason r))))
  /\ find (hasId i) (accounts (snd out)) = Some a'
  /\ accounts (snd out) = assignFirst i error None (accounts w)
  /\ map lastRun (accounts (snd out)) = map lastRun (accounts w)
  /\ (forall today, isPending today a = true ->
                    In a' (pendingAccounts today (accounts (snd out)))).
Proof.
  intros Hrun Hs Hstart Hfail a' out. subst out.
  erewrite full_failure by eassumption. simpl.
  assert (F : find (hasId i) (assignFirst i error None (accounts w)) = Some a')
    by (now apply find_assignFirst).
  repeat split.
  - exact F.
  - apply assignFirst_lastRun.
  - intros today P. apply filter_In. split.
    + eapply find_some; exact F.
    + exact P.
Qed.

(** A session whose start notification is not refused hands the account
    and the decrypted code to the runner. *)
Lemma full_calls_runner :
  nay (Full.sendLogCalls (events w)) (Full.startText (name a)) = false ->
  In (RunSession (mkDecrypted a c)) (events (snd (run Full.alone i w))).
Proof.
  intros Hstart.
  destruct (runSession (sessions w) (mkDecrypted a c)) as [r|f] eqn:Hrun.
  2:{ erewrite full_runner_throws by eassumption. simpl. auto. }
  destruct (Session.success r) eqn:Hs.
  - destruct (nay (S (Full.sendLogCalls (events w))) (Full.successText (name a))) eqn:N.
    + erewrite full_success_refused by eassumption. simpl. auto.
    + erewrite full_success by eassumption. simpl. auto.
  - destruct (nay (S (Full.sendLogCalls (events w)))
                  (Full.failureText (name a) (Session.reason r))) eqn:N.
    + erewrite full_failure_refused by eassumption. simpl. auto.
    + erewrite full_failure by eassumption. simpl. auto.
Qed.

End ResolvedAccount.

End FullOrchestratorLaws.

(** ** The batch scheduler *)

Lemma handedOver_app l1 l2 :
  Full.handedOver (l1 ++ l2) = Full.handedOver l1 ++ Full.handedOver l2.
Proof.
  induction l1 as [|e l1 IH]; simpl; [reflexivity|].
  destruct e; simpl; congruence.
Qed.

(** A runner that never gives the BUSY signal, by result or by [Error],
    and never throws [null] or [undefined]. *)
Definition noBusySignal
    (runSession : nat -> DecryptedAccount -> Full.Outcome Session.result) : Prop :=
  forall n a,
    match runSession n a with
    | Full.Returned r => Session.success r = true \/ Session.reason r <> Some "BUSY"%string
    | Full.Thrown (Full.ErrorWith m) => m <> "BUSY"%string
    | Full.Thrown Full.NotAnError => True
    | Full.Thrown _ => False
    end.

(** A runner that never throws [null] or [undefined]. *)
Definition neverThrowsNullish
    (runSession : nat -> DecryptedAccount -> Full.Outcome Session.result) : Prop :=
  forall n a,
    runSession n a <> Full.Thrown Full.ThrownNull
    /\ runSession n a <> Full.Thrown Full.ThrownUndefined.

Section FullScheduler.

Variable tzOffset : Z.
Variable channel : nat -> bool.
Variable embedError : string.
Variable clock : nat -> Date.
Variable decrypt : string -> Completion string.
Variable runSession : nat -> DecryptedAccount -> Full.Outcome Session.result.

Local Abbreviation run :=
  (Full.executeSession channel embedError clock decrypt runSession Full.alone).
Local Abbreviation batch :=
  (Full.runBatch tzOffset channel embedError clock decrypt runSession Full.alone).
Local Abbreviation tick :=
  (Full.checkAndRun tzOffset channel embedError clock decrypt runSession Full.alone).
Local Abbreviation nay := (Full.refused channel).

Lemma full_checkAndRun_locked w :
  isRunning w = true -> tick w = (Full.Returned [], w).
Proof.
  intros H. unfold Full.checkAndRun, Full.lift, getIsRunning, Full.ret, Full.bind.
  simpl. now rewrite H.
Qed.

Lemma full_checkAndRun_free w :
  isRunning w = false ->
  tick w
  = if isActiveTime (scheduleStart (scheduleOf w)) (scheduleEnd (scheduleOf w))
                    (tickHour tzOffset clock w)
    then match pendingAccounts (tickToday clock w) (accounts w) with
         | [] => (Full.Returned [], atBatchStart w)
         | p => batch (scheduleEnd (scheduleOf w)) p (atBatchStart w)
         end
    else (Full.Returned [], atWindowCheck w).
Proof.
  intros H.
  unfold Full.checkAndRun, Full.lift, getIsRunning, getSchedule, getAccounts, newDate,
    emit, Full.ret, Full.bind, bind.
  simpl. rewrite H. simpl. fold (scheduleOf w). fold (tickHour tzOffset clock w).
  destruct (isActiveTime _ _ _); simpl; [|reflexivity].
  fold (tickToday clock w).
  destruct (pendingAccounts (tickToday clock w) (accounts w)); reflexivity.
Qed.

(** One turn of the loop. *)
Lemma full_runBatch_cons e c rest w :
  batch e (c :: rest) w
  = if getHours tzOffset (clock (clockReads w)) >=? e
    then (Full.Returned [], afterClockRead w)
    else match run (id c) (afterClockRead w) with
         | (Full.Returned r, w1) =>
             if isBusy r then (Full.Returned [r], w1)
             else match batch e rest w1 with
                  | (Full.Returned more, w2) => (Full.Returned (r :: more), w2)
                  | (Full.Thrown f, w2) => (Full.Thrown f, w2)
                  end
         | (Full.Thrown f, w1) => (Full.Thrown f, w1)
         end.
Proof.
  simpl. unfold Full.bind at 1. unfold Full.lift, newDate, afterClockRead. simpl.
  destruct (getHours tzOffset (clock (clockReads w)) >=? e); [reflexivity|].
  unfold Full.bind at 1.
  destruct (Full.executeSession _ _ _ _ _ _ _ _) as [[r|f] w1]; [|reflexivity].
  destruct (isBusy r); [reflexivity|].
  unfold Full.bind, Full.ret. reflexivity.
Qed.

(** The loop hands the lock back free and keeps the records and the
    schedule, whether it returns or throws; it throws only when the runner
    throws [null] or [undefined]. *)
Lemma full_runBatch_frame e cands :
  forall w, isRunning w = false ->
  exists o w',
    batch e cands w = (o, w')
    /\ isRunning w' = false
    /\ settings w' = settings w
    /\ Forall2 sameIdentity (accounts w) (accounts w')
    /\ (neverThrowsNullish runSession -> exists rs, o = Full.Returned rs).
Proof.
  induction cands as [|c cands IH]; intros w Hfree.
  - exists (Full.Returned []), w. repeat split; eauto.
    apply Forall2_sameIdentity_refl.
  - rewrite full_runBatch_cons.
    destruct (_ >=? e).
    { eexists _, _. split; [reflexivity|]. repeat split; eauto.
      apply Forall2_sameIdentity_refl. }
    destruct (full_effect channel embedError clock decrypt runSession (id c)
                (afterClockRead w) Hfree)
      as (o & l & evs & n & s & E & _ & Hl & T).
    rewrite E. simpl in Hl.
    assert (I : Forall2 sameIdentity (accounts w) l).
    { destruct Hl as [->|(st & lr & -> & _)].
      - apply Forall2_sameIdentity_refl.
      - apply assignFirst_sameIdentity. }
    destruct o as [r|f].
    2:{ eexists _, _. split; [reflexivity|]. repeat split; auto.
        intros NT. destruct (T f eq_refl) as (a & [H|H]); now apply NT in H. }
    destruct (isBusy r) eqn:B.
    { eexists _, _. split; [reflexivity|]. repeat split; eauto. }
    destruct (IH (mkWorld l (settings (afterClockRead w)) false
                    (evs ++ events (afterClockRead w))
                    (n + clockReads (afterClockRead w))
                    (s + sessions (afterClockRead w))) eq_refl)
      as (o' & w' & E' & L' & S' & I' & R').
    rewrite E'. destruct o' as [more|f].
    + eexists _, _. split; [reflexivity|].
      split; [exact L'|]. split; [exact S'|]. split; [|eauto].
      eapply Forall2_trans; [apply sameIdentity_trans | exact I | exact I'].
    + eexists _, _. split; [reflexivity|].
      split; [exact L'|]. split; [exact S'|]. split.
      * eapply Forall2_trans; [apply sameIdentity_trans | exact I | exact I'].
      * intros NT. destruct (R' NT) as (rs & [=]).
Qed.

(** X19.  Whether a tick returns or throws, it hands the lock back as it
    found it, and it adds, removes and reorders no record, changes no id,
    name, code or server, and leaves the schedule alone.  It throws only
    through a session in which the runner threw [null] or [undefined]: with
    a runner that never does, every tick returns. *)
Theorem checkAndRun_keeps_records w :
  let out := Full.checkAndRun tzOffset channel embedError clock decrypt runSession
                              Full.alone w in
  isRunning (snd out) = isRunning w
  /\ settings (snd out) = settings w
  /\ Forall2 sameIdentity (accounts w) (accounts (snd out))
  /\ (neverThrowsNullish runSession -> exists rs, fst out = Full.Returned rs).
Proof.
  intros out. subst out.
  pose proof (Forall2_sameIdentity_refl (accounts w)) as Rf.
  destruct (isRunning w) eqn:L.
  { rewrite full_checkAndRun_locked by exact L. simpl. repeat split; eauto. }
  rewrite full_checkAndRun_free by exact L.
  destruct (isActiveTime _ _ _).
  2:{ simpl. repeat split; eauto. }
  destruct (pendingAccounts _ _) as [|c cands].
  { simpl. repeat split; eauto. }
  destruct (full_runBatch_frame (scheduleEnd (scheduleOf w)) (c :: cands)
              (atBatchStart w) L)
    as (o & w' & E & L' & S' & I' & R').
  rewrite E. simpl. repeat split; auto.
Qed.

(** A session whose account is found and decrypted and whose start
    notification is not refused calls the runner once, on that account; its
    result is BUSY only if the runner said or threw BUSY, or the refusal of
    a notification reads BUSY. *)
Lemma full_resolved i w a c :
  isRunning w = false ->
  find (hasId i) (accounts w) = Some a ->
  decrypt (encryptedCode a) = Normal c ->
  nay (Full.sendLogCalls (events w)) (Full.startText (name a)) = false ->
  exists o st lr evs n,
    run i w
    = (o,
       mkWorld (assignFirst i st lr (accounts w)) (settings w) false
               (evs ++ events w) (n + clockReads w) (S (sessions w)))
    /\ Full.handedOver evs = [mkDecrypted a c]
    /\ (noBusySignal runSession -> embedError <> "BUSY"%string ->
        exists r, o = Full.Returned r /\ isBusy r = false).
Proof.
  intros Hfree Hfind Hcode Hstart.
  assert (EB : embedError <> "BUSY"%string ->
               isBusy (mkResult false (Some embedError)) = false).
  { intros N. unfold isBusy. simpl. now apply String.eqb_neq. }
  destruct (runSession (sessions w) (mkDecrypted a c)) as [r|f] eqn:Hrun.
  - destruct (Session.success r) eqn:Hs.
    + destruct (nay (S (Full.sendLogCalls (events w))) (Full.successText (name a))) eqn:N.
      * erewrite full_success_refused by eassumption.
        eexists _, _, _, (_ :: startEvents i _ w), 0%nat.
        split; [reflexivity|]. split; [reflexivity|]. eauto.
      * erewrite full_success by eassumption.
        eexists _, _, _, (_ :: _ :: _ :: startEvents i _ w), 1%nat.
        split; [reflexivity|]. split; [reflexivity|]. eauto.
    + destruct (nay (S (Full.sendLogCalls (events w)))
                    (Full.failureText (name a) (Session.reason r))) eqn:N.
      * erewrite full_failure_refused by eassumption.
        eexists _, _, _, (_ :: startEvents i _ w), 0%nat.
        split; [reflexivity|]. split; [reflexivity|]. eauto.
      * erewrite full_failure by eassumption.
        eexists _, _, _, (_ :: _ :: _ :: startEvents i _ w), 0%nat.
        split; [reflexivity|]. split; [reflexivity|]. intros NB _.
        specialize (NB (sessions w) (mkDecrypted a c)). rewrite Hrun in NB.
        destruct NB as [NB|NB]; [congruence|].
        eexists. split; [reflexivity|].
        unfold isBusy. simpl. destruct (Session.reason r) as [s|]; simpl.
        -- apply String.eqb_neq. congruence.
        -- reflexivity.
  - erewrite full_runner_throws by eassumption.
    eexists _, _, _, (startEvents i _ w), 0%nat.
    split; [reflexivity|]. split; [reflexivity|]. intros NB _.
    specialize (NB (sessions w) (mkDecrypted a c)). rewrite Hrun in NB.
    destruct f; simpl; try contradiction.
    + eexists. split; [reflexivity|]. unfold isBusy. simpl. now apply String.eqb_neq.
    + eexists. split; [reflexivity|]. reflexivity.
Qed.

Section WithinHours.

Variable e : Z.
Variable today : CalendarDate.
Variable plain : string -> string.
Hypothesis before_end : forall n, getHours tzOffset (clock n) < e.
Hypothesis decrypt_total : forall s, decrypt s = Normal (plain s).

Local Abbreviation handed := (fun a : Account => mkDecrypted a (plain (encryptedCode a))).

Lemma full_runBatch_attempts_all rest :
  noBusySignal runSession ->
  embedError <> "BUSY"%string ->
  forall front w,
    isRunning w = false ->
    accounts w = front ++ rest ->
    NoDup (map id (front ++ rest)) ->
    (forall a, In a (pendingAccounts today rest) -> Full.jsLength (name a) <= 4065) ->
    exists rs w',
      batch e (pendingAccounts today rest) w = (Full.Returned rs, w')
      /\ List.length rs = List.length (pendingAccounts today rest)
      /\ Full.handedOver (events w')
         = rev (map handed (pendingAccounts today rest)) ++ Full.handedOver (events w)
      /\ sessions w' = (sessions w + List.length (pendingAccounts today rest))%nat.
Proof.
  intros NB EB. induction rest as [|a rest IH]; intros front w Hfree Hstore Hnodup Hnames.
  - exists [], w. simpl. repeat split. lia.
  - simpl in *. destruct (isPending today a) eqn:P.
    + rewrite full_runBatch_cons.
      destruct (Z.geb_spec (getHours tzOffset (clock (clockReads w))) e) as [G|_];
        [specialize (before_end (clockReads w)); lia|].
      pose proof (NoDup_ids_front _ _ _ Hnodup) as Hfresh.
      assert (Hfind : find (hasId (id a)) (accounts (afterClockRead w)) = Some a)
        by (simpl; rewrite Hstore; now apply find_at).
      assert (Hstart : nay (Full.sendLogCalls (events (afterClockRead w)))
                           (Full.startText (name a)) = false).
      { apply startText_sent. apply Hnames. now left. }
      destruct (full_resolved (id a) (afterClockRead w) a _ Hfree Hfind
                  (decrypt_total _) Hstart)
        as (o & st & lr & evs & n & E & Hh & B).
      destruct (B NB EB) as (r & -> & Br).
      rewrite E, Br.
      cbn [accounts afterClockRead clockReads sessions settings events].
      rewrite Hstore, assignFirst_at by exact Hfresh.
      match goal with
      | |- context [batch e _ ?w1] =>
          destruct (IH (front ++ [assign st lr a]) w1) as (rs & w' & E' & L & H' & S')
      end.
      * reflexivity.
      * cbn [accounts]. now rewrite <- app_assoc.
      * rewrite <- app_assoc. simpl. rewrite map_app in *. exact Hnodup.
      * intros b Hb. apply Hnames. now right.
      * rewrite E'. exists (r :: rs), w'.
        split; [reflexivity|]. split; [simpl; lia|]. split.
        -- rewrite H'. cbn [events]. rewrite handedOver_app, Hh. simpl.
           now rewrite <- app_assoc.
        -- simpl in S' |- *. lia.
    + destruct (IH (front ++ [a]) w Hfree) as (rs & w' & E' & L & H' & S').
      * now rewrite <- app_assoc.
      * now rewrite <- app_assoc.
      * exact Hnames.
      * exists rs, w'. auto.
Qed.

Hypothesis same_day : forall n, toISODate (clock n) = today.
Hypothesis runner_succeeds :
  forall n a, exists r, runSession n a = Full.Returned r /\ Session.success r = true.

Lemma full_runBatch_all_succeed rest :
  forall front w,
    isRunning w = false ->
    accounts w = front ++ rest ->
    NoDup (map id (front ++ rest)) ->
    (forall a, In a (pendingAccounts today rest) -> Full.jsLength (name a) <= 4054) ->
    exists rs w' rest',
      batch e (pendingAccounts today rest) w = (Full.Returned rs, w')
      /\ Forall (fun r => success r = true) rs
      /\ List.length rs = List.length (pendingAccounts today rest)
      /\ sessions w' = (sessions w + List.length rs)%nat
      /\ accounts w' = front ++ rest'
      /\ Forall2 (ranToday today) rest rest'.
Proof.
  induction rest as [|a rest IH]; intros front w Hfree Hstore Hnodup Hnames.
  - exists [], w, []. simpl. repeat split; auto; try constructor; lia.
  - simpl in *. destruct (isPending today a) eqn:P.
    + rewrite full_runBatch_cons.
      destruct (Z.geb_spec (getHours tzOffset (clock (clockReads w))) e) as [G|_];
        [specialize (before_end (clockReads w)); lia|].
      pose proof (NoDup_ids_front _ _ _ Hnodup) as Hfresh.
      assert (Hfind : find (hasId (id a)) (accounts (afterClockRead w)) = Some a)
        by (simpl; rewrite Hstore; now apply find_at).
      pose proof (Hnames a (or_introl eq_refl)) as Hname.
      assert (Hstart : nay (Full.sendLogCalls (events (afterClockRead w)))
                           (Full.startText (name a)) = false).
      { apply startText_sent. lia. }
      assert (Hdone : nay (S (Full.sendLogCalls (events (afterClockRead w))))
                          (Full.successText (name a)) = false).
      { now apply successText_sent. }
      destruct (runner_succeeds (sessions (afterClockRead w))
                  (mkDecrypted a (plain (encryptedCode a))))
        as (r & Hrun & Hs).
      erewrite full_success by (eassumption || apply decrypt_total).
      cbv zeta. unfold isBusy at 1. cbn [success negb andb].
      cbn [accounts afterClockRead clockReads sessions settings events].
      rewrite Hstore, assignFirst_at by exact Hfresh.
      set (a' := assign idle (Some (clock (S (clockReads w)))) a).
      match goal with
      | |- context [batch e _ ?w1] =>
          destruct (IH (front ++ [a']) w1) as (rs & w' & rest' & E & Hall & L & S & A & R)
      end.
      * reflexivity.
      * cbn [accounts]. now rewrite <- app_assoc.
      * rewrite <- app_assoc. simpl. rewrite map_app in *. exact Hnodup.
      * intros b Hb. apply Hnames. now right.
      * rewrite E. exists (mkResult true None :: rs), w', (a' :: rest').
        split; [reflexivity|]. split; [now constructor|].
        split; [simpl; lia|]. split; [simpl in S |- *; lia|].
        split; [rewrite A, <- app_assoc; reflexivity|].
        constructor; [|exact R].
        split; [repeat split|]. rewrite P. split; [reflexivity|].
        eexists. split; [reflexivity | apply same_day].
    + destruct (IH (front ++ [a]) w Hfree) as (rs & w' & rest' & E & Hall & L & S & A & R).
      * now rewrite <- app_assoc.
      * now rewrite <- app_assoc.
      * exact Hnames.
      * exists rs, w', (a :: rest'). split; [exact E|]. split; [exact Hall|].
        split; [exact L|]. split; [exact S|].
        split; [rewrite A, <- app_assoc; reflexivity|].
        constructor; [|exact R].
        split; [apply sameIdentity_refl|]. now rewrite P.
Qed.

End WithinHours.

(** X21.  Let the ids of the store be distinct and a tick find the lock
    free inside the active hours.  If the hour stays below [end], every
    stored code decrypts, the name of no pending account is longer than 4065
    code units, so that no start notification is refused, and no BUSY signal
    comes, from the runner or as the message of a refusal, and the runner
    never throws [null] or [undefined], then the tick attempts every pending
    account: it gets one result for each, failures included, and the runner
    is handed each pending record with its decrypted code, once, in store
    order. *)
Theorem checkAndRun_attempts_all w plain :
  isRunning w = false ->
  isActiveTime (scheduleStart (scheduleOf w)) (scheduleEnd (scheduleOf w))
               (tickHour tzOffset clock w) = true ->
  (forall n, getHours tzOffset (clock n) < scheduleEnd (scheduleOf w)) ->
  (forall s, decrypt s = Normal (plain s)) ->
  NoDup (map id (accounts w)) ->
  (forall a, In a (pendingAccounts (tickToday clock w) (accounts w)) ->
             Full.jsLength (name a) <= 4065) ->
  noBusySignal runSession ->
  embedError <> "BUSY"%string ->
  let candidates := pendingAccounts (tickToday clock w) (accounts w) in
  exists rs w',
    Full.checkAndRun tzOffset channel embedError clock decrypt runSession Full.alone w
    = (Full.Returned rs, w')
    /\ List.length rs = List.length candidates
    /\ Full.handedOver (events w')
       = rev (map (fun a => mkDecrypted a (plain (encryptedCode a))) candidates)
         ++ Full.handedOver (events w)
    /\ sessions w' = (sessions w + List.length candidates)%nat.
Proof.
  intros Hfree Hact Hhours Hdec Hnodup Hnames NB EB candidates.
  rewrite full_checkAndRun_free by exact Hfree. rewrite Hact. fold candidates.
  destruct (full_runBatch_attempts_all _ (tickToday clock w) plain Hhours Hdec
              (accounts w) NB EB [] (atBatchStart w) Hfree eq_refl Hnodup Hnames)
    as (rs & w' & E & L & H & S).
  fold candidates in E, L, H, S.
  destruct candidates; [|eauto 10].
  injection E as <- <-. eexists _, _. split; [reflexivity|]. simpl. repeat split; lia.
Qed.

(** X22.  Let the ids of the store be distinct and a tick find the lock
    free inside the active hours.  If the clock stays on one UTC date and
    below hour [end], every stored code decrypts, every call of the runner
    succeeds, and the name of no pending account is longer than 4054 code
    units, so that no notification is refused, then the tick runs each
    pending account once, in store order; afterwards each of them is [idle]
    with a last run on that date, every other record is untouched, and no
    account is pending for that date. *)
Theorem checkAndRun_all_succeed w today plain :
  isRunning w = false ->
  isActiveTime (scheduleStart (scheduleOf w)) (scheduleEnd (scheduleOf w))
               (tickHour tzOffset clock w) = true ->
  (forall n, getHours tzOffset (clock n) < scheduleEnd (scheduleOf w)) ->
  (forall n, toISODate (clock n) = today) ->
  (forall s, decrypt s = Normal (plain s)) ->
  (forall n a, exists r, runSession n a = Full.Returned r /\ Session.success r = true) ->
  NoDup (map id (accounts w)) ->
  (forall a, In a (pendingAccounts today (accounts w)) ->
             Full.jsLength (name a) <= 4054) ->
  exists rs w',
    Full.checkAndRun tzOffset channel embedError clock decrypt runSession Full.alone w
    = (Full.Returned rs, w')
    /\ Forall (fun r => success r = true) rs
    /\ List.length rs = List.length (pendingAccounts today (accounts w))
    /\ sessions w' = (sessions w + List.length rs)%nat
    /\ Forall2 (ranToday today) (accounts w) (accounts w')
    /\ pendingAccounts today (accounts w') = [].
Proof.
  intros Hfree Hact Hhours Hday Hdec Hrun Hnodup Hnames.
  rewrite full_checkAndRun_free by exact Hfree. rewrite Hact.
  unfold tickToday. rewrite Hday.
  destruct (full_runBatch_all_succeed (scheduleEnd (scheduleOf w)) today plain
              Hhours Hdec Hday Hrun
              (accounts w) [] (atBatchStart w) Hfree eq_refl Hnodup Hnames)
    as (rs & w' & rest' & E & Hall & L & S & A & R).
  simpl in A. subst rest'.
  assert (Hnone : pendingAccounts today (accounts w') = [])
    by (eapply ranToday_not_pending; exact R).
  destruct (pendingAccounts today (accounts w)) eqn:P.
  - injection E as <- <-. eexists _, _. split; [reflexivity|].
    repeat split; auto.
  - rewrite E. eexists _, _. split; [reflexivity|].
    repeat split; auto.
Qed.

End FullScheduler.

(** ** The commands *)

Section FullCommandLaws.

Variable channel : nat -> bool.
Variable embedError : string.
Variable clock : nat -> Date.
Variable encrypt : nat -> string -> string.
Variable decrypt : string -> Completion string.
Variable runSession : nat -> DecryptedAccount -> Full.Outcome Session.result.

(** X27.  From [add_account] to the runner: if decrypting what [encrypt]
    returned gives the code back, no record has the new id yet, and the name
    is not longer than 4065 code units, so that the start notification is
    not refused, then the first session for the id that [addAccount]
    returned hands the runner the new record with the code as the user typed
    it. *)
Theorem addAccountCommand_then_session code server n w :
  decrypt (encrypt 0 code) = Normal code ->
  (forall a, In a (accounts w) -> id a <> intText (clock (clockReads w))) ->
  isRunning w = false ->
  Full.jsLength n <= 4065 ->
  let i := intText (clock (clockReads w)) in
  let a := mkAccount i n (encrypt 0 code) server None idle in
  let w1 := snd (addAccountCommand clock encrypt code server n w) in
  fst (addAccountCommand clock encrypt code server n w)
  = Normal [Reply ("Account **" ++ n ++ "** added successfully!")%string true]
  /\ accounts w1 = accounts w ++ [a]
  /\ In (RunSession (mkDecrypted a code))
        (events (snd (Full.executeSession channel embedError clock decrypt runSession
                                          Full.alone i w1))).
Proof.
  intros Hround Hfresh Hfree Hname i a w1.
  assert (E : accounts w1 = accounts w ++ [a]) by reflexivity.
  split; [reflexivity|]. split; [exact E|].
  apply full_calls_runner; [exact Hfree | | exact Hround |].
  - rewrite E, find_app_fresh by exact Hfresh. simpl.
    assert (H : hasId i a = true) by now apply hasId_eq.
    now rewrite H.
  - now apply startText_sent.
Qed.


End FullCommandLaws.

(** ** The first model inside the full one

    Without a log channel, with a runner that throws nothing but [Error]s
    and with no other handler at work during a session, the full
    orchestrator and the full scheduler are those of the first part. *)

Section Agreement.

Variable tzOffset : Z.
Variable embedError : string.
Variable clock : nat -> Date.
Variable decrypt : string -> Completion string.
Variable runSession : nat -> DecryptedAccount -> Completion Session.result.

Lemma executeSession_agrees i w :
  Full.executeSession Full.noChannel embedError clock decrypt (Full.ofRunner runSession)
                      Full.alone i w
  = Full.lift (executeSession clock decrypt runSession i) w.
Proof.
  unfold Full.lift at 1.
  destruct (isRunning w) eqn:Hfree.
  { rewrite full_locked, executeSession_locked by exact Hfree. reflexivity. }
  destruct (find (hasId i) (accounts w)) as [a|] eqn:Hfind.
  2:{ rewrite full_not_found, executeSession_not_found by assumption. reflexivity. }
  destruct (decrypt (encryptedCode a)) as [c|m] eqn:Hcode.
  2:{ erewrite full_decrypt_throws, executeSession_decrypt_throws by eassumption.
      reflexivity. }
  destruct (runSession (sessions w) (mkDecrypted a c)) as [r|m] eqn:Hrun.
  2:{ erewrite full_runner_throws with (f := Full.ErrorWith m);
        try eassumption; try reflexivity.
      - erewrite executeSession_runner_throws by eassumption. reflexivity.
      - unfold Full.ofRunner. now rewrite Hrun. }
  assert (R : Full.ofRunner runSession (sessions w) (mkDecrypted a c) = Full.Returned r)
    by (unfold Full.ofRunner; now rewrite Hrun).
  destruct (Session.success r) eqn:Hs.
  - erewrite full_success; try eassumption; try reflexivity.
    erewrite executeSession_success by eassumption. reflexivity.
  - erewrite full_failure; try eassumption; try reflexivity.
    erewrite executeSession_failure by eassumption. reflexivity.
Qed.

Lemma runBatch_agrees e cands :
  forall w,
    Full.runBatch tzOffset Full.noChannel embedError clock decrypt
                  (Full.ofRunner runSession) Full.alone e cands w
    = Full.lift (runBatch tzOffset clock decrypt runSession e cands) w.
Proof.
  induction cands as [|c cands IH]; intros w; [reflexivity|].
  rewrite full_runBatch_cons. unfold Full.lift. rewrite runBatch_cons.
  destruct (_ >=? e); [reflexivity|].
  rewrite executeSession_agrees. unfold Full.lift.
  destruct (executeSession clock decrypt runSession (id c) (afterClockRead w))
    as [[r|m] w1]; simpl; [|reflexivity].
  destruct (isBusy r); [reflexivity|].
  rewrite IH. unfold Full.lift.
  destruct (runBatch tzOffset clock decrypt runSession e cands w1) as [[more|m] w2];
    reflexivity.
Qed.

Lemma checkAndRun_agrees w :
  Full.checkAndRun tzOffset Full.noChannel embedError clock decrypt
                   (Full.ofRunner runSession) Full.alone w
  = Full.lift (checkAndRun tzOffset clock decrypt runSession) w.
Proof.
  unfold Full.lift at 1.
  destruct (isRunning w) eqn:Hfree.
  { rewrite full_checkAndRun_locked, checkAndRun_locked by exact Hfree. reflexivity. }
  rewrite full_checkAndRun_free, checkAndRun_free by exact Hfree.
  destruct (isActiveTime _ _ _); [|reflexivity].
  destruct (pendingAccounts _ _) as [|c cands]; [reflexivity|].
  apply runBatch_agrees.
Qed.

End Agreement.

(** * The full orchestrator at sample inputs *)

(** A reason of 4100 characters. *)
Definition longReason : string := String.concat EmptyString (repeat "x"%string 4100).

(** C4, which the code does not meet.  The log channel is found and the
    runner fails alice with a reason of 4100 characters, so that the failure
    notification has 4132 code units.  [sendLog] throws on it, before
    [updateAccountStatus(account.id, 'error')] is reached: the only write of
    the session is the one that set alice to [running], her record stays
    [running], and the result carries the message of the refusal in place of
    the reason.  In a process without a log channel the same failure is
    recorded as [error]. *)
Theorem executeSession_failure_not_recorded embedError :
  let clock := fun _ : nat => instant 2024 1 2 12 0 in
  let runner := fun (_ : nat) (_ : DecryptedAccount) =>
                  Full.Returned (Session.mk false (Some longReason)) in
  let w := freshWorld [alice; bob] None in
  let out := Full.executeSession Full.withChannel embedError clock plainDecrypt runner
                                 Full.alone "1" w in
  let quiet := Full.executeSession Full.noChannel embedError clock plainDecrypt runner
                                   Full.alone "1" w in
  Full.jsLength (Full.failureText "alice" (Some longReason)) = 4132
  /\ fst out = Full.Returned (mkResult false (Some embedError))
  /\ map status (accounts (snd out)) = [running; idle]
  /\ snapshots (events (snd out))
     = [[mkAccount "1" "alice" "enc-alice" "E-15" None running; bob]]
  /\ isRunning (snd out) = false
  /\ fst quiet = Full.Returned (mkResult false (Some longReason))
  /\ map status (accounts (snd quiet)) = [error; idle].
Proof.
  intros clock runner w out quiet. subst out quiet.
  repeat split; vm_compute; reflexivity.
Qed.

(** C6 as stated fails.  A call that finds the lock held returns with the
    lock still held.  And not every fault becomes a failure that carries
    its description: when the runner throws [undefined], reading
    [err.message] in the handler throws, and the call ends by that throw;
    when it throws a value that is no [Error], the failure carries no
    message. *)
Lemma executeSession_returns_with_lock_held :
  let run := Full.executeSession Full.noChannel "Invalid string length"
               (fun _ => instant 2024 1 2 12 0) plainDecrypt in
  let held := mkWorld [alice] None true [] 0 0 in
  let free := freshWorld [alice] None in
  run (fun _ _ => Full.Returned (Session.mk true None)) Full.alone "1"%string held
  = (Full.Returned (mkResult false (Some "Bot is already running a session."%string)),
     held)
  /\ isRunning held <> false
  /\ run (fun _ _ => Full.Thrown Full.ThrownUndefined) Full.alone "1"%string free
     = (Full.Thrown
          (Full.ErrorWith "Cannot read properties of undefined (reading 'message')"),
        mkWorld [mkAccount "1" "alice" "enc-alice" "E-15" None running] None false
                (startEvents "1" (mkDecrypted alice "enc-alice") free) 0 1)
  /\ fst (run (fun _ _ => Full.Thrown Full.NotAnError) Full.alone "1"%string free)
     = Full.Returned (mkResult false None).
Proof.
  repeat split. discriminate.
Qed.

(** A session of alice during which the runner throws an error, while two
    other triggers call [executeSession]. *)
Lemma executeSession_releases_lock_witness :
  let clock := fun _ : nat => instant 2024 1 2 12 0 in
  let runner := fun (_ : nat) (_ : DecryptedAccount) =>
                  Full.Thrown (A := Session.result)
                    (Full.ErrorWith "Navigation timeout of 30000 ms exceeded") in
  let run := Full.executeSession Full.withChannel "Invalid string length" clock
                                 plainDecrypt runner in
  let w := freshWorld [alice; bob] None in
  isRunning (snd (run Full.alone "1"%string w)) = false
  /\ fst (run Full.alone "1"%string w)
     = Full.Returned
         (mkResult false (Some "Navigation timeout of 30000 ms exceeded"%string))
  /\ run (Full.overlapping Full.withChannel "Invalid string length" clock plainDecrypt
            runner (fun _ => ["2"; "1"]%string)) "1"%string w
     = run Full.alone "1"%string w.
Proof.
  intros clock runner run w.
  destruct (executeSession_releases_lock Full.withChannel "Invalid string length" clock
              plainDecrypt runner "1"%string w eq_refl)
    as (Hlock & Hover & Hfault & _).
  split; [exact Hlock|]. split.
  - apply (Hfault alice "enc-alice"%string); reflexivity.
  - apply Hover.
Defined.

(** A session of alice that succeeds at noon on 2 January, the log channel
    found. *)
Lemma executeSession_success_marks_done_witness :
  let now := instant 2024 1 2 12 0 in
  let out := Full.executeSession Full.withChannel "Invalid string length" (fun _ => now)
               plainDecrypt (fun _ _ => Full.Returned (Session.mk true None))
               Full.alone "1"%string (freshWorld [alice; bob] None) in
  fst out = Full.Returned (mkResult true None)
  /\ accounts (snd out)
     = [mkAccount "1" "alice" "enc-alice" "E-15" (Some now) idle; bob]
  /\ pendingAccounts (toISODate now) (accounts (snd out)) = [bob].
Proof.
  intros now out.
  destruct (executeSession_success_marks_done Full.withChannel "Invalid string length"
              (fun _ => now) plainDecrypt
              (fun _ _ => Full.Returned (Session.mk true None))
              "1"%string (freshWorld [alice; bob] None) alice "enc-alice"%string
              eq_refl eq_refl eq_refl (Session.mk true None) eq_refl eq_refl
              eq_refl eq_refl)
    as (R & _ & A & _).
  split; [exact R|]. split; [exact A|].
  subst out. rewrite A. vm_compute. reflexivity.
Defined.

(** A runner that fails without a reason. *)
Lemma executeSession_failure_without_reason_witness :
  let out := Full.executeSession Full.withChannel "Invalid string length"
               (fun _ => instant 2024 1 2 12 0) plainDecrypt
               (fun _ _ => Full.Returned (Session.mk false None)) Full.alone "1"%string
               (freshWorld [alice] None) in
  fst out
  = Full.Returned
      (mkResult false
         (Some "Cannot read properties of undefined (reading 'includes')"%string))
  /\ option_map status (find (hasId "1") (accounts (snd out))) = Some error.
Proof.
  intros out.
  destruct (executeSession_failure_without_reason Full.withChannel
              "Invalid string length" (fun _ => instant 2024 1 2 12 0)
              plainDecrypt (fun _ _ => Full.Returned (Session.mk false None)) "1"%string
              (freshWorld [alice] None) alice "enc-alice"%string
              eq_refl eq_refl eq_refl eq_refl eq_refl eq_refl)
    as (R & S & _).
  split; [exact R | exact S].
Defined.

Lemma sample_names_short :
  forall a, In a [alice; bob; carol] -> Full.jsLength (name a) <= 4054.
Proof. intros a [<-|[<-|[<-|[]]]]; vm_compute; discriminate. Qed.

(** A tick at noon over three pending accounts, every session failing. *)
Lemma checkAndRun_attempts_all_witness :
  let clock := fun _ : nat => instant 2024 1 2 12 0 in
  let w := freshWorld [alice; bob; carol] None in
  exists rs w',
    Full.checkAndRun 0 Full.withChannel "Invalid string length" clock plainDecrypt
      (fun _ _ => Full.Returned (Session.mk false (Some "Invalid restore code"%string)))
      Full.alone w
    = (Full.Returned rs, w')
    /\ List.length rs = 3%nat
    /\ map account (Full.handedOver (events w')) = [carol; bob; alice].
Proof.
  intros clock w.
  destruct (checkAndRun_attempts_all 0 Full.withChannel "Invalid string length" clock
              plainDecrypt
              (fun _ _ => Full.Returned
                            (Session.mk false (Some "Invalid restore code"%string)))
              w (fun s => s))
    as (rs & w' & E & L & H & S).
  - reflexivity.
  - vm_compute. reflexivity.
  - exact noon_before_20.
  - reflexivity.
  - exact sample_ids_distinct.
  - intros a Ha. pose proof (sample_names_short a Ha). lia.
  - intros n a. right. discriminate.
  - discriminate.
  - exists rs, w'. split; [exact E|]. split; [exact L|]. rewrite H. reflexivity.
Defined.

(** A tick at noon over three pending accounts, every session succeeding. *)
Lemma checkAndRun_all_succeed_witness :
  let clock := fun _ : nat => instant 2024 1 2 12 0 in
  let w := freshWorld [alice; bob; carol] None in
  exists rs w',
    Full.checkAndRun 0 Full.withChannel "Invalid string length" clock plainDecrypt
      (fun _ _ => Full.Returned (Session.mk true None)) Full.alone w
    = (Full.Returned rs, w')
    /\ List.length rs = 3%nat
    /\ pendingAccounts (mkCalendarDate 2024 1 2) (accounts w') = [].
Proof.
  intros clock w.
  destruct (checkAndRun_all_succeed 0 Full.withChannel "Invalid string length" clock
              plainDecrypt (fun _ _ => Full.Returned (Session.mk true None)) w
              (mkCalendarDate 2024 1 2) (fun s => s))
    as (rs & w' & E & _ & L & _ & _ & P).
  - reflexivity.
  - vm_compute. reflexivity.
  - exact noon_before_20.
  - exact noon_same_day.
  - reflexivity.
  - intros n a. exists (Session.mk true None). split; reflexivity.
  - exact sample_ids_distinct.
  - exact sample_names_short.
  - exists rs, w'. split; [exact E|]. split; [exact L | exact P].
Defined.

(** An account added with the toy cipher, then its first session. *)
Lemma addAccountCommand_then_session_witness :
  let clock := fun _ : nat => instant 2024 1 2 12 0 in
  let w := freshWorld [alice] None in
  let i := intText (clock 0%nat) in
  let a := mkAccount i "dave" (toyEncrypt 0 "code-d") "E-15" None idle in
  let w1 := snd (addAccountCommand clock toyEncrypt "code-d" "E-15" "dave" w) in
  accounts w1 = [alice; a]
  /\ In (RunSession (mkDecrypted a "code-d"))
        (events (snd (Full.executeSession Full.withChannel "Invalid string length" clock
                        toyDecrypt (fun _ _ => Full.Returned (Session.mk true None))
                        Full.alone i w1))).
Proof.
  intros clock w i a w1.
  destruct (addAccountCommand_then_session Full.withChannel "Invalid string length"
              clock toyEncrypt toyDecrypt
              (fun _ _ => Full.Returned (Session.mk true None))
              "code-d" "E-15" "dave" w) as (_ & A & R).
  - reflexivity.
  - intros x [<-|[]]. vm_compute. discriminate.
  - reflexivity.
  - vm_compute. discriminate.
  - split; [exact A | exact R].
Defined.

